(** * dindee-server: the property search and ranking engine

    A shallow embedding of [src/services/PostQueryHelper.ts] (the current
    [PostQueryHelper] class), of the two search handlers of the posts
    controller ([searchPosts], [getNearbyPosts]) and of
    [PostService.getNearbyPosts], together with the properties the
    specification states about them.

    Conventions of the embedding.
    - A JavaScript [number] is a rational [Q] (exact arithmetic), or
      [JsNum.num] where it may be [NaN]; an optional value is an [option].
      Infinities are not represented.  [calculateDistance] is embedded in
      double precision in [Module Float64], where it can return [NaN], and
      read over the real numbers in [Module Haversine].
    - A string is a [string] of bytes; [toLowerCase] folds the ASCII letters.
    - A MongoDB filter object is a finite map from field paths to clauses;
      object spread and [Object.assign] are right-biased unions of maps.
    - The collection is a list of documents in natural order; [find] and
      [countDocuments] are evaluated in memory and every store access is
      recorded in a log.
    - What the JavaScript runtime and the store decide on their own (the
      regular-expression engine, the store's spherical distance, number
      parsing, [isValidObjectId]) is an [Env], and theorems hold for every
      [Env]. *)

From Stdlib Require Import Ascii String QArith Qminmax Qabs Qround ZArith Reals Qreals.
From Stdlib Require Import Sorted Lia Lra Lqa Btauto.
From Stdlib Require Floats.
From stdpp Require Import gmap strings list.

Close Scope Q_scope.
Close Scope R_scope.
Close Scope Z_scope.

(** ** JavaScript strings *)

Module JsString.

Definition lowerChar (a : ascii) : ascii :=
  let n := nat_of_ascii a in
  if (65 <=? n)%nat && (n <=? 90)%nat then ascii_of_nat (n + 32) else a.

Fixpoint toLowerCase (s : string) : string :=
  match s with
  | EmptyString => EmptyString
  | String a s' => String (lowerChar a) (toLowerCase s')
  end.

Fixpoint startsWith (s sub : string) : bool :=
  match sub, s with
  | EmptyString, _ => true
  | String _ _, EmptyString => false
  | String b sub', String a s' => Ascii.eqb a b && startsWith s' sub'
  end.

(** [s.includes(sub)] *)
Fixpoint includes (s sub : string) : bool :=
  startsWith s sub ||
  match s with
  | EmptyString => false
  | String _ s' => includes s' sub
  end.

(** Truthiness of a string: the empty string is falsy. *)
Definition truthy (s : string) : bool := negb (String.eqb s "").

End JsString.

Import JsString.

(** ** JavaScript numbers *)

Module JsNum.

(** A [number]: [NaN] or a finite value. *)
Inductive num :=
  | NaN
  | Num (q : Q).

(** [truthy n] is the value of a truthy number: [NaN] and [0] are falsy. *)
Definition truthy (n : num) : option Q :=
  match n with
  | Num q => if Qeq_bool q 0 then None else Some q
  | NaN => None
  end.

(** The same for a number that may be [undefined]. *)
Definition truthyOpt (o : option num) : option Q :=
  match o with
  | Some n => truthy n
  | None => None
  end.

Definition Qlt_bool (a b : Q) : bool := negb (Qle_bool b a).

(** [Math.ceil(a / b)] for integers [a], [b]; the quotient is not a finite
    number when [b] is zero. *)
Definition ceilDiv (a b : Z) : option Z :=
  if (b =? 0)%Z then None else Some (- ((- a) / b))%Z.

End JsNum.

(** ** JavaScript arrays *)

Module JsArray.

(** [arr.slice(start, end)] with the relative-index rules of the language:
    a negative index counts from the end of the array. *)
Definition relIndex (len i : Z) : Z :=
  if (i <? 0)%Z then Z.max (len + i) 0 else Z.min i len.

Definition slice {A} (l : list A) (start stop : Z) : list A :=
  let len := Z.of_nat (length l) in
  let k := relIndex len start in
  let final := relIndex len stop in
  take (Z.to_nat (final - k)) (drop (Z.to_nat k) l).

End JsArray.

(** ** Data model *)

Inductive Status := pending | approved | rejected | sold | rented.

#[global] Instance Status_eq_dec : EqDecision Status.
Proof. solve_decision. Defined.

Definition statusName (s : Status) : string :=
  match s with
  | pending => "pending"
  | approved => "approved"
  | rejected => "rejected"
  | sold => "sold"
  | rented => "rented"
  end.

Record User := mkUser {
  userId : string;
  userName : string;
  userEmail : string;
  userAvatar : option string
}.

(** A stored listing ([IPost]); the fields the search engine reads.  The
    address components are [None] when a link of
    [location?.address?.field] is missing. *)
Record Post := mkPost {
  postId : string;
  title : string;
  description : string;
  price : Q;
  area : Q;
  propertyType : string;
  listingType : string;
  condition : string;
  province : option string;
  district : option string;
  street : option string;
  coordinates : Q * Q;            (* GeoJSON order: [longitude, latitude] *)
  bedrooms : option Q;
  bathrooms : option Q;
  roadAccess : option bool;
  waterSource : option bool;
  utilities : list string;
  status : Status;
  featured : bool;
  urgent : bool;
  authorId : option string;
  tags : list string;
  keywords : list string;
  viewCount : Q;
  createdAt : Z
}.

(** Schema constraint of the [Post] model on the field the scorer reads:
    [viewCount: { type: Number, default: 0, min: 0 }]. *)
Definition schemaValid (p : Post) : Prop := (0 <= viewCount p)%Q.

Record Store := mkStore {
  postsOf : list Post;
  usersOf : list User
}.

(** ** The environment: runtime and store primitives *)

Class Env := {
  (** whether [new RegExp(pattern, "i")] accepts the pattern; the constructor
      throws a [SyntaxError] for a pattern it does not accept *)
  regexCompiles : string -> bool;
  (** [regex.test(subject)] for the regular expression compiled from the
      pattern, also the store's [{ $regex: pattern, $options: "i" }] *)
  regexTest : string -> string -> bool;
  (** the store's distance in meters between two [lng, lat] points, as used
      by [$near] / [$maxDistance] *)
  geoDistance : Q * Q -> Q * Q -> Q;
  (** [PostQueryHelper.calculateDistance(lat1, lon1, lat2, lon2)] where it
      returns a number; its body is embedded in [Module Float64] and read
      over the real numbers in [Module Haversine] *)
  calculateDistance : Q -> Q -> Q -> Q -> Z;
  (** [parseFloat] *)
  parseFloat : string -> JsNum.num;
  (** [parseInt]; [None] is [NaN] *)
  parseInt : string -> option Z;
  (** [mongoose.isValidObjectId] *)
  isValidObjectId : string -> bool
}.

(** ** Filter objects *)

Inductive Value :=
  | VStr (s : string)
  | VNum (n : JsNum.num)
  | VBool (b : bool)
  | VStrs (l : list string)
  | VPoint (lnglat : Q * Q)
  | VMissing.

(** The condition attached to one field path. *)
Inductive Cond :=
  | CEq (v : Value)                         (* field: value *)
  | CRegex (pattern : string)               (* { $regex, $options: "i" } *)
  | CRange (gte lte : option Q)             (* { $gte?, $lte? } *)
  | CNear (center : Q * Q) (maxDistance : JsNum.num)
                                            (* { $near: { $geometry, $maxDistance } } *)
  | CIn (choices : list string)             (* { $in: [strings] } *)
  | CInRegex (patterns : list string).      (* { $in: [regexes] } *)

(** The value of one key of a filter object: a condition on that path, or
    the alternatives of [$or]. *)
Inductive Clause :=
  | Field (c : Cond)
  | Or (alternatives : list (string * Cond)).

Abbreviation Query := (gmap string Clause).

(** [{ ...a, ...b }] and [Object.assign(a, b)]: keys of [b] win. *)
Definition assign (a b : Query) : Query := b ∪ a.

Definition getField (p : Post) (path : string) : Value :=
  let optStr (o : option string) :=
    match o with Some s => VStr s | None => VMissing end in
  let optNum (o : option Q) :=
    match o with Some q => VNum (JsNum.Num q) | None => VMissing end in
  let optBool (o : option bool) :=
    match o with Some b => VBool b | None => VMissing end in
  if String.eqb path "status" then VStr (statusName (status p))
  else if String.eqb path "title" then VStr (title p)
  else if String.eqb path "description" then VStr (description p)
  else if String.eqb path "price" then VNum (JsNum.Num (price p))
  else if String.eqb path "area" then VNum (JsNum.Num (area p))
  else if String.eqb path "propertyType" then VStr (propertyType p)
  else if String.eqb path "listingType" then VStr (listingType p)
  else if String.eqb path "condition" then VStr (condition p)
  else if String.eqb path "featured" then VBool (featured p)
  else if String.eqb path "urgent" then VBool (urgent p)
  else if String.eqb path "tags" then VStrs (tags p)
  else if String.eqb path "keywords" then VStrs (keywords p)
  else if String.eqb path "location.address.province" then optStr (province p)
  else if String.eqb path "location.address.district" then optStr (district p)
  else if String.eqb path "location.address.street" then optStr (street p)
  else if String.eqb path "location.coordinates" then VPoint (coordinates p)
  else if String.eqb path "houseDetails.bedrooms" then optNum (bedrooms p)
  else if String.eqb path "houseDetails.bathrooms" then optNum (bathrooms p)
  else if String.eqb path "landDetails.roadAccess" then optBool (roadAccess p)
  else if String.eqb path "landDetails.waterSource" then optBool (waterSource p)
  else if String.eqb path "landDetails.utilities" then VStrs (utilities p)
  else VMissing.

Section Matching.
Context `{Env}.

Definition strIn (s : string) (l : list string) : bool :=
  existsb (String.eqb s) l.

Definition matchCond (v : Value) (c : Cond) : bool :=
  match c, v with
  | CEq (VStr s), VStr s' => String.eqb s' s
  | CEq (VStr s), VStrs l => strIn s l
  | CEq (VNum (JsNum.Num q)), VNum (JsNum.Num q') => Qeq_bool q' q
  | CEq (VBool b), VBool b' => Bool.eqb b' b
  | CRegex pat, VStr s => regexTest pat s
  | CRegex pat, VStrs l => existsb (regexTest pat) l
  | CRange lo hi, VNum (JsNum.Num q) =>
      match lo with Some a => Qle_bool a q | None => true end &&
      match hi with Some b => Qle_bool q b | None => true end
  | CNear center (JsNum.Num maxd), VPoint pt =>
      Qle_bool (geoDistance center pt) maxd
  | CIn choices, VStr s => strIn s choices
  | CIn choices, VStrs l => existsb (fun s => strIn s choices) l
  | CInRegex pats, VStr s => existsb (fun pat => regexTest pat s) pats
  | CInRegex pats, VStrs l =>
      existsb (fun s => existsb (fun pat => regexTest pat s) pats) l
  | _, _ => false
  end.

Definition matchClause (p : Post) (path : string) (cl : Clause) : bool :=
  match cl with
  | Field c => matchCond (getField p path) c
  | Or alts => existsb (fun kc => matchCond (getField p kc.1) kc.2) alts
  end.

(** A document satisfies a filter object when it satisfies every key. *)
Definition matches (q : Query) (p : Post) : bool :=
  forallb (fun kc => matchClause p kc.1 kc.2) (map_to_list q).

End Matching.

(** ** The store: [find], [countDocuments], and the access log *)

Inductive SortField := ByCreatedAt | ByPrice | ByArea.

(** A sort object with one key ([{ createdAt: -1 }], [{ price: 1 }], ...);
    the empty sort object [{}] is [None]. *)
Record SortSpec := mkSort {
  sortField : SortField;
  descending : bool
}.

Definition sortKey (f : SortField) (p : Post) : Q :=
  match f with
  | ByCreatedAt => inject_Z (createdAt p)
  | ByPrice => price p
  | ByArea => area p
  end.

Section StableSort.
Context {A : Type} (before : A -> A -> bool).

(** [x] is placed ahead of the first element that is not strictly before
    it, so elements that compare equal keep their relative order. *)
Fixpoint insertBy (x : A) (l : list A) : list A :=
  match l with
  | [] => [x]
  | y :: ys => if before y x then y :: insertBy x ys else x :: y :: ys
  end.

Definition stableSort (l : list A) : list A := foldr insertBy [] l.

End StableSort.

Section Descending.
Context {A : Type} (key : A -> Q).

(** [y] goes before [x] when its key is strictly greater. *)
Definition greaterFirst (y x : A) : bool := JsNum.Qlt_bool (key x) (key y).

(** Keys that do not increase along the list. *)
Definition descendingBy : list A -> Prop :=
  StronglySorted (fun a b => (key b <= key a)%Q).

End Descending.

Inductive StoreOp :=
  | OpFind (q : Query) (sort : option SortSpec) (skip limit : Z)
  | OpCount (q : Query)
  | OpFindUsers (ids : list string).

Inductive Outcome (A : Type) :=
  | Done (a : A)
  | Thrown (msg : string).
Arguments Done {A} a.
Arguments Thrown {A} msg.

(** A computation that talks to the store: its outcome and the store
    accesses it performed, in order. *)
Definition M (A : Type) : Type := Outcome A * list StoreOp.

Definition ret {A} (a : A) : M A := (Done a, []).

Definition bind {A B} (m : M A) (f : A -> M B) : M B :=
  match m with
  | (Done a, ops) => let r := f a in (r.1, ops ++ r.2)
  | (Thrown e, ops) => (Thrown e, ops)
  end.

(** [Promise.all([a, b])]: both accesses are issued; the result is rejected
    when one of them is. *)
Definition both {A B} (a : M A) (b : M B) : M (A * B) :=
  (match a.1, b.1 with
   | Done x, Done y => Done (x, y)
   | Thrown e, _ => Thrown e
   | _, Thrown e => Thrown e
   end, a.2 ++ b.2).

(** The value a computation produced, if it was not rejected, and the
    store accesses it performed. *)
Definition resultOf {A} (m : M A) : option A :=
  match m.1 with
  | Done a => Some a
  | Thrown _ => None
  end.

Definition logOf {A} (m : M A) : list StoreOp := m.2.

#[global] Instance M_ret : MRet M := @ret.
#[global] Instance M_bind : MBind M := fun A B f m => bind m f.

(** Code that does not talk to the store returns or throws. *)
#[global] Instance Outcome_ret : MRet Outcome := @Done.
#[global] Instance Outcome_bind : MBind Outcome := fun A B f o =>
  match o with
  | Done a => f a
  | Thrown e => Thrown e
  end.

(** Such code inside a computation: no store access. *)
Definition lift {A} (o : Outcome A) : M A := (o, []).

Section StoreOps.
Context `{Env}.

Definition nearCenter (q : Query) : option (Q * Q) :=
  match q !! "location.coordinates" with
  | Some (Field (CNear c _)) => Some c
  | _ => None
  end.

(** Order in which the store returns the matching documents: the explicit
    sort when there is one; otherwise nearest first under [$near], and
    natural order without it. *)
Definition ordered (q : Query) (sort : option SortSpec) (l : list Post)
  : list Post :=
  match sort with
  | Some s =>
      if descending s
      then stableSort (fun y x =>
             JsNum.Qlt_bool (sortKey (sortField s) x) (sortKey (sortField s) y)) l
      else stableSort (fun y x =>
             JsNum.Qlt_bool (sortKey (sortField s) y) (sortKey (sortField s) x)) l
  | None =>
      match nearCenter q with
      | Some c =>
          stableSort (fun y x =>
            JsNum.Qlt_bool (geoDistance c (coordinates y))
                           (geoDistance c (coordinates x))) l
      | None => l
      end
  end.

(** [.limit(n)]: zero means no limit; a negative limit is its absolute
    value. *)
Definition limitDocs {A} (n : Z) (l : list A) : list A :=
  if (n =? 0)%Z then l else take (Z.abs_nat n) l.

(** [Post.find(q).sort(sort).skip(skip).limit(limit).lean()]; the store
    rejects a negative skip (what else it may reject, such as a [$regex]
    string it cannot compile or a malformed point, is not modelled). *)
Definition find (db : Store) (q : Query) (sort : option SortSpec)
  (skip limit : Z) : M (list Post) :=
  (if (skip <? 0)%Z then Thrown "Skip value must be non-negative"
   else Done (limitDocs limit
                (drop (Z.to_nat skip)
                   (ordered q sort (List.filter (matches q) (postsOf db))))),
   [OpFind q sort skip limit]).

(** [Post.countDocuments(q)]: the number of matching documents (limits
    the store may put on the operators of a count are not modelled) *)
Definition countDocuments (db : Store) (q : Query) : M nat :=
  (Done (length (List.filter (matches q) (postsOf db))), [OpCount q]).

(** [User.find({ _id: { $in: ids } }).select("name email avatar").lean()] *)
Definition findUsers (db : Store) (ids : list string) : M (list User) :=
  (Done (List.filter (fun u => strIn (userId u) ids) (usersOf db)),
   [OpFindUsers ids]).

End StoreOps.

(** ** PostQueryHelper *)

(** The [params] object of [advancedSearch]; an absent key is [None]. *)
Module SearchParams.
Record t := mk {
  searchText : option string;
  latitude : option JsNum.num;
  longitude : option JsNum.num;
  radius : option JsNum.num;
  propertyType : option string;
  listingType : option string;
  minPrice : option JsNum.num;
  maxPrice : option JsNum.num;
  minArea : option JsNum.num;
  maxArea : option JsNum.num;
  province : option string;
  district : option string;
  bedrooms : option JsNum.num;
  bathrooms : option JsNum.num;
  condition : option string;
  featured : option bool;
  urgent : option bool;
  sortBy : option string;
  page : option Z;
  limit : option Z;
  roadAccess : option bool;
  waterSource : option bool;
  electricity : option bool
}.

Definition empty : t :=
  mk None None None None None None None None None None None None
     None None None None None None None None None None None.
End SearchParams.

(** A lean document as the helper returns it: the listing, its author after
    population ([None] is [null]), and the two computed annotations, present
    only when the helper attached them. *)
Record Hit := mkHit {
  doc : Post;
  author : option User;
  relevanceScore : option Q;
  distance : option Z
}.

Record Pagination := mkPagination {
  current : Z;
  total : option Z;         (* Math.ceil(total / limit); [None]: not finite *)
  count : nat;
  totalCount : nat;
  pageLimit : Z
}.

Record SearchCenter := mkCenter {
  centerLatitude : Q;
  centerLongitude : Q;
  centerRadius : JsNum.num
}.

(** The echo of the request in [searchInfo.appliedFilters]; a range is
    [null] ([None]) when neither bound is truthy. *)
Record AppliedFilters := mkApplied {
  appliedSearchText : option string;
  appliedPropertyType : option string;
  appliedListingType : option string;
  priceRange : option (option JsNum.num * option JsNum.num);
  areaRange : option (option JsNum.num * option JsNum.num);
  appliedLocation : option string * option string;
  appliedHouseDetails : option (option JsNum.num * option JsNum.num);
  appliedCondition : option string;
  appliedFeatured : option bool;
  appliedUrgent : option bool
}.

Record SearchInfo := mkInfo {
  hasGeospatialFilter : bool;
  searchCenter : option SearchCenter;
  appliedFilters : AppliedFilters
}.

Record SearchResponse := mkResponse {
  posts : list Hit;
  pagination : Pagination;
  searchInfo : SearchInfo
}.

Module PostQueryHelper.
Section Helper.
Context `{Env}.

Definition approvedOnly : Query := {[ "status" := Field (CEq (VStr "approved")) ]}.

Definition nearQuery (latitude longitude : Q) (radius : JsNum.num) : Clause :=
  Field (CNear (longitude, latitude) radius).

(** [.populate("authorId", "name email avatar")] *)
Definition populate (db : Store) (docs : list Post) : M (list Hit) :=
  users ← findUsers db (omap authorId docs);
  mret (map (fun p =>
         mkHit p
           (match authorId p with
            | Some id => List.find (fun u => String.eqb (userId u) id) users
            | None => None
            end) None None) docs).

Definition findNearbyPosts (db : Store) (latitude longitude : Q)
  (radiusInMeters : JsNum.num) (filter : Query) (skip limit : Z)
  : M (list Hit) :=
  let query :=
    assign (<["location.coordinates" := nearQuery latitude longitude radiusInMeters]>
              approvedOnly) filter in
  docs ← find db query None skip limit;
  populate db docs.

Definition countNearbyPosts (db : Store) (latitude longitude : Q)
  (radiusInMeters : JsNum.num) (filter : Query) : M nat :=
  let query :=
    assign (<["location.coordinates" := nearQuery latitude longitude radiusInMeters]>
              approvedOnly) filter in
  countDocuments db query.

Definition findWithAdvancedFilter (db : Store) (filter : Query)
  (sortQuery : option SortSpec) (skip limit : Z) : M (list Hit * nat) :=
  let query := assign approvedOnly filter in
  both (docs ← find db query sortQuery skip limit; populate db docs)
       (countDocuments db query).

Definition buildRangeQuery (field : string) (min max : option JsNum.num)
  : Query :=
  match JsNum.truthyOpt min, JsNum.truthyOpt max with
  | None, None => ∅
  | lo, hi => {[ field := Field (CRange lo hi) ]}
  end.

(** The [SyntaxError] of [new RegExp]; the engine's message also names the
    pattern and the reason. *)
Definition syntaxError : string := "SyntaxError: Invalid regular expression".

(** [new RegExp(pattern, "i")]: the regular expression, which the filter
    objects hold by its pattern, or the error of the constructor. *)
Definition newRegExp (pattern : string) : Outcome string :=
  if regexCompiles pattern then Done pattern else Thrown syntaxError.

(** The object [buildTextSearchQuery] returns for a compiled pattern. *)
Definition textSearchClauses (searchRegex : string) : Query :=
  {[ "$or" := Or [ ("title", CRegex searchRegex);
                   ("description", CRegex searchRegex);
                   ("location.address.street", CRegex searchRegex);
                   ("location.address.district", CRegex searchRegex);
                   ("location.address.province", CRegex searchRegex);
                   ("tags", CInRegex [searchRegex]);
                   ("keywords", CInRegex [searchRegex]) ] ]}.

Definition buildTextSearchQuery (searchText : string) : Outcome Query :=
  if negb (truthy searchText) then Done ∅
  else
    searchRegex ← newRegExp searchText;
    mret (textSearchClauses searchRegex).

(** [opt?.toLowerCase().includes(searchLower)] *)
Definition optIncludes (o : option string) (searchLower : string) : bool :=
  match o with
  | Some s => includes (toLowerCase s) searchLower
  | None => false
  end.

Definition calculateRelevanceScore (post : Post) (searchText : string) : Q :=
  if negb (truthy searchText) then 0%Q
  else
    let searchLower := toLowerCase searchText in
    let score := 0%Q in
    (* Title match (highest priority) - 10 points, exact match bonus *)
    let score :=
      if truthy (title post) && includes (toLowerCase (title post)) searchLower
      then
        let score := (score + 10)%Q in
        if String.eqb (toLowerCase (title post)) searchLower
        then (score + 5)%Q else score
      else score in
    (* Tags match - 8 points per tag *)
    let score :=
      fold_left (fun score tag =>
        if includes (toLowerCase tag) searchLower then (score + 8)%Q else score)
        (tags post) score in
    (* Keywords match - 7 points per keyword *)
    let score :=
      fold_left (fun score keyword =>
        if includes (toLowerCase keyword) searchLower then (score + 7)%Q else score)
        (keywords post) score in
    (* Province, district, street: 6, 5, 4 points *)
    let score :=
      if optIncludes (province post) searchLower then (score + 6)%Q else score in
    let score :=
      if optIncludes (district post) searchLower then (score + 5)%Q else score in
    let score :=
      if optIncludes (street post) searchLower then (score + 4)%Q else score in
    (* Description match - 3 points *)
    let score :=
      if truthy (description post)
         && includes (toLowerCase (description post)) searchLower
      then (score + 3)%Q else score in
    (* Boost for featured and urgent posts *)
    let score := if featured post then (score + 2)%Q else score in
    let score := if urgent post then (score + 1)%Q else score in
    (* Boost based on view count: max 3 points from views *)
    let score :=
      if negb (Qeq_bool (viewCount post) 0)
      then (score + Qmin (viewCount post / 100) 3)%Q else score in
    score.

(** The sort object chosen by the [switch (sortBy)]; an unknown key leaves
    the initial [{ createdAt: -1 }]. *)
Definition sortQueryOf (sortBy : string) : option SortSpec :=
  if String.eqb sortBy "newest" then Some (mkSort ByCreatedAt true)
  else if String.eqb sortBy "oldest" then Some (mkSort ByCreatedAt false)
  else if String.eqb sortBy "price_asc" then Some (mkSort ByPrice false)
  else if String.eqb sortBy "price_desc" then Some (mkSort ByPrice true)
  else if String.eqb sortBy "area_asc" then Some (mkSort ByArea false)
  else if String.eqb sortBy "area_desc" then Some (mkSort ByArea true)
  else if String.eqb sortBy "distance" then None
  else Some (mkSort ByCreatedAt true).

(** [if (value) query[key] = clause] and its variants: the key is set when
    the guard holds. *)
Definition setWhen (guard : bool) (key : string) (cl : Clause) (q : Query)
  : Query :=
  if guard then <[key := cl]> q else q.

Definition truthyStr (o : option string) : option string :=
  match o with
  | Some s => if truthy s then Some s else None
  | None => None
  end.

Definition setStr (o : option string) (key : string)
  (mk : string -> Clause) (q : Query) : Query :=
  match truthyStr o with Some s => <[key := mk s]> q | None => q end.

Definition setNum (o : option JsNum.num) (key : string) (q : Query) : Query :=
  match JsNum.truthyOpt o with
  | Some n => <[key := Field (CEq (VNum (JsNum.Num n)))]> q
  | None => q
  end.

Definition setBool (o : option bool) (key : string) (q : Query) : Query :=
  match o with
  | Some b => <[key := Field (CEq (VBool b))]> q
  | None => q
  end.

(** [latitude && longitude]: the geocenter the helper acts on. *)
Definition geocenter (params : SearchParams.t) : option (Q * Q) :=
  match JsNum.truthyOpt (SearchParams.latitude params),
        JsNum.truthyOpt (SearchParams.longitude params) with
  | Some lat, Some lng => Some (lat, lng)
  | _, _ => None
  end.

Definition radiusOf (params : SearchParams.t) : JsNum.num :=
  default (JsNum.Num 5000) (SearchParams.radius params).

Definition sortByOf (params : SearchParams.t) : string :=
  default "newest" (SearchParams.sortBy params).

Definition pageOf (params : SearchParams.t) : Z :=
  default 1%Z (SearchParams.page params).

Definition limitOf (params : SearchParams.t) : Z :=
  default 10%Z (SearchParams.limit params).

(** The keys [advancedSearch] sets after the text search, in the order of
    the source. *)
Definition addFilters (params : SearchParams.t) (query : Query) : Query :=
  (* Geospatial search *)
  let query :=
    match geocenter params with
    | Some (lat, lng) =>
        <["location.coordinates" := nearQuery lat lng (radiusOf params)]> query
    | None => query
    end in
  (* Property filters *)
  let query := setStr (SearchParams.propertyType params) "propertyType"
                 (fun s => Field (CEq (VStr s))) query in
  let query := setStr (SearchParams.listingType params) "listingType"
                 (fun s => Field (CEq (VStr s))) query in
  let query := setStr (SearchParams.condition params) "condition"
                 (fun s => Field (CEq (VStr s))) query in
  let query := setBool (SearchParams.featured params) "featured" query in
  let query := setBool (SearchParams.urgent params) "urgent" query in
  (* Location filters *)
  let query := setStr (SearchParams.province params) "location.address.province"
                 (fun s => Field (CRegex s)) query in
  let query := setStr (SearchParams.district params) "location.address.district"
                 (fun s => Field (CRegex s)) query in
  (* Range filters *)
  let query :=
    assign query (buildRangeQuery "price" (SearchParams.minPrice params)
                    (SearchParams.maxPrice params)) in
  let query :=
    assign query (buildRangeQuery "area" (SearchParams.minArea params)
                    (SearchParams.maxArea params)) in
  (* House details filters *)
  let query := setNum (SearchParams.bedrooms params) "houseDetails.bedrooms" query in
  let query := setNum (SearchParams.bathrooms params) "houseDetails.bathrooms" query in
  (* Land details filters *)
  let query := setBool (SearchParams.roadAccess params) "landDetails.roadAccess" query in
  let query := setBool (SearchParams.waterSource params) "landDetails.waterSource" query in
  let query :=
    setWhen (bool_decide (SearchParams.electricity params = Some true))
      "landDetails.utilities"
      (Field (CIn ["electricity"; "Electricity"; "ไฟฟ้า"])) query in
  query.

(** The filter object [advancedSearch] builds; the text search comes first
    and throws when the text does not compile. *)
Definition buildQuery (params : SearchParams.t) : Outcome Query :=
  let query := approvedOnly in
  (* Text search *)
  query ←
    match truthyStr (SearchParams.searchText params) with
    | Some text =>
        textQuery ← buildTextSearchQuery text;
        mret (assign query textQuery)
    | None => mret query
    end;
  mret (addFilters params query).

(** [searchText && sortBy !== "distance"] *)
Definition useRelevanceSort (params : SearchParams.t) : bool :=
  match truthyStr (SearchParams.searchText params) with
  | Some _ => negb (String.eqb (sortByOf params) "distance")
  | None => false
  end.

(** Manual population: every document gets the user its [authorId] names,
    or [null]. *)
Definition validAuthorIds (docs : list Post) : list string :=
  List.filter (fun id => truthy id && isValidObjectId id) (omap authorId docs).

Definition userMap (users : list User) : gmap string User :=
  list_to_map (reverse (map (fun u => (userId u, u)) users)).

Definition resolveAuthor (users : gmap string User) (p : Post) : Hit :=
  mkHit p
    (match authorId p with
     | Some id => if truthy id then users !! id else None
     | None => None
     end) None None.

Definition withScore (searchText : string) (h : Hit) : Hit :=
  mkHit (doc h) (author h)
    (Some (calculateRelevanceScore (doc h) searchText)) (distance h).

(** The comparator [(a, b) => b.relevanceScore - a.relevanceScore]: [y]
    goes strictly before [x] when its score is strictly greater.  An absent
    score makes the difference [NaN], which orders nothing.
    [Array.prototype.sort] is a stable sort ([stableSort]). *)
Definition scoreBefore (y x : Hit) : bool :=
  match relevanceScore y, relevanceScore x with
  | Some sy, Some sx => JsNum.Qlt_bool sx sy
  | _, _ => false
  end.

Definition withDistance (latitude longitude : Q) (h : Hit) : Hit :=
  let coords := coordinates (doc h) in
  let postLng := coords.1 in
  let postLat := coords.2 in
  mkHit (doc h) (author h) (relevanceScore h)
    (Some (calculateDistance latitude longitude postLat postLng)).

(** [a || b ? { a, b } : null] *)
Definition pairWhenAny (a b : option JsNum.num)
  : option (option JsNum.num * option JsNum.num) :=
  match JsNum.truthyOpt a, JsNum.truthyOpt b with
  | None, None => None
  | _, _ => Some (a, b)
  end.

Definition echoFilters (params : SearchParams.t) : AppliedFilters :=
  mkApplied
    (SearchParams.searchText params)
    (SearchParams.propertyType params)
    (SearchParams.listingType params)
    (pairWhenAny (SearchParams.minPrice params) (SearchParams.maxPrice params))
    (pairWhenAny (SearchParams.minArea params) (SearchParams.maxArea params))
    (SearchParams.province params, SearchParams.district params)
    (pairWhenAny (SearchParams.bedrooms params) (SearchParams.bathrooms params))
    (SearchParams.condition params)
    (SearchParams.featured params)
    (SearchParams.urgent params).

Definition advancedSearch (db : Store) (params : SearchParams.t)
  : M SearchResponse :=
  let searchText := truthyStr (SearchParams.searchText params) in
  let page := pageOf params in
  let limit := limitOf params in
  query ← lift (buildQuery params);
  let sortQuery := sortQueryOf (sortByOf params) in
  let skip := ((page - 1) * limit)%Z in
  (* For relevance sorting, fetch more results initially to score and sort *)
  let fetchLimit := if useRelevanceSort params then (limit * 5)%Z else limit in
  let fetchSkip := if useRelevanceSort params then 0%Z else skip in
  '(docs, total) ← both (find db query sortQuery fetchSkip fetchLimit)
                        (countDocuments db query);
  users ← findUsers db (validAuthorIds docs);
  let populated := map (resolveAuthor (userMap users)) docs in
  (* Calculate relevance scores if search text is provided *)
  let processedPosts :=
    match searchText with
    | Some text =>
        let scored := map (withScore text) populated in
        if useRelevanceSort params
        then JsArray.slice (stableSort scoreBefore scored) skip (skip + limit)
        else scored
    | None => populated
    end in
  (* Add distance calculation if geospatial search *)
  let postsWithDistance :=
    match geocenter params with
    | Some (lat, lng) => map (withDistance lat lng) processedPosts
    | None => processedPosts
    end in
  mret (mkResponse postsWithDistance
          (mkPagination page (JsNum.ceilDiv (Z.of_nat total) limit)
             (length docs) total limit)
          (mkInfo (bool_decide (is_Some (geocenter params)))
             (match geocenter params with
              | Some (lat, lng) => Some (mkCenter lat lng (radiusOf params))
              | None => None
              end)
             (echoFilters params))).

End Helper.
End PostQueryHelper.

(** ** PostService *)

(** [PostFilter] without the geospatial keys; an absent key is [None]. *)
Module PostFilter.
Record t := mk {
  status : option string;
  propertyType : option string;
  listingType : option string;
  minPrice : option JsNum.num;
  maxPrice : option JsNum.num;
  location : option string;
  province : option string;
  district : option string;
  bedrooms : option JsNum.num;
  bathrooms : option JsNum.num;
  minArea : option JsNum.num;
  maxArea : option JsNum.num;
  condition : option string;
  featured : option bool;
  urgent : option bool;
  roadAccess : option bool;
  waterSource : option bool;
  electricity : option bool;
  sortBy : option string
}.

Definition empty : t :=
  mk None None None None None None None None None None None None None None
     None None None None None.

(** The filter record read as a filter object, key by key, as
    [{ ...filter }] does. *)
Definition asQuery (f : t) : Query :=
  let str key (o : option string) (q : Query) : Query :=
    match o with Some s => <[key := Field (CEq (VStr s))]> q | None => q end in
  let num key (o : option JsNum.num) (q : Query) : Query :=
    match o with Some n => <[key := Field (CEq (VNum n))]> q | None => q end in
  let bool key (o : option bool) (q : Query) : Query :=
    match o with Some b => <[key := Field (CEq (VBool b))]> q | None => q end in
  str "status" (status f)
    (str "propertyType" (propertyType f)
    (str "listingType" (listingType f)
    (num "minPrice" (minPrice f)
    (num "maxPrice" (maxPrice f)
    (str "location" (location f)
    (str "province" (province f)
    (str "district" (district f)
    (num "bedrooms" (bedrooms f)
    (num "bathrooms" (bathrooms f)
    (num "minArea" (minArea f)
    (num "maxArea" (maxArea f)
    (str "condition" (condition f)
    (bool "featured" (featured f)
    (bool "urgent" (urgent f)
    (bool "roadAccess" (roadAccess f)
    (bool "waterSource" (waterSource f)
    (bool "electricity" (electricity f)
    (str "sortBy" (sortBy f) ∅)))))))))))))))))).
End PostFilter.

Record NearbyResult := mkNearby {
  nearbyPosts : list Hit;
  nearbyPagination : Pagination;
  nearbyCenter : SearchCenter
}.

Module PostService.
Section Service.
Context `{Env}.

(** [try { ... } catch (error) { throw new Error(prefix + error) }] *)
Definition rethrow {A} (prefix : string) (m : M A) : M A :=
  match m with
  | (Thrown e, ops) => (Thrown (prefix +:+ e), ops)
  | done => done
  end.

(** The service builds a filter object of its own and then hands the
    caller's [filter] to the helper; the object it built is not used. *)
Definition getNearbyPosts (db : Store) (latitude longitude : Q)
  (radiusInMeters : JsNum.num) (page limit : Z) (filter : option PostFilter.t)
  : M NearbyResult :=
  rethrow "Error getting nearby posts: "
    (let skip := ((page - 1) * limit)%Z in
     let raw := match filter with Some f => PostFilter.asQuery f | None => ∅ end in
     found ← PostQueryHelper.findNearbyPosts db latitude longitude
                radiusInMeters raw skip limit;
     total ← PostQueryHelper.countNearbyPosts db latitude longitude
                radiusInMeters raw;
     mret (mkNearby
             (map (fun h =>
                mkHit (doc h) (author h) (relevanceScore h)
                  (Some (calculateDistance latitude longitude
                           (coordinates (doc h)).2 (coordinates (doc h)).1)))
                found)
             (mkPagination page (JsNum.ceilDiv (Z.of_nat total) limit)
                (length found) total limit)
             (mkCenter latitude longitude radiusInMeters))).

Definition advancedSearch (db : Store) (params : SearchParams.t)
  : M SearchResponse :=
  rethrow "Error in advanced search: " (PostQueryHelper.advancedSearch db params).

End Service.
End PostService.

(** ** The posts controller: [searchPosts] and [getNearbyPosts] *)

Inductive HttpResponse :=
  | BadRequest (message : string)                               (* 400 *)
  | SuccessWithPagination (data : list Hit) (page limit : Z)
      (total : nat) (totalPages : option Z) (message : string)  (* 200 *)
  | InternalError (message : string).                           (* 500 *)

(** [res.status(code)] *)
Definition statusCode (r : HttpResponse) : nat :=
  match r with
  | BadRequest _ => 400
  | SuccessWithPagination _ _ _ _ _ _ => 200
  | InternalError _ => 500
  end.

(** [req.query]: the query-string parameters of the request. *)
Abbreviation Request := (gmap string string).

Module PostController.
Section Controller.
Context `{Env}.

(** [req.query.key] when it is truthy *)
Definition param (req : Request) (key : string) : option string :=
  PostQueryHelper.truthyStr (req !! key).

(** [parseInt(req.query.key as string) || fallback] *)
Definition intOr (req : Request) (key : string) (fallback : Z) : Z :=
  match req !! key with
  | Some s =>
      match parseInt s with
      | Some z => if (z =? 0)%Z then fallback else z
      | None => fallback
      end
  | None => fallback
  end.

Definition intParam (req : Request) (key : string) : option JsNum.num :=
  match param req key with
  | Some s =>
      Some (match parseInt s with
            | Some z => JsNum.Num (inject_Z z)
            | None => JsNum.NaN
            end)
  | None => None
  end.

Definition floatParam (req : Request) (key : string) : option JsNum.num :=
  parseFloat <$> param req key.

(** [if (req.query.key) filter.key = req.query.key === "true"] *)
Definition flagParam (req : Request) (key : string) : option bool :=
  (fun s => String.eqb s "true") <$> param req key.

(** The handler's outer [try/catch]: a rejection becomes a 500 response. *)
Definition respond (m : M HttpResponse) (message : string)
  : HttpResponse * list StoreOp :=
  match m with
  | (Done r, ops) => (r, ops)
  | (Thrown _, ops) => (InternalError message, ops)
  end.

Definition searchParamsOf (req : Request) : SearchParams.t :=
  let geo := bool_decide (is_Some (param req "latitude"))
             && bool_decide (is_Some (param req "longitude")) in
  SearchParams.mk
    (param req "search")
    (if geo then floatParam req "latitude" else None)
    (if geo then floatParam req "longitude" else None)
    (if geo
     then Some (default (JsNum.Num 5000) (floatParam req "radius"))
     else None)
    (param req "propertyType")
    (param req "listingType")
    (floatParam req "minPrice")
    (floatParam req "maxPrice")
    (floatParam req "minArea")
    (floatParam req "maxArea")
    (param req "province")
    (param req "district")
    (intParam req "bedrooms")
    (intParam req "bathrooms")
    (param req "condition")
    (flagParam req "featured")
    (flagParam req "urgent")
    (param req "sortBy")
    (Some (intOr req "page" 1))
    (Some (intOr req "limit" 10))
    (flagParam req "roadAccess")
    (flagParam req "waterSource")
    (flagParam req "electricity").

Definition searchPosts (db : Store) (req : Request)
  : HttpResponse * list StoreOp :=
  respond
    (result ← PostService.advancedSearch db (searchParamsOf req);
     mret (SuccessWithPagination (posts result)
             (current (pagination result)) (pageLimit (pagination result))
             (totalCount (pagination result)) (total (pagination result))
             "Posts search completed successfully"))
    "Error searching posts".

(** [isNaN(lat) || isNaN(lng) || lat < -90 || lat > 90 || lng < -180 ||
    lng > 180]: the coordinates when the test fails. *)
Definition validCoordinates (lat lng : JsNum.num) : option (Q * Q) :=
  match lat, lng with
  | JsNum.Num la, JsNum.Num lo =>
      if JsNum.Qlt_bool la (-90) || JsNum.Qlt_bool 90 la
         || JsNum.Qlt_bool lo (-180) || JsNum.Qlt_bool 180 lo
      then None else Some (la, lo)
  | _, _ => None
  end.

Definition nearbyFilterOf (req : Request) : PostFilter.t :=
  PostFilter.mk None
    (param req "propertyType") (param req "listingType")
    (floatParam req "minPrice") (floatParam req "maxPrice")
    None None None None None
    (floatParam req "minArea") (floatParam req "maxArea")
    None None None None None None None.

(** The success message of the source interpolates the number of results
    and the radius; it is a constant here. *)
Definition getNearbyPosts (db : Store) (req : Request)
  : HttpResponse * list StoreOp :=
  let radius := default (JsNum.Num 5000) (floatParam req "radius") in
  let page := intOr req "page" 1 in
  let limit := intOr req "limit" 10 in
  match param req "latitude", param req "longitude" with
  | Some latitude, Some longitude =>
      match validCoordinates (parseFloat latitude) (parseFloat longitude) with
      | None => (BadRequest "Invalid latitude or longitude values", [])
      | Some (lat, lng) =>
          respond
            (result ← PostService.getNearbyPosts db lat lng radius page limit
                        (Some (nearbyFilterOf req));
             mret (SuccessWithPagination (nearbyPosts result)
                     (current (nearbyPagination result))
                     (pageLimit (nearbyPagination result))
                     (totalCount (nearbyPagination result))
                     (total (nearbyPagination result))
                     "Found posts within radius"))
            "Error searching nearby posts"
      end
  | _, _ => (BadRequest "Latitude and longitude are required", [])
  end.

End Controller.
End PostController.

(** ** The distance formula over the real numbers

    [calculateDistance] computes with floating-point numbers ([Module
    Float64] below); here its body is read in exact arithmetic over the
    reals, [Math.sin], [Math.cos], [Math.sqrt] and [Math.atan2] being the
    real functions and [Math.round] rounding half up.  In this reading the
    term [a] never leaves [[0, 1]] and the result is always a number. *)

(** The [calculateDistance] of an environment, under a name that the
    module below does not reuse. *)
Definition helperDistance (E : Env) : Q -> Q -> Q -> Q -> Z :=
  @calculateDistance E.

Module Haversine.
Local Open Scope R_scope.

Definition deg2rad (deg : R) : R := deg * (PI / 180).

(** [Math.atan2(y, x)] *)
Definition atan2 (y x : R) : R :=
  if Rlt_dec 0 x then atan (y / x)
  else if Rlt_dec x 0 then
    if Rle_dec 0 y then atan (y / x) + PI else atan (y / x) - PI
  else if Rlt_dec 0 y then PI / 2
  else if Rlt_dec y 0 then - (PI / 2)
  else 0.

(** [Math.round(x)]: the largest integer not above [x + 1/2] *)
Definition round (x : R) : Z := Int_part (x + / 2).

(** [PostQueryHelper.calculateDistance] *)
Definition calculateDistance (lat1 lon1 lat2 lon2 : R) : Z :=
  let R := 6371 in
  let dLat := deg2rad (lat2 - lat1) in
  let dLon := deg2rad (lon2 - lon1) in
  let a :=
    sin (dLat / 2) * sin (dLat / 2) +
    cos (deg2rad lat1) * cos (deg2rad lat2) * sin (dLon / 2) * sin (dLon / 2) in
  let c := 2 * atan2 (sqrt a) (sqrt (1 - a)) in
  let distance := R * c * 1000 in
  round distance.

(** [CoordinateUtils.calculateDistance]: the same formula, in kilometers
    and not rounded. *)
Definition coordinateUtilsDistance (lat1 lng1 lat2 lng2 : R) : R :=
  let R := 6371 in
  let dLat := deg2rad (lat2 - lat1) in
  let dLng := deg2rad (lng2 - lng1) in
  let a :=
    sin (dLat / 2) * sin (dLat / 2) +
    cos (deg2rad lat1) * cos (deg2rad lat2) * sin (dLng / 2) * sin (dLng / 2) in
  let c := 2 * atan2 (sqrt a) (sqrt (1 - a)) in
  R * c.

(** The formula as the specification writes it, on angles in radians:
    [a = sin²(Δlat/2) + cos(lat1)·cos(lat2)·sin²(Δlon/2)] and
    [d = 2·R·atan2(√a, √(1−a))] with [R] = 6371 km, and the conversion of
    degrees to radians, 180 degrees being [PI]. *)
Definition specA (phi1 lambda1 phi2 lambda2 : R) : R :=
  (sin ((phi2 - phi1) / 2))² + cos phi1 * cos phi2 * (sin ((lambda2 - lambda1) / 2))².

Definition radians (degrees : R) : R := degrees / 180 * PI.

Definition specKilometers (lat1 lon1 lat2 lon2 : R) : R :=
  let a := specA (radians lat1) (radians lon1) (radians lat2) (radians lon2) in
  2 * 6371 * atan2 (sqrt a) (sqrt (1 - a)).

(** [z] is [x] rounded to the nearest integer, a tie going up. *)
Definition nearestInteger (x : R) (z : Z) : Prop :=
  x - / 2 < IZR z <= x + / 2.

(** An environment whose [calculateDistance] is the function of the
    source, on the coordinates read as real numbers. *)
Definition implementedBy (E : Env) : Prop :=
  forall lat1 lon1 lat2 lon2 : Q,
    helperDistance E lat1 lon1 lat2 lon2
    = calculateDistance (Q2R lat1) (Q2R lon1) (Q2R lat2) (Q2R lon2).

End Haversine.

(** ** The distance formula in double precision

    The numbers of [calculateDistance] are IEEE 754 binary64 values.  The
    arithmetic and [Math.sqrt] are those of the standard, the primitive
    floating-point numbers of the kernel; [Math.sin], [Math.cos],
    [Math.atan2] and [Math.round] are the runtime's, a [MathLib]. *)

Module Float64.
Import Floats.
Local Open Scope float_scope.

(** A decimal literal denotes the nearest double, as in JavaScript. *)
#[local] Set Warnings "-inexact-float".

Class MathLib := {
  sin : float -> float;
  cos : float -> float;
  atan2 : float -> float -> float;
  round : float -> float
}.

(** [Math.PI] *)
Definition PI : float := 0x1.921fb54442d18p+1.

Definition deg2rad (deg : float) : float := deg * (PI / 180).

Section Distance.
Context `{MathLib}.

(** [PostQueryHelper.calculateDistance] *)
Definition calculateDistance (lat1 lon1 lat2 lon2 : float) : float :=
  let R := 6371 in
  let dLat := deg2rad (lat2 - lat1) in
  let dLon := deg2rad (lon2 - lon1) in
  let a :=
    sin (dLat / 2) * sin (dLat / 2) +
    cos (deg2rad lat1) * cos (deg2rad lat2) * sin (dLon / 2) * sin (dLon / 2) in
  let c := 2 * atan2 (sqrt a) (sqrt (1 - a)) in
  let distance := R * c * 1000 in
  round distance.

(** [CoordinateUtils.calculateDistance] *)
Definition coordinateUtilsDistance (lat1 lng1 lat2 lng2 : float) : float :=
  let R := 6371 in
  let dLat := deg2rad (lat2 - lat1) in
  let dLng := deg2rad (lng2 - lng1) in
  let a :=
    sin (dLat / 2) * sin (dLat / 2) +
    cos (deg2rad lat1) * cos (deg2rad lat2) * sin (dLng / 2) * sin (dLng / 2) in
  let c := 2 * atan2 (sqrt a) (sqrt (1 - a)) in
  R * c.

End Distance.

(** What ECMAScript fixes of the two functions the example below ends in:
    [Math.atan2(y, NaN)] and [Math.round(NaN)] are [NaN]. *)
Definition propagatesNaN (lib : MathLib) : Prop :=
  (forall y : float, atan2 y nan = nan) /\ round nan = nan.

(** The sines and cosines of the example below, correctly rounded, as V8
    and the C library return them. *)
Definition roundsCorrectly (lib : MathLib) : Prop :=
  sin 0.868596263510766 = 0.763423017723346 /\
  cos 0.868596263510766 = 0.6458988279987663 /\
  cos (-0.868596263510766) = 0.6458988279987663 /\
  sin 1.5707963267948966 = 1.

(** A library that knows the values above and nothing else: what it does
    not know is [NaN]. *)
Definition tableLib : MathLib := {|
  sin x :=
    if x =? 0.868596263510766 then 0.763423017723346
    else if x =? 1.5707963267948966 then 1
    else nan;
  cos x :=
    if abs x =? 0.868596263510766 then 0.6458988279987663 else nan;
  atan2 y x := nan;
  round x := nan
|}.

End Float64.

(** ** The scoring table of the specification *)

Module ScoreSpec.

Definition weight (b : bool) (w : Q) : Q := if b then w else 0%Q.

(** Case-insensitive containment and equality of the query. *)
Definition containsQuery (text field : string) : bool :=
  includes (toLowerCase field) (toLowerCase text).

Definition equalsQuery (text field : string) : bool :=
  String.eqb (toLowerCase field) (toLowerCase text).

Definition optContains (text : string) (o : option string) : bool :=
  match o with Some s => containsQuery text s | None => false end.

Definition countContaining (text : string) (l : list string) : Q :=
  inject_Z (Z.of_nat (length (List.filter (containsQuery text) l))).

(** The weights of the table, added up. *)
Definition tableScore (post : Post) (text : string) : Q :=
  (weight (containsQuery text (title post)) 10
   + weight (equalsQuery text (title post)) 5
   + 8 * countContaining text (tags post)
   + 7 * countContaining text (keywords post)
   + weight (optContains text (province post)) 6
   + weight (optContains text (district post)) 5
   + weight (optContains text (street post)) 4
   + weight (containsQuery text (description post)) 3
   + weight (featured post) 2
   + weight (urgent post) 1
   + Qmin (viewCount post / 100) 3)%Q.

(** A listing that matches the query in its description and in no other
    text field. *)
Definition descriptionOnly (text : string) (post : Post) : Prop :=
  containsQuery text (description post) = true /\
  containsQuery text (title post) = false /\
  Forall (fun tag => containsQuery text tag = false) (tags post) /\
  Forall (fun keyword => containsQuery text keyword = false) (keywords post) /\
  optContains text (province post) = false /\
  optContains text (district post) = false /\
  optContains text (street post) = false.

End ScoreSpec.

(** ** Names for the stages of [advancedSearch] *)

Module SearchSpec.
Section Stages.
Context `{Env}.
Import PostQueryHelper.

Definition skipOf (params : SearchParams.t) : Z :=
  ((pageOf params - 1) * limitOf params)%Z.

Definition fetchLimitOf (params : SearchParams.t) : Z :=
  if useRelevanceSort params then (limitOf params * 5)%Z else limitOf params.

Definition fetchSkipOf (params : SearchParams.t) : Z :=
  if useRelevanceSort params then 0%Z else skipOf params.

(** The free text of the request, when there is one, is accepted by
    [new RegExp]. *)
Definition compiles (params : SearchParams.t) : bool :=
  match truthyStr (SearchParams.searchText params) with
  | Some text => regexCompiles text
  | None => true
  end.

(** The predicate of a request: the filter object [buildQuery] returns when
    the text compiles. *)
Definition predicate (params : SearchParams.t) : Query :=
  addFilters params
    match truthyStr (SearchParams.searchText params) with
    | Some text => assign approvedOnly (textSearchClauses text)
    | None => approvedOnly
    end.

(** The listings that satisfy the predicate of the request; a request whose
    text does not compile has no predicate, and no listing is counted for
    it. *)
Definition matching (db : Store) (params : SearchParams.t) : list Post :=
  if compiles params
  then List.filter (matches (predicate params)) (postsOf db)
  else [].

(** The same listings in the order the store returns them. *)
Definition nativeOrder (db : Store) (params : SearchParams.t) : list Post :=
  ordered (predicate params) (sortQueryOf (sortByOf params)) (matching db params).

(** The documents the one [find] of the request returns. *)
Definition window (db : Store) (params : SearchParams.t) : list Post :=
  limitDocs (fetchLimitOf params)
    (drop (Z.to_nat (fetchSkipOf params)) (nativeOrder db params)).

Definition populated (db : Store) (params : SearchParams.t) : list Hit :=
  map (resolveAuthor
         (userMap (List.filter
                     (fun u => strIn (userId u) (validAuthorIds (window db params)))
                     (usersOf db))))
    (window db params).

(** The window with a score on every candidate, and the same after the
    sort by score. *)
Definition scored (db : Store) (params : SearchParams.t) (text : string)
  : list Hit :=
  map (withScore text) (populated db params).

Definition ranked (db : Store) (params : SearchParams.t) (text : string)
  : list Hit :=
  stableSort scoreBefore (scored db params text).

Definition processed (db : Store) (params : SearchParams.t) : list Hit :=
  match truthyStr (SearchParams.searchText params) with
  | Some text =>
      if useRelevanceSort params
      then JsArray.slice (ranked db params text) (skipOf params)
             (skipOf params + limitOf params)
      else scored db params text
  | None => populated db params
  end.

(** The distance annotation of the last stage. *)
Definition annotated (params : SearchParams.t) (l : list Hit) : list Hit :=
  match geocenter params with
  | Some (lat, lng) => map (withDistance lat lng) l
  | None => l
  end.

Definition accesses (db : Store) (params : SearchParams.t) : list StoreOp :=
  [ OpFind (predicate params) (sortQueryOf (sortByOf params))
      (fetchSkipOf params) (fetchLimitOf params);
    OpCount (predicate params);
    OpFindUsers (validAuthorIds (window db params)) ].

(** The request with other paging and sorting parameters. *)
Definition withPaging (params : SearchParams.t) (sortBy : option string)
  (page limit : option Z) : SearchParams.t :=
  SearchParams.mk
    (SearchParams.searchText params) (SearchParams.latitude params)
    (SearchParams.longitude params) (SearchParams.radius params)
    (SearchParams.propertyType params) (SearchParams.listingType params)
    (SearchParams.minPrice params) (SearchParams.maxPrice params)
    (SearchParams.minArea params) (SearchParams.maxArea params)
    (SearchParams.province params) (SearchParams.district params)
    (SearchParams.bedrooms params) (SearchParams.bathrooms params)
    (SearchParams.condition params) (SearchParams.featured params)
    (SearchParams.urgent params) sortBy page limit
    (SearchParams.roadAccess params) (SearchParams.waterSource params)
    (SearchParams.electricity params).

(** Scores that do not increase along the array: for positions [i < j] the
    score at [i] is at least the score at [j]. *)
Definition scoresNonIncreasing (l : list Hit) : Prop :=
  forall (i j : nat) (a b : Hit),
    (i < j)%nat -> l !! i = Some a -> l !! j = Some b ->
    exists sa sb : Q,
      relevanceScore a = Some sa /\ relevanceScore b = Some sb /\ (sb <= sa)%Q.

Definition scoreIs (s : Q) (h : Hit) : bool :=
  match relevanceScore h with
  | Some s' => Qeq_bool s' s
  | None => false
  end.

Definition scoreKey (h : Hit) : Q := default 0%Q (relevanceScore h).

Definition hasScore (h : Hit) : Prop := is_Some (relevanceScore h).

End Stages.
End SearchSpec.

(** ** A concrete environment for examples

    Patterns are read literally (case-insensitive substring search), and a
    pattern that starts with a quantifier is refused (nothing to repeat);
    distances are taxicab distances in degrees, parsing accepts unsigned
    decimal integers, and every non-empty identifier is well formed. *)

Module Demo.

Definition digitOf (a : ascii) : option Z :=
  let n := nat_of_ascii a in
  if (48 <=? n)%nat && (n <=? 57)%nat then Some (Z.of_nat (n - 48)) else None.

Fixpoint digits (acc : Z) (s : string) : Z :=
  match s with
  | EmptyString => acc
  | String a s' =>
      match digitOf a with
      | Some d => digits (10 * acc + d)%Z s'
      | None => acc
      end
  end.

Definition parseNat (s : string) : option Z :=
  match s with
  | EmptyString => None
  | String a _ =>
      match digitOf a with
      | Some _ => Some (digits 0%Z s)
      | None => None
      end
  end.

#[export] Instance env : Env := {|
  regexCompiles pat :=
    negb (startsWith pat "+" || startsWith pat "*" || startsWith pat "?");
  regexTest pat s := includes (toLowerCase s) (toLowerCase pat);
  geoDistance a b := (Qabs (a.1 - b.1) + Qabs (a.2 - b.2))%Q;
  calculateDistance lat1 lon1 lat2 lon2 :=
    Qfloor (Qabs (lat1 - lat2) + Qabs (lon1 - lon2))%Q;
  parseFloat s :=
    match parseNat s with Some z => JsNum.Num (inject_Z z) | None => JsNum.NaN end;
  parseInt := parseNat;
  isValidObjectId s := truthy s
|}.

Definition listing (id ttl descr : string) (st : Status) (views : Q) (t : Z)
  : Post :=
  mkPost id ttl descr 100 50 "house" "sell" "good"
    (Some "Vientiane") (Some "Sisattanak") (Some "Main road")
    (1026331 # 10000, 179757 # 10000)%Q None None None None []
    st false false (Some "u1") [] [] views t.

Definition alice : User := mkUser "u1" "Alice" "alice@example.com" None.

Definition houseNearMarket : Post :=
  listing "p2" "House near market" "Two floors, quiet street" approved 0 2.

Definition villaByTheMarket : Post :=
  listing "p1" "Villa" "A short walk to the market" approved 0 1.

Definition pendingLand : Post :=
  listing "p3" "Land by the river" "Flat plot" pending 0 3.

Definition marketStore : Store :=
  mkStore [villaByTheMarket; houseNearMarket; pendingLand] [alice].

(** Seven approved listings that all match "market". *)
Definition stall (k : Z) : Post :=
  listing "stall" "Market stall" "Roofed" approved 0 k.

Definition manyMarkets : Store :=
  mkStore (map stall [1; 2; 3; 4; 5; 6; 7]%Z) [alice].

Definition request (text : option string) (lat lng : option JsNum.num)
  (sortBy : option string) (page limit : option Z) : SearchParams.t :=
  SearchParams.mk text lat lng None None None None None None None None None
    None None None None None sortBy page limit None None None.

(** [{ searchText: "market" }] *)
Definition marketSearch : SearchParams.t :=
  request (Some "market") None None None None None.

(** [{ searchText: "market", sortBy: "distance" }] *)
Definition marketByDistance : SearchParams.t :=
  request (Some "market") None None (Some "distance") None None.

(** [{ searchText: "market", page: 6, limit: 1 }] *)
Definition marketPageSix : SearchParams.t :=
  request (Some "market") None None None (Some 6%Z) (Some 1%Z).

(** [{ searchText: "+market" }]: a quantifier with nothing to repeat,
    alone, with a sort key, and on page 6. *)
Definition plusMarket : SearchParams.t :=
  request (Some "+market") None None None None None.


Definition plusMarketPageSix : SearchParams.t :=
  request (Some "+market") None None None (Some 6%Z) (Some 1%Z).

(** [{ latitude: 0, longitude: 102.6331 }]: a geocenter on the equator. *)
Definition equatorSearch : SearchParams.t :=
  request None (Some (JsNum.Num 0)) (Some (JsNum.Num (1026331 # 10000)))
    None None None.

(** [{ latitude: 1, longitude: 102.6331 }] *)
Definition offEquatorSearch : SearchParams.t :=
  request None (Some (JsNum.Num 1)) (Some (JsNum.Num (1026331 # 10000)))
    None None None.

(** [{ status: "pending" }], as a filter object and as a [PostFilter] *)
Definition pendingFilter : Query :=
  {[ "status" := Field (CEq (VStr "pending")) ]}.

Definition pendingPostFilter : PostFilter.t :=
  PostFilter.mk (Some "pending") None None None None None None None None None
    None None None None None None None None None.

(** The title match a little further from the center than the description
    match, and stored first. *)
Definition farHouse : Post :=
  mkPost "p2" "House near market" "Two floors, quiet street" 100 50
    "house" "sell" "good" (Some "Vientiane") (Some "Sisattanak")
    (Some "Main road") (1027000 # 10000, 180000 # 10000)%Q
    None None None None [] approved false false (Some "u1") [] [] 0 2.

Definition twoDistances : Store :=
  mkStore [farHouse; villaByTheMarket] [alice].

(** [{ searchText: "market", sortBy: "distance", latitude: 17.9757,
    longitude: 102.6331 }] *)
Definition marketNearCenter : SearchParams.t :=
  request (Some "market") (Some (JsNum.Num (179757 # 10000)))
    (Some (JsNum.Num (1026331 # 10000))) (Some "distance") None None.

(** [GET /search?latitude=999&longitude=102] *)
Definition latitude999 : Request :=
  <["latitude" := "999"]> (<["longitude" := "102"]> ∅).

End Demo.

(** ** Pages of one request *)

Module Paging.
Section Pages.
Context `{Env}.
Import PostQueryHelper SearchSpec.

(** The request for page [i], everything else unchanged. *)
Definition atPage (params : SearchParams.t) (i : Z) : SearchParams.t :=
  withPaging params (SearchParams.sortBy params) (Some i)
    (SearchParams.limit params).

(** The listings on page [i] of a request, in order; nothing when the
    request is rejected. *)
Definition pageDocs (db : Store) (params : SearchParams.t) (i : Z) : list Post :=
  match resultOf (advancedSearch db (atPage params i)) with
  | Some r => map doc (posts r)
  | None => []
  end.

(** Pages [1 .. k], one after the other. *)
Definition firstPages (db : Store) (params : SearchParams.t) (k : nat)
  : list Post :=
  concat (map (fun i => pageDocs db params (Z.of_nat i)) (seq 1 k)).

End Pages.
End Paging.

(** Keys that do not decrease along the list. *)
Definition ascendingBy {A : Type} (key : A -> Q) : list A -> Prop :=
  StronglySorted (fun a b => (key a <= key b)%Q).

(** [regexTest] on a field that may be missing *)
Definition optTest `{Env} (text : string) (o : option string) : bool :=
  match o with Some s => regexTest text s | None => false end.

(** ** The predicate, condition by condition

    What the filter object of a request asks of a listing, written out:
    approved; the text clause; the radius; the exact-match fields, the
    administrative text fields and the ranges that are present. *)

Section Conditions.
Context `{Env}.
Import PostQueryHelper.




(** The pattern matches one of the seven text fields. *)
Definition textMatches (text : string) (p : Post) : bool :=
  regexTest text (title p) || regexTest text (description p)
  || optTest text (street p) || optTest text (district p)
  || optTest text (province p)
  || existsb (regexTest text) (tags p)
  || existsb (regexTest text) (keywords p).




End Conditions.

(** A query string that the regular-expression engine reads literally (it
    has no metacharacter): the pattern compiles and matches exactly the
    subjects that contain it, ignoring case. *)
Definition literalPattern `{Env} (text : string) : Prop :=
  regexCompiles text = true /\
  forall subject : string,
    regexTest text subject = ScoreSpec.containsQuery text subject.

(** A geocenter that [getNearbyPosts] does not accept: a coordinate is
    missing or empty, is not a number, or lies outside [-90, 90] for the
    latitude and [-180, 180] for the longitude. *)
Definition invalidGeocenter `{Env} (req : Request) : Prop :=
  match PostController.param req "latitude",
        PostController.param req "longitude" with
  | Some latitude, Some longitude =>
      match parseFloat latitude, parseFloat longitude with
      | JsNum.Num lat, JsNum.Num lng =>
          (lat < -90 \/ 90 < lat \/ lng < -180 \/ 180 < lng)%Q
      | _, _ => True
      end
  | _, _ => True
  end.

(** ** CoordinateUtils *)

Module CoordinateUtils.

(** A GeoJSON point as the functions meet it at run time: [coordinates] is
    [None] when it is not an array. *)
Record GeoJSONPoint := mkPoint {
  pointType : string;
  pointCoordinates : option (list JsNum.num)
}.

(** [{ latitude, longitude }]; a component is [None] when it is
    [undefined]. *)
Record LatLngCoordinates := mkLatLng {
  latitude : option JsNum.num;
  longitude : option JsNum.num
}.

(** [a < q], [a > q], [a >= q], [a <= q] on a number that may be [NaN]:
    every comparison with [NaN] is false. *)
Definition lt (a : JsNum.num) (q : Q) : bool :=
  match a with JsNum.Num x => JsNum.Qlt_bool x q | JsNum.NaN => false end.

Definition gt (a : JsNum.num) (q : Q) : bool :=
  match a with JsNum.Num x => JsNum.Qlt_bool q x | JsNum.NaN => false end.

Definition ge (a : JsNum.num) (q : Q) : bool :=
  match a with JsNum.Num x => Qle_bool q x | JsNum.NaN => false end.

Definition le (a : JsNum.num) (q : Q) : bool :=
  match a with JsNum.Num x => Qle_bool x q | JsNum.NaN => false end.

(** The messages of the two errors interpolate the rejected value; they are
    constants here. *)
Definition toGeoJSON (latitude longitude : JsNum.num) : Outcome GeoJSONPoint :=
  if lt latitude (-90) || gt latitude 90
  then Thrown "Invalid latitude. Must be between -90 and 90"
  else if lt longitude (-180) || gt longitude 180
  then Thrown "Invalid longitude. Must be between -180 and 180"
  else Done (mkPoint "Point" (Some [longitude; latitude])).

Definition fromGeoJSON (geoPoint : option GeoJSONPoint)
  : Outcome LatLngCoordinates :=
  match geoPoint with
  | None => Thrown "Invalid GeoJSON Point format"
  | Some g =>
      if negb (String.eqb (pointType g) "Point")
      then Thrown "Invalid GeoJSON Point format"
      else
        match pointCoordinates g with
        | None => Thrown "Invalid GeoJSON Point format"
        | Some coordinates =>
            Done (mkLatLng (coordinates !! 1%nat) (coordinates !! 0%nat))
        end
  end.

(** Approximate bounds of Laos: north 22.5, south 13.9, east 107.6,
    west 100.1. *)
Definition isInLaos (latitude longitude : JsNum.num) : bool :=
  ge latitude (139 # 10) && le latitude (225 # 10)
  && ge longitude (1001 # 10) && le longitude (1076 # 10).

End CoordinateUtils.

(** [CoordinateUtils.createBoundingBox], over the real numbers. *)
Module BoundingBox.
Local Open Scope R_scope.

Record Box := mkBox {
  minLat : R;
  maxLat : R;
  minLng : R;
  maxLng : R
}.

Definition createBoundingBox (centerLat centerLng radiusKm : R) : Box :=
  let latDelta := radiusKm / 111.32 in
  let lngDelta := radiusKm / (111.32 * cos (centerLat * PI / 180)) in
  mkBox (centerLat - latDelta) (centerLat + latDelta)
        (centerLng - lngDelta) (centerLng + lngDelta).

End BoundingBox.

(** ** In-memory pagination of PostService

    [PostService.searchPosts], [getUserPosts] and [getPostsByCategory] fetch
    a whole list from the repository and cut the page out of it with the
    same code; [paginate] is that code, on the list the repository
    returned. *)

Module ListPaging.

Record Page (A : Type) := mkPage {
  pagePosts : list A;
  pagePagination : Pagination
}.
Arguments mkPage {A} pagePosts pagePagination.
Arguments pagePosts {A} p.
Arguments pagePagination {A} p.

Definition paginate {A} (posts : list A) (page limit : Z) : Page A :=
  let startIndex := ((page - 1) * limit)%Z in
  let endIndex := (startIndex + limit)%Z in
  let paginatedPosts := JsArray.slice posts startIndex endIndex in
  mkPage paginatedPosts
    (mkPagination page
       (JsNum.ceilDiv (Z.of_nat (length posts)) limit)
       (length paginatedPosts)
       (length posts)
       limit).

(** Pages [1 .. k], one after the other. *)
Definition firstPages {A} (posts : list A) (limit : Z) (k : nat) : list A :=
  concat (map (fun i => pagePosts (paginate posts (Z.of_nat i) limit)) (seq 1 k)).

End ListPaging.

(** ** The polygon center of PostQueryHelper *)

Module Polygon.

(** [getPolygonCenter]: the mean of the vertices, [lng, lat]; for an empty
    array both quotients are [0 / 0]. *)
Definition getPolygonCenter (coordinates : list (Q * Q))
  : JsNum.num * JsNum.num :=
  let totals :=
    fold_left (fun (acc : Q * Q) (coord : Q * Q) =>
                 ((acc.1 + coord.1)%Q, (acc.2 + coord.2)%Q))
      coordinates (0%Q, 0%Q) in
  let totalLng := totals.1 in
  let totalLat := totals.2 in
  let numPoints := length coordinates in
  match numPoints with
  | O => (JsNum.NaN, JsNum.NaN)
  | S _ =>
      (JsNum.Num (totalLng / inject_Z (Z.of_nat numPoints)),
       JsNum.Num (totalLat / inject_Z (Z.of_nat numPoints)))
  end.

End Polygon.

(** ** The earlier PostQueryHelper

    The file of the helper also holds its earlier version, whose
    [advancedSearch] has no relevance ranking, no land filters and uses
    [populate]. *)

Module LegacyPostQueryHelper.
Section Legacy.
Context `{Env}.
Import PostQueryHelper.

Definition buildTextSearchQuery (searchText : string) : Outcome Query :=
  if negb (truthy searchText) then Done ∅
  else
    searchRegex ← newRegExp searchText;
    mret ({[ "$or" := Or [ ("title", CRegex searchRegex);
                           ("description", CRegex searchRegex);
                           ("location.address.street", CRegex searchRegex);
                           ("location.address.district", CRegex searchRegex);
                           ("location.address.province", CRegex searchRegex);
                           ("tags", CInRegex [searchRegex]) ] ]} : Query).

(** The keys the earlier [advancedSearch] sets after the text search. *)
Definition addFilters (params : SearchParams.t) (query : Query) : Query :=
  (* Geospatial search *)
  let query :=
    match geocenter params with
    | Some (lat, lng) =>
        <["location.coordinates" := nearQuery lat lng (radiusOf params)]> query
    | None => query
    end in
  (* Property filters *)
  let query := setStr (SearchParams.propertyType params) "propertyType"
                 (fun s => Field (CEq (VStr s))) query in
  let query := setStr (SearchParams.listingType params) "listingType"
                 (fun s => Field (CEq (VStr s))) query in
  let query := setStr (SearchParams.condition params) "condition"
                 (fun s => Field (CEq (VStr s))) query in
  let query := setBool (SearchParams.featured params) "featured" query in
  let query := setBool (SearchParams.urgent params) "urgent" query in
  (* Location filters *)
  let query := setStr (SearchParams.province params) "location.address.province"
                 (fun s => Field (CRegex s)) query in
  let query := setStr (SearchParams.district params) "location.address.district"
                 (fun s => Field (CRegex s)) query in
  (* Range filters *)
  let query :=
    assign query (buildRangeQuery "price" (SearchParams.minPrice params)
                    (SearchParams.maxPrice params)) in
  let query :=
    assign query (buildRangeQuery "area" (SearchParams.minArea params)
                    (SearchParams.maxArea params)) in
  (* House details filters *)
  let query := setNum (SearchParams.bedrooms params) "houseDetails.bedrooms" query in
  let query := setNum (SearchParams.bathrooms params) "houseDetails.bathrooms" query in
  query.

Definition buildQuery (params : SearchParams.t) : Outcome Query :=
  let query := approvedOnly in
  (* Text search *)
  query ←
    match truthyStr (SearchParams.searchText params) with
    | Some text =>
        textQuery ← buildTextSearchQuery text;
        mret (assign query textQuery)
    | None => mret query
    end;
  mret (addFilters params query).

Definition advancedSearch (db : Store) (params : SearchParams.t)
  : M SearchResponse :=
  let page := pageOf params in
  let limit := limitOf params in
  query ← lift (buildQuery params);
  let sortQuery := sortQueryOf (sortByOf params) in
  let skip := ((page - 1) * limit)%Z in
  '(found, total) ← both (docs ← find db query sortQuery skip limit;
                          populate db docs)
                         (countDocuments db query);
  (* Add distance calculation if geospatial search *)
  let postsWithDistance :=
    match geocenter params with
    | Some (lat, lng) => map (withDistance lat lng) found
    | None => found
    end in
  mret (mkResponse postsWithDistance
          (mkPagination page (JsNum.ceilDiv (Z.of_nat total) limit)
             (length found) total limit)
          (mkInfo (bool_decide (is_Some (geocenter params)))
             (match geocenter params with
              | Some (lat, lng) => Some (mkCenter lat lng (radiusOf params))
              | None => None
              end)
             (echoFilters params))).

End Legacy.
End LegacyPostQueryHelper.

(** ** More example data *)

Module DemoMore.
Import Demo.

(** [GET /nearby?latitude=17&longitude=102] *)
Definition nearbyRequest : Request :=
  <["latitude" := "17"]> (<["longitude" := "102"]> ∅).

(** A triangle and a rectangle that holds it. *)
Definition triangle : list (Q * Q) := [(0, 0); (4, 0); (2, 3)]%Q.

Definition ids : list nat := [1; 2; 3; 4; 5]%nat.

End DemoMore.

(** * Properties *)

(** ** Strings *)

Lemma startsWith_refl (s : string) : startsWith s s = true.
Proof.
  induction s as [|a s IH]; simpl; [reflexivity|].
  rewrite Ascii.eqb_refl. exact IH.
Qed.

Lemma includes_refl (s : string) : includes s s = true.
Proof. destruct s; simpl; [reflexivity|]. rewrite Ascii.eqb_refl, startsWith_refl. reflexivity. Qed.

Lemma includes_empty_l (sub : string) : includes "" sub = true -> sub = "".
Proof. destruct sub; simpl; [reflexivity | discriminate]. Qed.

Lemma toLowerCase_truthy (s : string) :
  truthy (toLowerCase s) = truthy s.
Proof. destruct s; reflexivity. Qed.

Lemma truthy_spec (s : string) : truthy s = true <-> s <> "".
Proof.
  unfold truthy. destruct (String.eqb_spec s ""); simpl; split; intros; congruence.
Qed.

(** A falsy (empty) field contains no truthy query, so the guard
    [field && ...] of the scorer changes nothing. *)
Lemma guarded_includes (field searchLower : string) :
  truthy searchLower = true ->
  truthy field && includes (toLowerCase field) searchLower
  = includes (toLowerCase field) searchLower.
Proof.
  intros Hq. destruct field as [|a field]; [|reflexivity]. simpl.
  destruct searchLower; [discriminate | reflexivity].
Qed.

(** ** The relevance scorer *)

Section ScorerFacts.
Import ScoreSpec PostQueryHelper.
Local Open Scope Q_scope.

Lemma fold_weight (P : string -> bool) (w : Q) (l : list string) (acc : Q) :
  fold_left (fun score x => if P x then score + w else score) l acc
  == acc + w * inject_Z (Z.of_nat (length (List.filter P l))).
Proof.
  revert acc. induction l as [|x l IH]; intros acc.
  - simpl. change (inject_Z (Z.of_nat 0)) with 0. lra.
  - cbn [fold_left List.filter]. rewrite IH. destruct (P x); [|reflexivity].
    cbn [length]. rewrite Nat2Z.inj_succ, <- Z.add_1_r, inject_Z_plus.
    change (inject_Z 1) with 1. lra.
Qed.

Lemma popularity_nonneg (v : Q) : 0 <= v -> 0 <= Qmin (v / 100) 3.
Proof.
  intros Hv. apply Q.min_glb; [|lra].
  unfold Qdiv. apply Qmult_le_0_compat; [exact Hv | apply Qinv_le_0_compat; lra].
Qed.

Lemma popularity_le (v : Q) : Qmin (v / 100) 3 <= 3.
Proof. apply Q.le_min_r. Qed.

Lemma popularity_zero (v : Q) : Qeq_bool v 0 = true -> Qmin (v / 100) 3 == 0.
Proof.
  intros Hv. apply Qeq_bool_iff in Hv. rewrite Hv.
  rewrite Q.min_l; [reflexivity | vm_compute; discriminate].
Qed.

Lemma countContaining_nonneg (text : string) (l : list string) :
  0 <= countContaining text l.
Proof.
  unfold countContaining. change 0 with (inject_Z 0).
  rewrite <- Zle_Qle. lia.
Qed.

Lemma countContaining_none (text : string) (l : list string) :
  Forall (fun s => containsQuery text s = false) l ->
  countContaining text l == 0.
Proof.
  intros Hl. unfold countContaining.
  replace (List.filter (containsQuery text) l) with (@nil string); [reflexivity|].
  induction Hl as [|x l Hx _ IH]; simpl; [reflexivity|]. rewrite Hx. exact IH.
Qed.

Lemma weight_nonneg (b : bool) (w : Q) : 0 <= w -> 0 <= weight b w.
Proof. destruct b; simpl; lra. Qed.

(** The accumulation of the source equals the table of the specification,
    for every listing. *)
Lemma score_table (post : Post) (text : string) :
  text <> "" ->
  calculateRelevanceScore post text == tableScore post text.
Proof.
  intros Htext. apply truthy_spec in Htext.
  assert (Hlow : truthy (toLowerCase text) = true)
    by (rewrite toLowerCase_truthy; exact Htext).
  unfold calculateRelevanceScore, tableScore. rewrite Htext. cbn [negb].
  rewrite !guarded_includes by exact Hlow. cbv zeta.
  change (optIncludes (province post) (toLowerCase text))
    with (optContains text (province post)).
  change (optIncludes (district post) (toLowerCase text))
    with (optContains text (district post)).
  change (optIncludes (street post) (toLowerCase text))
    with (optContains text (street post)).
  fold (containsQuery text (title post)) (containsQuery text (description post))
       (equalsQuery text (title post)).
  assert (Heq : equalsQuery text (title post) = true ->
                containsQuery text (title post) = true).
  { unfold equalsQuery, containsQuery. intros E. apply String.eqb_eq in E.
    rewrite E. apply includes_refl. }
  pose proof (popularity_zero (viewCount post)) as Hz.
  unfold countContaining.
  destruct (containsQuery text (title post)), (equalsQuery text (title post));
    try (specialize (Heq eq_refl); discriminate);
    match goal with
    | |- context [fold_left ?f (keywords post) (fold_left ?g (tags post) ?a)] =>
        pose proof (fold_weight
                      (fun x => includes (toLowerCase x) (toLowerCase text))
                      7 (keywords post) (fold_left g (tags post) a)) as Hk;
        pose proof (fold_weight
                      (fun x => includes (toLowerCase x) (toLowerCase text))
                      8 (tags post) a) as Ht;
        cbv beta in Hk, Ht
    end;
    destruct (optContains text (province post)), (optContains text (district post)),
      (optContains text (street post)), (containsQuery text (description post)),
      (featured post), (urgent post), (Qeq_bool (viewCount post) 0);
    cbn [weight negb]; try specialize (Hz eq_refl);
    change (containsQuery text)
      with (fun x : string => includes (toLowerCase x) (toLowerCase text));
    lra.
Qed.

Lemma tableScore_title_floor (post : Post) (text : string) :
  schemaValid post ->
  containsQuery text (title post) = true ->
  10 + weight (featured post) 2 + weight (urgent post) 1
     + Qmin (viewCount post / 100) 3 <= tableScore post text.
Proof.
  intros Hv Ht. unfold tableScore. rewrite Ht. cbn [weight].
  pose proof (countContaining_nonneg text (tags post)).
  pose proof (countContaining_nonneg text (keywords post)).
  pose proof (weight_nonneg (equalsQuery text (title post)) 5).
  pose proof (weight_nonneg (optContains text (province post)) 6).
  pose proof (weight_nonneg (optContains text (district post)) 5).
  pose proof (weight_nonneg (optContains text (street post)) 4).
  pose proof (weight_nonneg (containsQuery text (description post)) 3).
  lra.
Qed.

Lemma tableScore_descriptionOnly (post : Post) (text : string) :
  descriptionOnly text post ->
  tableScore post text ==
  3 + weight (featured post) 2 + weight (urgent post) 1
    + Qmin (viewCount post / 100) 3.
Proof.
  intros (Hd & Ht & Htags & Hkw & Hp & Hdi & Hs). unfold tableScore.
  assert (He : equalsQuery text (title post) = false).
  { unfold equalsQuery. destruct (String.eqb_spec (toLowerCase (title post))
                                    (toLowerCase text)) as [E|]; [|reflexivity].
    unfold containsQuery in Ht. rewrite E, includes_refl in Ht. discriminate. }
  rewrite Hd, Ht, He, Hp, Hdi, Hs, (countContaining_none _ _ Htags),
    (countContaining_none _ _ Hkw). cbn [weight]. lra.
Qed.

(** C5. For a non-empty query and a listing that satisfies the schema
    ([viewCount] not negative), [calculateRelevanceScore] returns the sum of
    the table: 10 if the title contains the query (ignoring case), 5 more if
    the title equals it, 8 per tag and 7 per keyword containing it, 6, 5, 4
    and 3 for province, district, street and description, 2 if featured,
    1 if urgent, and [min(viewCount/100, 3)]; and the score is not
    negative.  The scorer is a function of its two arguments: equal inputs
    give equal scores and nothing else is read or written. *)
Theorem calculateRelevanceScore_is_table (post : Post) (text : string) :
  text <> "" ->
  schemaValid post ->
  calculateRelevanceScore post text == tableScore post text /\
  0 <= calculateRelevanceScore post text.
Proof.
  intros Htext Hv. split; [apply score_table; exact Htext|].
  rewrite (score_table post text Htext). unfold tableScore.
  pose proof (countContaining_nonneg text (tags post)).
  pose proof (countContaining_nonneg text (keywords post)).
  pose proof (weight_nonneg (containsQuery text (title post)) 10).
  pose proof (weight_nonneg (equalsQuery text (title post)) 5).
  pose proof (weight_nonneg (optContains text (province post)) 6).
  pose proof (weight_nonneg (optContains text (district post)) 5).
  pose proof (weight_nonneg (optContains text (street post)) 4).
  pose proof (weight_nonneg (containsQuery text (description post)) 3).
  pose proof (weight_nonneg (featured post) 2).
  pose proof (weight_nonneg (urgent post) 1).
  pose proof (popularity_nonneg (viewCount post) Hv).
  lra.
Qed.

(** C6, as amended.  A listing whose title contains the query scores
    strictly higher, by at least 1 point, than any listing that matches the
    query only in its description; and by at least 7 points when the two
    listings have the same featured and urgent flags and the same view
    count. *)
Theorem title_match_outranks_description_only (a b : Post) (text : string) :
  text <> "" ->
  schemaValid a ->
  containsQuery text (title a) = true ->
  descriptionOnly text b ->
  calculateRelevanceScore b text + 1 <= calculateRelevanceScore a text /\
  (featured a = featured b -> urgent a = urgent b ->
   viewCount a == viewCount b ->
   calculateRelevanceScore b text + 7 <= calculateRelevanceScore a text).
Proof.
  intros Htext Hv Ha Hb.
  rewrite (score_table a text Htext), (score_table b text Htext).
  rewrite (tableScore_descriptionOnly b text Hb).
  pose proof (tableScore_title_floor a text Hv Ha) as Hfloor.
  pose proof (popularity_nonneg (viewCount a) Hv) as Hpa.
  pose proof (popularity_le (viewCount b)) as Hpb.
  split.
  - pose proof (weight_nonneg (featured a) 2).
    pose proof (weight_nonneg (urgent a) 1).
    assert (weight (featured b) 2 <= 2) by (destruct (featured b); simpl; lra).
    assert (weight (urgent b) 1 <= 1) by (destruct (urgent b); simpl; lra).
    lra.
  - intros Hf Hu Hvc. rewrite <- Hf, <- Hu, <- Hvc. lra.
Qed.

End ScorerFacts.

Section ScorerExamples.
Import ScoreSpec PostQueryHelper Demo.
Local Open Scope Q_scope.

Lemma calculateRelevanceScore_is_table_witness :
  "market" <> "" /\ schemaValid houseNearMarket /\
  calculateRelevanceScore houseNearMarket "market"
    == tableScore houseNearMarket "market" /\
  0 <= calculateRelevanceScore houseNearMarket "market".
Proof.
  split; [discriminate|]. split; [vm_compute; discriminate|].
  apply (calculateRelevanceScore_is_table houseNearMarket "market");
    [discriminate | vm_compute; discriminate].
Defined.

(** C6, as stated, fails: "House near market" scores 10 and a listing with
    "market" only in its description scores 3, a difference of 7. *)
Lemma title_match_not_ten_higher :
  containsQuery "market" (title houseNearMarket) = true /\
  equalsQuery "market" (title houseNearMarket) = false /\
  descriptionOnly "market" villaByTheMarket /\
  calculateRelevanceScore houseNearMarket "market" == 10 /\
  calculateRelevanceScore villaByTheMarket "market" == 3 /\
  ~ (calculateRelevanceScore villaByTheMarket "market" + 10
     <= calculateRelevanceScore houseNearMarket "market").
Proof.
  repeat split; try reflexivity; try (repeat constructor).
  vm_compute. intros Hle. apply Hle. reflexivity.
Qed.

Lemma title_match_outranks_description_only_witness :
  "market" <> "" /\ schemaValid houseNearMarket /\
  containsQuery "market" (title houseNearMarket) = true /\
  descriptionOnly "market" villaByTheMarket /\
  calculateRelevanceScore villaByTheMarket "market" + 1
    <= calculateRelevanceScore houseNearMarket "market" /\
  (featured houseNearMarket = featured villaByTheMarket ->
   urgent houseNearMarket = urgent villaByTheMarket ->
   viewCount houseNearMarket == viewCount villaByTheMarket ->
   calculateRelevanceScore villaByTheMarket "market" + 7
     <= calculateRelevanceScore houseNearMarket "market").
Proof.
  split; [discriminate|]. split; [vm_compute; discriminate|].
  split; [reflexivity|].
  assert (Hd : descriptionOnly "market" villaByTheMarket)
    by (repeat split; try reflexivity; repeat constructor).
  split; [exact Hd|].
  apply (title_match_outranks_description_only houseNearMarket villaByTheMarket
           "market"); [discriminate | vm_compute; discriminate | reflexivity | exact Hd].
Defined.

End ScorerExamples.

(** ** The stable sort *)

Section StableSortFacts.
Context {A : Type} (before : A -> A -> bool).

Lemma insertBy_perm (x : A) (l : list A) : insertBy before x l ≡ₚ x :: l.
Proof.
  induction l as [|y ys IH]; simpl; [reflexivity|].
  destruct (before y x); [|reflexivity].
  rewrite IH. apply Permutation_swap.
Qed.

Lemma stableSort_perm (l : list A) : stableSort before l ≡ₚ l.
Proof.
  induction l as [|x l IH]; simpl; [reflexivity|].
  rewrite insertBy_perm. f_equiv. exact IH.
Qed.

Lemma stableSort_length (l : list A) : length (stableSort before l) = length l.
Proof. apply Permutation_length, stableSort_perm. Qed.

(** Stability: a class of elements no two of which are strictly ordered
    comes out of the sort in the order it went in. *)
Lemma insertBy_filter (P : A -> bool) (x : A) (l : list A) :
  (forall y, P x = true -> P y = true -> before y x = false) ->
  List.filter P (insertBy before x l) = List.filter P (x :: l).
Proof.
  intros Hclass. induction l as [|y ys IH]; [reflexivity|].
  cbn [insertBy]. destruct (before y x) eqn:Hyx; [|reflexivity].
  cbn [List.filter] in *. rewrite IH.
  destruct (P x) eqn:Hx, (P y) eqn:Hy; try reflexivity.
  rewrite (Hclass y eq_refl Hy) in Hyx. discriminate.
Qed.

Lemma stableSort_stable (P : A -> bool) (l : list A) :
  (forall x y, P x = true -> P y = true -> before y x = false) ->
  List.filter P (stableSort before l) = List.filter P l.
Proof.
  intros Hclass. induction l as [|x l IH]; [reflexivity|].
  cbn [stableSort foldr]. fold (stableSort before l).
  rewrite insertBy_filter by (intros y; apply Hclass).
  cbn [List.filter]. rewrite IH. reflexivity.
Qed.

Lemma insertBy_ext (before' : A -> A -> bool) (x : A) (l : list A) :
  (forall y, y ∈ l -> before y x = before' y x) ->
  insertBy before x l = insertBy before' x l.
Proof.
  induction l as [|y ys IH]; intros Hext; [reflexivity|].
  cbn [insertBy]. rewrite (Hext y) by left.
  rewrite IH by (intros z Hz; apply Hext; right; exact Hz). reflexivity.
Qed.

Lemma stableSort_ext (before' : A -> A -> bool) (l : list A) :
  (forall x y, x ∈ l -> y ∈ l -> before y x = before' y x) ->
  stableSort before l = stableSort before' l.
Proof.
  induction l as [|x l IH]; intros Hext; [reflexivity|].
  cbn [stableSort foldr]. fold (stableSort before l) (stableSort before' l).
  rewrite <- IH by (intros a b Ha Hb; apply Hext; right; assumption).
  apply insertBy_ext. intros y Hy. apply Hext; [left|right].
  rewrite stableSort_perm in Hy. exact Hy.
Qed.

End StableSortFacts.

Section DescendingSort.
Context {A : Type} (key : A -> Q).

Lemma Qlt_bool_spec (a b : Q) :
  if JsNum.Qlt_bool a b then (a < b)%Q else (b <= a)%Q.
Proof.
  unfold JsNum.Qlt_bool. destruct (Qle_bool b a) eqn:E; simpl.
  - apply Qle_bool_iff. exact E.
  - apply Qnot_le_lt. intros Hle. apply Qle_bool_iff in Hle. congruence.
Qed.

Lemma insertBy_descending (x : A) (l : list A) :
  descendingBy key l -> descendingBy key (insertBy (greaterFirst key) x l).
Proof.
  unfold descendingBy. induction 1 as [|y ys Hs IH Hall]; simpl.
  - repeat constructor.
  - unfold greaterFirst at 1.
    pose proof (Qlt_bool_spec (key x) (key y)) as Hcmp.
    destruct (JsNum.Qlt_bool (key x) (key y)).
    + constructor; [exact IH|].
      rewrite insertBy_perm.
      constructor; [apply Qlt_le_weak; exact Hcmp | exact Hall].
    + constructor; [constructor; assumption|].
      constructor; [exact Hcmp|].
      eapply Forall_impl; [exact Hall|].
      intros z Hz. simpl in Hz. eapply Qle_trans; eassumption.
Qed.

Lemma stableSort_descending (l : list A) :
  descendingBy key (stableSort (greaterFirst key) l).
Proof.
  induction l as [|x l IH]; simpl; [constructor|].
  apply insertBy_descending. exact IH.
Qed.

Lemma descendingBy_lookup (l : list A) (i j : nat) (a b : A) :
  descendingBy key l -> (i < j)%nat -> l !! i = Some a -> l !! j = Some b ->
  (key b <= key a)%Q.
Proof.
  intros Hs. revert i j. induction Hs as [|x xs Hs IH Hall]; intros i j Hij Hi Hj.
  - discriminate.
  - destruct j as [|j]; [lia|]. destruct i as [|i]; simpl in *.
    + inversion Hi; subst. rewrite Forall_forall in Hall.
      apply Hall. eapply list_elem_of_lookup_2. exact Hj.
    + eapply IH; [|eassumption..]. lia.
Qed.

Lemma descendingBy_drop (n : nat) (l : list A) :
  descendingBy key l -> descendingBy key (drop n l).
Proof.
  unfold descendingBy. intros Hs. revert n.
  induction Hs as [|x xs Hs IH Hall]; intros [|n]; simpl;
    try constructor; auto.
Qed.

Lemma descendingBy_take (n : nat) (l : list A) :
  descendingBy key l -> descendingBy key (take n l).
Proof.
  unfold descendingBy. intros Hs. revert n.
  induction Hs as [|x xs Hs IH Hall]; intros [|n]; simpl;
    try constructor; auto.
  rewrite Forall_forall in *. intros y Hy. apply Hall.
  revert Hy. apply subseteq_take.
Qed.

End DescendingSort.

(** ** Filter objects and the store *)

Section QueryFacts.
Context `{Env}.
Import PostQueryHelper.

Lemma matches_lookup (q : Query) (p : Post) (k : string) (cl : Clause) :
  matches q p = true -> q !! k = Some cl -> matchClause p k cl = true.
Proof.
  unfold matches. rewrite forallb_forall. intros Hall Hk.
  apply (Hall (k, cl)). apply list_elem_of_In, elem_of_map_to_list. exact Hk.
Qed.

Lemma approved_of_match (p : Post) :
  matchClause p "status" (Field (CEq (VStr "approved"))) = true ->
  status p = approved.
Proof. destruct p as [? ? ? ? ? ? ? ? ? ? ? ? ? ? ? ? ? st]. destruct st; simpl; congruence. Qed.

Lemma assign_lookup_None (a b : Query) (k : string) :
  b !! k = None -> assign a b !! k = a !! k.
Proof. intros Hb. unfold assign. rewrite lookup_union_r; [reflexivity | exact Hb]. Qed.

Lemma buildRangeQuery_lookup_ne (field k : string) (lo hi : option JsNum.num) :
  field <> k -> buildRangeQuery field lo hi !! k = None.
Proof.
  intros Hne. unfold buildRangeQuery.
  destruct (JsNum.truthyOpt lo), (JsNum.truthyOpt hi);
    rewrite ?lookup_empty, ?lookup_singleton_ne; auto.
Qed.

Lemma textSearchClauses_lookup_ne (text k : string) :
  "$or" <> k -> textSearchClauses text !! k = None.
Proof.
  intros Hne. unfold textSearchClauses. rewrite lookup_singleton_ne; auto.
Qed.

Lemma setStr_lookup_ne (o : option string) (key k : string)
    (mk : string -> Clause) (q : Query) :
  key <> k -> setStr o key mk q !! k = q !! k.
Proof. intros Hne. unfold setStr. destruct (truthyStr o); rewrite ?lookup_insert_ne; auto. Qed.

Lemma setNum_lookup_ne (o : option JsNum.num) (key k : string) (q : Query) :
  key <> k -> setNum o key q !! k = q !! k.
Proof. intros Hne. unfold setNum. destruct (JsNum.truthyOpt o); rewrite ?lookup_insert_ne; auto. Qed.

Lemma setBool_lookup_ne (o : option bool) (key k : string) (q : Query) :
  key <> k -> setBool o key q !! k = q !! k.
Proof. intros Hne. unfold setBool. destruct o; rewrite ?lookup_insert_ne; auto. Qed.

Lemma setWhen_lookup_ne (g : bool) (key k : string) (cl : Clause) (q : Query) :
  key <> k -> setWhen g key cl q !! k = q !! k.
Proof. intros Hne. unfold setWhen. destruct g; rewrite ?lookup_insert_ne; auto. Qed.

Lemma truthyStr_Some (o : option string) (text : string) :
  truthyStr o = Some text -> truthy text = true /\ text <> "".
Proof.
  unfold truthyStr. destruct o as [s|]; [|discriminate].
  destruct (truthy s) eqn:Hs; [|discriminate]. intros [= <-].
  split; [exact Hs | apply truthy_spec; exact Hs].
Qed.

(** [buildQuery] returns the predicate of the request when the text
    compiles, and throws the [SyntaxError] of [new RegExp] when it does
    not. *)
Lemma buildQuery_compiles (params : SearchParams.t) :
  buildQuery params
  = if SearchSpec.compiles params then Done (SearchSpec.predicate params)
    else Thrown syntaxError.
Proof.
  unfold buildQuery, SearchSpec.compiles, SearchSpec.predicate.
  destruct (truthyStr (SearchParams.searchText params)) as [text|] eqn:Ht;
    [|reflexivity].
  destruct (truthyStr_Some _ _ Ht) as [Htr _].
  unfold buildTextSearchQuery, newRegExp. rewrite Htr. cbn [negb].
  destruct (regexCompiles text); reflexivity.
Qed.

Lemma buildQuery_Done (params : SearchParams.t) (query : Query) :
  buildQuery params = Done query <->
  SearchSpec.compiles params = true /\ query = SearchSpec.predicate params.
Proof.
  rewrite buildQuery_compiles. destruct (SearchSpec.compiles params).
  - split; [intros [= <-]; auto | intros [_ ->]; reflexivity].
  - split; [discriminate | intros [[=] _]].
Qed.

(** No step of [advancedSearch] writes the [status] key again. *)
Lemma predicate_status (params : SearchParams.t) :
  SearchSpec.predicate params !! "status" = Some (Field (CEq (VStr "approved"))).
Proof.
  unfold SearchSpec.predicate, addFilters. cbv zeta.
  rewrite setWhen_lookup_ne, !setBool_lookup_ne, !setNum_lookup_ne by discriminate.
  rewrite !assign_lookup_None by (apply buildRangeQuery_lookup_ne; discriminate).
  rewrite !setStr_lookup_ne, !setBool_lookup_ne, !setStr_lookup_ne by discriminate.
  destruct (geocenter params) as [[lat lng]|];
    rewrite ?lookup_insert_ne by discriminate;
    destruct (truthyStr (SearchParams.searchText params));
    rewrite ?assign_lookup_None
      by (apply textSearchClauses_lookup_ne; discriminate);
    reflexivity.
Qed.

Lemma predicate_approved (params : SearchParams.t) (p : Post) :
  matches (SearchSpec.predicate params) p = true -> status p = approved.
Proof.
  intros Hm. apply approved_of_match.
  apply (matches_lookup _ _ _ _ Hm), predicate_status.
Qed.

Lemma ordered_perm (q : Query) (sort : option SortSpec) (l : list Post) :
  ordered q sort l ≡ₚ l.
Proof.
  unfold ordered. destruct sort as [s|].
  - destruct (descending s); apply stableSort_perm.
  - destruct (nearCenter q); [apply stableSort_perm | reflexivity].
Qed.

Lemma limitDocs_subseteq {A} (n : Z) (l : list A) : limitDocs n l ⊆ l.
Proof. unfold limitDocs. destruct (n =? 0)%Z; [reflexivity | apply subseteq_take]. Qed.

Lemma limitDocs_length {A} (n : Z) (l : list A) :
  (0 < n)%Z -> (Z.of_nat (length (limitDocs n l)) <= n)%Z.
Proof.
  intros Hn. unfold limitDocs. destruct (Z.eqb_spec n 0); [lia|].
  rewrite length_take. lia.
Qed.

End QueryFacts.

(** ** [advancedSearch] *)

Section SearchFacts.
Context `{Env}.
Import PostQueryHelper SearchSpec.

Lemma lift_bind {A B} (a : A) (f : A -> M B) : (lift (Done a) ≫= f) = f a.
Proof.
  unfold lift, mbind, M_bind, bind. cbv zeta. destruct (f a); reflexivity.
Qed.

Lemma matching_compiles (db : Store) (params : SearchParams.t) :
  compiles params = true ->
  matching db params = List.filter (matches (predicate params)) (postsOf db).
Proof. intros Hc. unfold matching. rewrite Hc. reflexivity. Qed.

(** The response of a request whose text compiles and whose [find] is not
    rejected, stage by stage, and the three store accesses it makes. *)
Lemma advancedSearch_done (db : Store) (params : SearchParams.t) :
  compiles params = true ->
  (0 <= fetchSkipOf params)%Z ->
  advancedSearch db params =
  (Done (mkResponse
           (annotated params (processed db params))
           (mkPagination (pageOf params)
              (JsNum.ceilDiv (Z.of_nat (length (matching db params)))
                 (limitOf params))
              (length (window db params))
              (length (matching db params))
              (limitOf params))
           (mkInfo (bool_decide (is_Some (geocenter params)))
              (match geocenter params with
               | Some (lat, lng) => Some (mkCenter lat lng (radiusOf params))
               | None => None
               end)
              (echoFilters params))),
   accesses db params).
Proof.
  intros Hc Hskip. unfold advancedSearch.
  rewrite buildQuery_compiles, Hc, lift_bind. unfold find, countDocuments.
  fold (skipOf params) (fetchLimitOf params) (fetchSkipOf params).
  destruct (Z.ltb_spec (fetchSkipOf params) 0); [lia|].
  rewrite <- (matching_compiles db params Hc). reflexivity.
Qed.

(** A free text that does not compile is the end of the request: the
    [SyntaxError] of [new RegExp] is thrown while the filter object is
    built, before any store access. *)
Lemma advancedSearch_syntax_error (db : Store) (params : SearchParams.t) :
  compiles params = false ->
  advancedSearch db params = (Thrown syntaxError, []).
Proof.
  intros Hc. unfold advancedSearch. rewrite buildQuery_compiles, Hc. reflexivity.
Qed.

Lemma relevance_fetchSkip (params : SearchParams.t) :
  useRelevanceSort params = true -> fetchSkipOf params = 0%Z.
Proof. intros Hr. unfold fetchSkipOf. rewrite Hr. reflexivity. Qed.

Lemma paged_fetchSkip (params : SearchParams.t) :
  (1 <= pageOf params)%Z -> (1 <= limitOf params)%Z ->
  (0 <= fetchSkipOf params)%Z.
Proof.
  intros Hp Hl. unfold fetchSkipOf, skipOf.
  destruct (useRelevanceSort params); nia.
Qed.

Lemma window_subseteq (db : Store) (params : SearchParams.t) :
  window db params ⊆ matching db params.
Proof.
  unfold window, nativeOrder. etransitivity; [apply limitDocs_subseteq|].
  etransitivity; [apply subseteq_drop|].
  intros p Hp. rewrite ordered_perm in Hp. exact Hp.
Qed.

Lemma matching_spec (db : Store) (params : SearchParams.t) (p : Post) :
  p ∈ matching db params ->
  p ∈ postsOf db /\ matches (predicate params) p = true.
Proof.
  unfold matching. destruct (compiles params); [|intros Hp; inversion Hp].
  rewrite !list_elem_of_In, filter_In. auto.
Qed.

End SearchFacts.

(** ** Slices *)

Section SliceFacts.
Context {A : Type}.
Import JsArray.

Lemma slice_subseteq (l : list A) (a b : Z) : slice l a b ⊆ l.
Proof.
  unfold slice. etransitivity; [apply subseteq_take | apply subseteq_drop].
Qed.

(** For a start [a >= 0] and a length [n >= 0], [slice(a, a + n)] is the
    half-open range [[a, a + n)] of the array. *)
Lemma slice_take_drop (l : list A) (a n : Z) :
  (0 <= a)%Z -> (0 <= n)%Z ->
  slice l a (a + n) = take (Z.to_nat n) (drop (Z.to_nat a) l).
Proof.
  intros Ha Hn. unfold slice, relIndex.
  destruct (Z.ltb_spec a 0); [lia|]. destruct (Z.ltb_spec (a + n) 0); [lia|].
  destruct (Z_le_gt_dec (Z.of_nat (length l)) a) as [Hge|Hlt].
  - rewrite (Z.min_r a) by lia. rewrite (Z.min_r (a + n)) by lia.
    rewrite !drop_ge by lia. rewrite !take_nil. reflexivity.
  - rewrite (Z.min_l a) by lia.
    destruct (Z_le_gt_dec (a + n) (Z.of_nat (length l))).
    + rewrite (Z.min_l (a + n)) by lia. f_equal. lia.
    + rewrite (Z.min_r (a + n)) by lia.
      rewrite !take_ge; [reflexivity | |]; rewrite length_drop; lia.
Qed.

Lemma slice_past_end (l : list A) (a n : Z) :
  (Z.of_nat (length l) <= a)%Z -> (0 <= n)%Z -> slice l a (a + n) = [].
Proof.
  intros Ha Hn. rewrite slice_take_drop by lia.
  rewrite drop_ge by lia. apply take_nil.
Qed.

End SliceFacts.

(** ** Ranking by relevance *)

Section RankingFacts.
Context `{Env}.
Import PostQueryHelper SearchSpec.

Lemma scoreBefore_greaterFirst (x y : Hit) :
  hasScore x -> hasScore y -> scoreBefore y x = greaterFirst scoreKey y x.
Proof.
  intros [sx Hx] [sy Hy]. unfold scoreBefore, greaterFirst, scoreKey.
  rewrite Hx, Hy. reflexivity.
Qed.

Lemma stableSort_scores_descending (l : list Hit) :
  Forall hasScore l -> descendingBy scoreKey (stableSort scoreBefore l).
Proof.
  intros Hall. rewrite Forall_forall in Hall.
  rewrite (stableSort_ext scoreBefore (greaterFirst scoreKey)).
  - apply stableSort_descending.
  - intros x y Hx Hy. apply scoreBefore_greaterFirst; auto.
Qed.

Lemma scoresNonIncreasing_of_descending (l : list Hit) :
  Forall hasScore l -> descendingBy scoreKey l -> scoresNonIncreasing l.
Proof.
  intros Hall Hs i j a b Hij Hi Hj. rewrite Forall_forall in Hall.
  destruct (Hall a (list_elem_of_lookup_2 _ _ _ Hi)) as [sa Ha].
  destruct (Hall b (list_elem_of_lookup_2 _ _ _ Hj)) as [sb Hb].
  exists sa, sb. repeat split; try assumption.
  pose proof (descendingBy_lookup scoreKey l i j a b Hs Hij Hi Hj) as Hle.
  unfold scoreKey in Hle. rewrite Ha, Hb in Hle. exact Hle.
Qed.

Lemma scoresNonIncreasing_annotated (params : SearchParams.t) (l : list Hit) :
  scoresNonIncreasing l -> scoresNonIncreasing (annotated params l).
Proof.
  unfold annotated. destruct (geocenter params) as [[lat lng]|]; [|auto].
  intros Hl i j a b Hij Hi Hj.
  rewrite list_lookup_fmap in Hi, Hj.
  destruct (l !! i) as [a'|] eqn:Ei; [|discriminate].
  destruct (l !! j) as [b'|] eqn:Ej; [|discriminate].
  simpl in Hi, Hj. inversion Hi; inversion Hj; subst.
  exact (Hl i j a' b' Hij Ei Ej).
Qed.

Lemma scored_hasScore (db : Store) (params : SearchParams.t) (text : string) :
  Forall hasScore (scored db params text).
Proof.
  unfold scored. rewrite Forall_forall. intros h Hh.
  apply list_elem_of_fmap in Hh as (h' & -> & _). eexists. reflexivity.
Qed.

Lemma ranked_perm (db : Store) (params : SearchParams.t) (text : string) :
  ranked db params text ≡ₚ scored db params text.
Proof. apply stableSort_perm. Qed.

Lemma ranked_hasScore (db : Store) (params : SearchParams.t) (text : string) :
  Forall hasScore (ranked db params text).
Proof. rewrite ranked_perm. apply scored_hasScore. Qed.

Lemma ranked_descending (db : Store) (params : SearchParams.t) (text : string) :
  descendingBy scoreKey (ranked db params text).
Proof. apply stableSort_scores_descending, scored_hasScore. Qed.

(** Candidates with the same score keep the order of the fetch. *)
Lemma ranked_stable (db : Store) (params : SearchParams.t) (text : string) (s : Q) :
  List.filter (scoreIs s) (ranked db params text)
  = List.filter (scoreIs s) (scored db params text).
Proof.
  apply stableSort_stable. intros x y Hx Hy.
  unfold scoreIs in Hx, Hy. unfold scoreBefore.
  destruct (relevanceScore x) as [sx|]; [|discriminate].
  destruct (relevanceScore y) as [sy|]; [|discriminate].
  apply Qeq_bool_iff in Hx, Hy.
  pose proof (Qlt_bool_spec sx sy) as Hcmp.
  destruct (JsNum.Qlt_bool sx sy); [|reflexivity].
  rewrite Hx, Hy in Hcmp. exfalso. exact (Qlt_irrefl _ Hcmp).
Qed.

Lemma scored_spec (db : Store) (params : SearchParams.t) (text : string) :
  map doc (scored db params text) = window db params /\
  Forall (fun h => relevanceScore h = Some (calculateRelevanceScore (doc h) text))
    (scored db params text).
Proof.
  unfold scored, populated. split.
  - rewrite !map_map. cbn [withScore resolveAuthor doc]. apply map_id.
  - rewrite Forall_forall. intros h Hh.
    apply list_elem_of_fmap in Hh as (h' & -> & _). reflexivity.
Qed.

End RankingFacts.

(** ** The predicate, condition by condition *)

Section PredicateFacts.
Context `{Env}.
Import PostQueryHelper SearchSpec.

Lemma matches_iff (q : Query) (p : Post) :
  matches q p = true <->
  forall k cl, q !! k = Some cl -> matchClause p k cl = true.
Proof.
  split; [intros Hm k cl; apply matches_lookup; exact Hm|].
  intros Hall. unfold matches. rewrite forallb_forall. intros [k cl] Hin.
  apply Hall. apply list_elem_of_In, elem_of_map_to_list in Hin. exact Hin.
Qed.

Lemma matches_empty (p : Post) : matches ∅ p = true.
Proof. unfold matches. rewrite map_to_list_empty. reflexivity. Qed.

Lemma matches_singleton (k : string) (cl : Clause) (p : Post) :
  matches {[ k := cl ]} p = matchClause p k cl.
Proof.
  unfold matches. rewrite map_to_list_singleton. cbn. apply andb_true_r.
Qed.

Lemma existsb_eq {A} (f g : A -> bool) (l : list A) :
  (forall x, f x = g x) -> existsb f l = existsb g l.
Proof.
  intros Hfg. induction l as [|x l IH]; [reflexivity|].
  cbn [existsb]. rewrite Hfg, IH. reflexivity.
Qed.

Lemma textClause_match (text : string) (p : Post) :
  matchClause p "$or"
    (Or [ ("title", CRegex text); ("description", CRegex text);
          ("location.address.street", CRegex text);
          ("location.address.district", CRegex text);
          ("location.address.province", CRegex text);
          ("tags", CInRegex [text]); ("keywords", CInRegex [text]) ])
  = textMatches text p.
Proof.
  unfold textMatches.
  destruct p as [? ttl descr ? ? ? ? ? prov dist str ? ? ? ? ? ? ? ? ? ? tgs kws ? ?].
  cbn [matchClause existsb fst snd]. cbn.
  assert (Hex : forall l, existsb (fun s => regexTest text s || false) l
                          = existsb (regexTest text) l).
  { intros l. apply existsb_eq. intros s. apply orb_false_r. }
  rewrite !Hex.
  destruct prov, dist, str; cbn;
    repeat (rewrite ?orb_false_r, ?orb_assoc); reflexivity.
Qed.













End PredicateFacts.

(** ** The claims about [advancedSearch] *)

Section SearchTheorems.
Context `{Env}.
Import PostQueryHelper SearchSpec.

Lemma relevance_mode (params : SearchParams.t) (text : string) :
  truthyStr (SearchParams.searchText params) = Some text ->
  sortByOf params <> "distance" ->
  useRelevanceSort params = true.
Proof.
  intros Ht Hs. unfold useRelevanceSort. rewrite Ht.
  destruct (String.eqb_spec (sortByOf params) "distance"); [contradiction | reflexivity].
Qed.

Lemma advancedSearch_rejected (db : Store) (params : SearchParams.t) :
  (fetchSkipOf params < 0)%Z -> resultOf (advancedSearch db params) = None.
Proof.
  intros Hskip. destruct (compiles params) eqn:Hc;
    [|rewrite advancedSearch_syntax_error by exact Hc; reflexivity].
  unfold advancedSearch. rewrite buildQuery_compiles, Hc, lift_bind.
  unfold find.
  fold (skipOf params) (fetchLimitOf params) (fetchSkipOf params).
  destruct (Z.ltb_spec (fetchSkipOf params) 0); [reflexivity | lia].
Qed.

(** A request is answered exactly when its text compiles and the skip of
    its [find] is not negative. *)
Lemma advancedSearch_answers (db : Store) (params : SearchParams.t)
    (r : SearchResponse) :
  resultOf (advancedSearch db params) = Some r ->
  compiles params = true /\ (0 <= fetchSkipOf params)%Z.
Proof.
  intros Hr. destruct (compiles params) eqn:Hc.
  - split; [reflexivity|].
    destruct (Z_lt_ge_dec (fetchSkipOf params) 0) as [Hneg|Hpos]; [|lia].
    rewrite advancedSearch_rejected in Hr by exact Hneg. discriminate.
  - rewrite advancedSearch_syntax_error in Hr by exact Hc. discriminate.
Qed.

Lemma processed_docs (db : Store) (params : SearchParams.t) (h : Hit) :
  h ∈ annotated params (processed db params) -> doc h ∈ window db params.
Proof.
  intros Hh.
  assert (Hpop : forall x, x ∈ populated db params -> doc x ∈ window db params).
  { intros x Hx. unfold populated in Hx.
    apply list_elem_of_fmap in Hx as (p & -> & Hp). exact Hp. }
  assert (Hsc : forall text x, x ∈ scored db params text -> doc x ∈ window db params).
  { intros text x Hx. unfold scored in Hx.
    apply list_elem_of_fmap in Hx as (x' & -> & Hx'). exact (Hpop x' Hx'). }
  assert (Hpr : forall x, x ∈ processed db params -> doc x ∈ window db params).
  { intros x Hx. unfold processed in Hx.
    destruct (truthyStr (SearchParams.searchText params)) as [text|]; [|auto].
    destruct (useRelevanceSort params); [|eauto].
    apply slice_subseteq in Hx. rewrite ranked_perm in Hx. eauto. }
  unfold annotated in Hh. destruct (geocenter params) as [[lat lng]|]; [|auto].
  apply list_elem_of_fmap in Hh as (x & -> & Hx). exact (Hpr x Hx).
Qed.

(** Every listing [advancedSearch] returns is approved: the filter object
    starts from [{ status: "approved" }] and no later step writes that key. *)
Lemma advancedSearch_only_approved (db : Store) (params : SearchParams.t)
    (r : SearchResponse) :
  resultOf (advancedSearch db params) = Some r ->
  Forall (fun h => status (doc h) = approved) (posts r).
Proof.
  intros Hr. destruct (advancedSearch_answers db params r Hr) as [Hc Hpos].
  rewrite advancedSearch_done in Hr by assumption. inversion Hr; subst.
  cbn [posts]. rewrite Forall_forall. intros h Hh.
  apply processed_docs, window_subseteq, matching_spec in Hh as [_ Hm].
  exact (predicate_approved params _ Hm).
Qed.

Lemma ceilDiv_spec (a b : Z) :
  (0 < b)%Z ->
  exists n : Z, JsNum.ceilDiv a b = Some n /\ ((n - 1) * b < a <= n * b)%Z.
Proof.
  intros Hb. unfold JsNum.ceilDiv. destruct (Z.eqb_spec b 0); [lia|].
  eexists. split; [reflexivity|].
  pose proof (Z.div_mod (- a) b ltac:(lia)).
  pose proof (Z.mod_pos_bound (- a) b Hb). nia.
Qed.

Lemma buildQuery_withPaging (params : SearchParams.t) (sortBy : option string)
    (page limit : option Z) :
  buildQuery (withPaging params sortBy page limit) = buildQuery params.
Proof. reflexivity. Qed.

Lemma matches_approved (params : SearchParams.t) (l : list Post) :
  List.filter (matches (predicate params)) l
  = List.filter (fun p => bool_decide (status p = approved)
                          && matches (predicate params) p) l.
Proof.
  apply filter_ext. intros p.
  destruct (matches (predicate params) p) eqn:Hm; [|symmetry; apply andb_false_r].
  rewrite (bool_decide_eq_true_2 _ (predicate_approved params p Hm)). reflexivity.
Qed.


(** A geocenter whose latitude or longitude is zero is no geocenter for
    [latitude && longitude]. *)
Lemma geocenter_zero (params : SearchParams.t) :
  SearchParams.latitude params = Some (JsNum.Num 0) \/
  SearchParams.longitude params = Some (JsNum.Num 0) ->
  geocenter params = None.
Proof.
  unfold geocenter. intros [-> | ->]; [reflexivity|].
  destruct (JsNum.truthyOpt (SearchParams.latitude params)); reflexivity.
Qed.

(** A call of [advancedSearch] reaches the store exactly when the free
    text compiles. *)
Lemma advancedSearch_accesses_store (db : Store) (params : SearchParams.t) :
  logOf (advancedSearch db params) <> [] <-> compiles params = true.
Proof.
  destruct (compiles params) eqn:Hc.
  - split; [reflexivity|]. intros _.
    unfold advancedSearch. rewrite buildQuery_compiles, Hc, lift_bind.
    unfold find. destruct (_ <? 0)%Z; discriminate.
  - rewrite advancedSearch_syntax_error by exact Hc.
    split; [intros Hlog; contradiction Hlog; reflexivity | discriminate].
Qed.

Lemma compiles_text (params : SearchParams.t) (text : string) :
  truthyStr (SearchParams.searchText params) = Some text ->
  regexCompiles text = true ->
  compiles params = true.
Proof. intros Ht Hc. unfold compiles. rewrite Ht. exact Hc. Qed.


(** In relevance mode the one [find] starts at offset zero and is limited
    to five pages. *)
Lemma relevance_window (db : Store) (params : SearchParams.t) :
  useRelevanceSort params = true ->
  (1 <= limitOf params)%Z ->
  fetchSkipOf params = 0%Z /\
  fetchLimitOf params = (limitOf params * 5)%Z /\
  window db params = take (Z.to_nat (5 * limitOf params)) (nativeOrder db params) /\
  (Z.of_nat (length (window db params)) <= 5 * limitOf params)%Z.
Proof.
  intros Hrel Hl.
  assert (Hskip : fetchSkipOf params = 0%Z) by (apply relevance_fetchSkip, Hrel).
  assert (Hlim : fetchLimitOf params = (limitOf params * 5)%Z)
    by (unfold fetchLimitOf; rewrite Hrel; reflexivity).
  assert (Hwin : window db params
                 = take (Z.to_nat (5 * limitOf params)) (nativeOrder db params)).
  { unfold window, limitDocs. rewrite Hskip, Hlim.
    destruct (Z.eqb_spec (limitOf params * 5) 0); [lia|].
    rewrite drop_0. f_equal. lia. }
  repeat split; try assumption. rewrite Hwin, length_take. lia.
Qed.

Lemma ranked_length (db : Store) (params : SearchParams.t) (text : string) :
  length (ranked db params text) = length (window db params).
Proof.
  rewrite (Permutation_length (ranked_perm db params text)).
  rewrite <- (length_map doc). f_equal. apply scored_spec.
Qed.

(** C3, as amended.  In relevance mode (a free-text query and a sort key
    other than [distance]) with a text that compiles, page [p >= 1] and
    page size [n >= 1], [advancedSearch]
    issues one [find] with skip 0 and limit [5 * n] under the store's sort,
    so that the candidate window is the first [5 * n] matching listings and
    has at most [5 * n] records; every candidate of the window gets its
    relevance score; the window is sorted by descending score, candidates
    with equal scores keeping the order of the fetch; and the response
    holds exactly the range [[(p - 1) * n, (p - 1) * n + n)] of the sorted
    window (with the distance annotation when a geocenter applies). *)
Theorem relevance_mode_window (db : Store) (params : SearchParams.t)
    (text : string) :
  truthyStr (SearchParams.searchText params) = Some text ->
  regexCompiles text = true ->
  sortByOf params <> "distance" ->
  (1 <= pageOf params)%Z ->
  (1 <= limitOf params)%Z ->
  let n := limitOf params in
  let p := pageOf params in
  exists r : SearchResponse,
    advancedSearch db params = (Done r, accesses db params) /\
    fetchSkipOf params = 0%Z /\ fetchLimitOf params = (n * 5)%Z /\
    window db params = take (Z.to_nat (5 * n)) (nativeOrder db params) /\
    (Z.of_nat (length (window db params)) <= 5 * n)%Z /\
    map doc (scored db params text) = window db params /\
    Forall (fun h => relevanceScore h = Some (calculateRelevanceScore (doc h) text))
      (scored db params text) /\
    ranked db params text ≡ₚ scored db params text /\
    scoresNonIncreasing (ranked db params text) /\
    (forall s : Q,
       List.filter (scoreIs s) (ranked db params text)
       = List.filter (scoreIs s) (scored db params text)) /\
    posts r
    = annotated params
        (take (Z.to_nat n) (drop (Z.to_nat ((p - 1) * n)) (ranked db params text))).
Proof.
  intros Ht Hc Hs Hp Hl n p.
  pose proof (relevance_mode params text Ht Hs) as Hrel.
  destruct (relevance_window db params Hrel Hl) as (Hskip & Hlim & Hwin & Hlen).
  rewrite (advancedSearch_done db params)
    by (try exact (compiles_text params text Ht Hc); lia).
  eexists. split; [reflexivity|]. do 4 (split; [assumption|]).
  split; [apply scored_spec|]. split; [apply scored_spec|].
  split; [apply ranked_perm|]. split.
  { apply scoresNonIncreasing_of_descending;
      [apply ranked_hasScore | apply ranked_descending]. }
  split; [intros s; apply ranked_stable|].
  cbn [posts]. unfold processed. rewrite Ht, Hrel. f_equal.
  unfold skipOf. fold n p. apply slice_take_drop; subst n p; nia.
Qed.

(** C4, as amended.  For a request with a free-text query and a sort key
    other than [distance], the relevance scores of every page
    [advancedSearch] answers with do not increase along the array; and it
    answers whenever the text compiles. *)
Theorem relevance_scores_non_increasing (db : Store) (params : SearchParams.t)
    (text : string) :
  truthyStr (SearchParams.searchText params) = Some text ->
  sortByOf params <> "distance" ->
  (forall r : SearchResponse,
     resultOf (advancedSearch db params) = Some r ->
     scoresNonIncreasing (posts r)) /\
  (regexCompiles text = true ->
   exists r : SearchResponse, resultOf (advancedSearch db params) = Some r).
Proof.
  intros Ht Hs. pose proof (relevance_mode params text Ht Hs) as Hrel.
  assert (Hskip : (0 <= fetchSkipOf params)%Z)
    by (rewrite relevance_fetchSkip by exact Hrel; lia).
  split.
  - intros r Hr. destruct (advancedSearch_answers db params r Hr) as [Hc _].
    rewrite (advancedSearch_done db params Hc Hskip) in Hr.
    inversion Hr; subst. cbn [posts].
    apply scoresNonIncreasing_annotated. unfold processed. rewrite Ht, Hrel.
    unfold JsArray.slice. apply scoresNonIncreasing_of_descending.
    + rewrite Forall_forall. intros h Hh.
      apply subseteq_take, subseteq_drop in Hh.
      pose proof (ranked_hasScore db params text) as Hall.
      rewrite Forall_forall in Hall. auto.
    + apply descendingBy_take, descendingBy_drop, ranked_descending.
  - intros Hc.
    rewrite (advancedSearch_done db params (compiles_text params text Ht Hc) Hskip).
    eexists. reflexivity.
Qed.

(** C10, as amended.  In relevance mode with a text that compiles, page
    size [n >= 1] and page [p >= 6],
    [advancedSearch] returns no results, however many listings satisfy the
    predicate: the window has at most [5 * n] candidates and the page starts
    at [(p - 1) * n >= 5 * n].  The total and the page count it reports are
    those of the whole set of matches. *)
Theorem deep_page_is_empty (db : Store) (params : SearchParams.t) (text : string) :
  truthyStr (SearchParams.searchText params) = Some text ->
  regexCompiles text = true ->
  sortByOf params <> "distance" ->
  (1 <= limitOf params)%Z ->
  (6 <= pageOf params)%Z ->
  exists r : SearchResponse,
    resultOf (advancedSearch db params) = Some r /\
    posts r = [] /\
    totalCount (pagination r) = length (matching db params) /\
    total (pagination r)
    = JsNum.ceilDiv (Z.of_nat (length (matching db params))) (limitOf params).
Proof.
  intros Ht Hc Hs Hl Hp.
  pose proof (relevance_mode params text Ht Hs) as Hrel.
  destruct (relevance_window db params Hrel Hl) as (Hskip & _ & _ & Hlen).
  rewrite (advancedSearch_done db params)
    by (try exact (compiles_text params text Ht Hc); lia).
  eexists. split; [reflexivity|]. cbn [posts pagination totalCount total].
  split; [|split; reflexivity].
  unfold processed. rewrite Ht, Hrel.
  rewrite slice_past_end; [|rewrite ranked_length; unfold skipOf; nia | lia].
  unfold annotated. destruct (geocenter params) as [[lat lng]|]; reflexivity.
Qed.

End SearchTheorems.

(** ** The handlers *)

Section ControllerFacts.
Context `{Env}.
Import PostQueryHelper PostController.

(** [searchPosts] has no validation step: whatever the query string, it
    calls [advancedSearch] and the response is never a 400.  The store is
    reached unless the free text does not compile; then the [SyntaxError]
    becomes a 500. *)
Lemma searchPosts_never_validates (db : Store) (req : Request) :
  statusCode (searchPosts db req).1 <> 400%nat /\
  ((searchPosts db req).2 = [] <->
   SearchSpec.compiles (searchParamsOf req) = false) /\
  (SearchSpec.compiles (searchParamsOf req) = false ->
   (searchPosts db req).1 = InternalError "Error searching posts").
Proof.
  unfold searchPosts, PostService.advancedSearch.
  pose proof (advancedSearch_accesses_store db (searchParamsOf req)) as Hlog.
  pose proof (advancedSearch_syntax_error db (searchParamsOf req)) as Herr.
  unfold logOf in Hlog.
  destruct (SearchSpec.compiles (searchParamsOf req)).
  - destruct (advancedSearch db (searchParamsOf req)) as [[r|e] ops];
      cbn in *; (split; [discriminate|]); (split; [|discriminate]);
      rewrite ?app_nil_r; (split; [|discriminate]); intros ->;
      destruct Hlog as [_ Hlog]; contradiction (Hlog eq_refl); reflexivity.
  - rewrite (Herr eq_refl). cbn. split; [discriminate|].
    split; [split; reflexivity | reflexivity].
Qed.

(** [getNearbyPosts] checks the coordinates before it calls the service:
    a latitude outside [-90, 90] or a longitude outside [-180, 180] gets a
    400 and the store is not reached. *)
Lemma getNearbyPosts_rejects_out_of_range (db : Store) (req : Request)
    (latitude longitude : string) (lat lng : Q) :
  param req "latitude" = Some latitude ->
  param req "longitude" = Some longitude ->
  parseFloat latitude = JsNum.Num lat ->
  parseFloat longitude = JsNum.Num lng ->
  (lat < -90 \/ 90 < lat \/ lng < -180 \/ 180 < lng)%Q ->
  getNearbyPosts db req = (BadRequest "Invalid latitude or longitude values", []).
Proof.
  intros Hlat Hlng Hplat Hplng Hrange. unfold getNearbyPosts.
  rewrite Hlat, Hlng, Hplat, Hplng. unfold validCoordinates.
  assert (Hb : forall a b : Q, (a < b)%Q -> JsNum.Qlt_bool a b = true).
  { intros a b Hab. pose proof (Qlt_bool_spec a b) as Hs.
    destruct (JsNum.Qlt_bool a b); [reflexivity|].
    exfalso. exact (Qlt_not_le _ _ Hab Hs). }
  destruct Hrange as [Hr | [Hr | [Hr | Hr]]]; rewrite (Hb _ _ Hr);
    rewrite ?orb_true_r; reflexivity.
Qed.

End ControllerFacts.

(** ** The claims at concrete requests *)

Section SearchExamples.
Import PostQueryHelper SearchSpec Demo.



Lemma relevance_mode_window_witness :
  exists r : SearchResponse,
    advancedSearch marketStore marketSearch
    = (Done r, accesses marketStore marketSearch) /\
    map (fun h => (postId (doc h), relevanceScore h)) (posts r)
    = [("p2", Some 10%Q); ("p1", Some 3%Q)].
Proof.
  destruct (relevance_mode_window marketStore marketSearch "market")
    as (r & Hrun & _ & _ & _ & _ & _ & _ & _ & _ & _ & Hposts);
    [reflexivity | reflexivity | discriminate | vm_compute; discriminate
     | vm_compute; discriminate |].
  exists r. split; [exact Hrun|]. rewrite Hposts. vm_compute. reflexivity.
Defined.

(** C3, as stated, fails for a free text that is not a regular expression:
    [{ searchText: "+market" }] is a relevance-mode request, and no [find]
    is issued for it, no candidate is scored and no page is returned. *)
Lemma invalid_text_fetches_no_window :
  useRelevanceSort plusMarket = true /\
  advancedSearch marketStore plusMarket = (Thrown syntaxError, []) /\
  ~ exists r : SearchResponse,
      advancedSearch marketStore plusMarket
      = (Done r, accesses marketStore plusMarket).
Proof.
  split; [reflexivity|]. split; [vm_compute; reflexivity|].
  intros [r Hr]. vm_compute in Hr. discriminate.
Qed.

Lemma relevance_scores_non_increasing_witness :
  (forall r : SearchResponse,
     resultOf (advancedSearch marketStore marketSearch) = Some r ->
     scoresNonIncreasing (posts r)) /\
  (regexCompiles "market" = true ->
   exists r : SearchResponse,
     resultOf (advancedSearch marketStore marketSearch) = Some r).
Proof.
  apply (relevance_scores_non_increasing marketStore marketSearch "market");
    [reflexivity | discriminate].
Defined.

(** C4, as stated, fails when the sort key is [distance]: the scores are
    attached but the page keeps the order of the store.  For
    [{ searchText: "market", sortBy: "distance" }] the description match
    (score 3) is stored before the title match (score 10) and comes
    first. *)
Lemma distance_sort_keeps_store_order :
  exists r : SearchResponse,
    resultOf (advancedSearch marketStore marketByDistance) = Some r /\
    map (fun h => (postId (doc h), relevanceScore h)) (posts r)
    = [("p1", Some 3%Q); ("p2", Some 10%Q)] /\
    ~ scoresNonIncreasing (posts r).
Proof.
  eexists. split; [vm_compute; reflexivity|]. split; [reflexivity|].
  intros Hmono.
  destruct (Hmono 0%nat 1%nat _ _ ltac:(lia) eq_refl eq_refl)
    as (sa & sb & Ha & Hb & Hle).
  inversion Ha; inversion Hb; subst; revert Hle; vm_compute; auto.
Qed.

Lemma deep_page_is_empty_witness :
  exists r : SearchResponse,
    resultOf (advancedSearch manyMarkets marketPageSix) = Some r /\
    posts r = [] /\
    totalCount (pagination r) = length (matching manyMarkets marketPageSix) /\
    total (pagination r)
    = JsNum.ceilDiv (Z.of_nat (length (matching manyMarkets marketPageSix)))
        (limitOf marketPageSix).
Proof.
  apply (deep_page_is_empty manyMarkets marketPageSix "market");
    [reflexivity | reflexivity | discriminate | vm_compute; discriminate
     | vm_compute; discriminate].
Defined.

(** C10, as stated, fails for a free text that is not a regular
    expression: page 6 of [{ searchText: "+market", limit: 1 }] is not an
    empty results array with the pagination of the matches, the request is
    rejected. *)
Lemma invalid_text_deep_page_is_rejected :
  useRelevanceSort plusMarketPageSix = true /\
  pageOf plusMarketPageSix = 6%Z /\
  advancedSearch manyMarkets plusMarketPageSix = (Thrown syntaxError, []) /\
  ~ exists r : SearchResponse,
      resultOf (advancedSearch manyMarkets plusMarketPageSix) = Some r /\
      posts r = [].
Proof.
  split; [reflexivity|]. split; [reflexivity|]. split; [vm_compute; reflexivity|].
  intros (r & Hr & _). vm_compute in Hr. discriminate.
Qed.

(** Seven listings match, and page 6 of size 1 is empty. *)
Lemma deep_page_example :
  (fun r => (posts r, totalCount (pagination r), total (pagination r)))
    <$> resultOf (advancedSearch manyMarkets marketPageSix)
  = Some ([], 7%nat, Some 7%Z).
Proof. vm_compute. reflexivity. Qed.

(** C1. The invariant fails in the code for [findNearbyPosts] and
    [findWithAdvancedFilter]: both spread the caller's filter over
    [{ status: "approved" }], so a filter with a [status] key replaces the
    restriction.  With the filter [{ status: "pending" }] each returns the
    pending listing of the collection, and so does
    [PostService.getNearbyPosts], which forwards its [PostFilter];
    [advancedSearch] on the same collection returns approved listings
    only. *)
Theorem caller_filter_overrides_status :
  (map (fun h => (postId (doc h), status (doc h)))
     <$> resultOf (findNearbyPosts marketStore (179757 # 10000) (1026331 # 10000)
                     (JsNum.Num 5000) pendingFilter 0 10))
  = Some [("p3", pending)] /\
  ((fun r => (map (fun h => (postId (doc h), status (doc h))) r.1, r.2))
     <$> resultOf (findWithAdvancedFilter marketStore pendingFilter
                     (Some (mkSort ByCreatedAt true)) 0 10))
  = Some ([("p3", pending)], 1%nat) /\
  ((fun r => map (fun h => (postId (doc h), status (doc h))) (nearbyPosts r))
     <$> resultOf (PostService.getNearbyPosts marketStore (179757 # 10000)
                     (1026331 # 10000) (JsNum.Num 5000) 1 10
                     (Some pendingPostFilter)))
  = Some [("p3", pending)] /\
  ((fun r => map (fun h => (postId (doc h), status (doc h))) (posts r))
     <$> resultOf (advancedSearch marketStore SearchParams.empty))
  = Some [("p2", approved); ("p1", approved)].
Proof. vm_compute. repeat split; reflexivity. Qed.

(** C7. The validation is missing in [searchPosts]: the request
    [GET /search?latitude=999&longitude=102] is answered with status 200
    after three store accesses, while [getNearbyPosts] rejects the same
    query string with status 400 before any store access. *)
Theorem searchPosts_accepts_latitude_999 :
  statusCode (PostController.searchPosts marketStore latitude999).1 = 200%nat /\
  length (PostController.searchPosts marketStore latitude999).2 = 3%nat /\
  PostController.getNearbyPosts marketStore latitude999
  = (BadRequest "Invalid latitude or longitude values", []).
Proof. vm_compute. repeat split; reflexivity. Qed.

(** C8. The distance annotation is missing for a geocenter on the equator:
    for [{ latitude: 0, longitude: 102.6331 }] the test
    [latitude && longitude] fails, no result carries a distance and the
    response reports no geospatial filter, while the same request at
    latitude 1 annotates every result. *)
Theorem equator_geocenter_not_annotated :
  ((fun r => (map (fun h => (postId (doc h), distance h)) (posts r),
              hasGeospatialFilter (searchInfo r)))
     <$> resultOf (advancedSearch marketStore equatorSearch))
  = Some ([("p2", None); ("p1", None)], false) /\
  ((fun r => (map (fun h => (postId (doc h), distance h)) (posts r),
              hasGeospatialFilter (searchInfo r)))
     <$> resultOf (advancedSearch marketStore offEquatorSearch))
  = Some ([("p2", Some 16%Z); ("p1", Some 16%Z)], true).
Proof. vm_compute. split; reflexivity. Qed.

End SearchExamples.

(** ** The distance formula *)

Section HaversineFacts.
Import Haversine.
Local Open Scope R_scope.

Lemma deg2rad_minus (x y : R) : deg2rad (x - y) = deg2rad x - deg2rad y.
Proof. unfold deg2rad. ring. Qed.

Lemma round_nearest (x : R) : nearestInteger x (round x).
Proof.
  unfold nearestInteger, round.
  destruct (base_Int_part (x + / 2)) as [Hle Hgt]. split; Lra.lra.
Qed.

(** The nearest integer with ties going up is unique. *)
Lemma nearestInteger_unique (x : R) (z1 z2 : Z) :
  nearestInteger x z1 -> nearestInteger x z2 -> z1 = z2.
Proof.
  unfold nearestInteger. intros [H1 H1'] [H2 H2'].
  destruct (Z.lt_trichotomy z1 z2) as [Hlt | [Heq | Hgt]]; [|exact Heq|].
  - assert (IZR z1 + 1 <= IZR z2) by (rewrite <- plus_IZR; apply IZR_le; lia). Lra.lra.
  - assert (IZR z2 + 1 <= IZR z1) by (rewrite <- plus_IZR; apply IZR_le; lia). Lra.lra.
Qed.

(** [deg2rad] is the conversion of degrees to radians. *)
Lemma deg2rad_radians (x : R) : deg2rad x = radians x.
Proof. unfold deg2rad, radians. field. Qed.

(** The term [a] of the source is the [a] of the specification. *)
Lemma source_a_is_specA (lat1 lon1 lat2 lon2 : R) :
  sin (deg2rad (lat2 - lat1) / 2) * sin (deg2rad (lat2 - lat1) / 2) +
  cos (deg2rad lat1) * cos (deg2rad lat2) *
  sin (deg2rad (lon2 - lon1) / 2) * sin (deg2rad (lon2 - lon1) / 2)
  = specA (radians lat1) (radians lon1) (radians lat2) (radians lon2).
Proof.
  unfold specA, Rsqr. rewrite !deg2rad_minus, !deg2rad_radians. ring.
Qed.

Lemma calculateDistance_nearest (lat1 lon1 lat2 lon2 : R) :
  nearestInteger (1000 * specKilometers lat1 lon1 lat2 lon2)
    (calculateDistance lat1 lon1 lat2 lon2).
Proof.
  unfold calculateDistance, specKilometers. cbv zeta.
  rewrite source_a_is_specA.
  set (a := specA _ _ _ _).
  replace (6371 * (2 * atan2 (sqrt a) (sqrt (1 - a))) * 1000)
    with (1000 * (2 * 6371 * atan2 (sqrt a) (sqrt (1 - a)))) by ring.
  apply round_nearest.
Qed.

(** In exact arithmetic [calculateDistance] is the formula of the
    specification: for all coordinates in degrees it returns the haversine
    distance for an Earth radius of 6371 km, [d = 2·R·atan2(√a, √(1−a))]
    with [a = sin²(Δlat/2) + cos(lat1)·cos(lat2)·sin²(Δlon/2)] on the
    angles converted to radians, expressed in meters and rounded to the
    nearest integer; and it is the only integer that is. *)
Lemma calculateDistance_is_rounded_haversine (lat1 lon1 lat2 lon2 : R) :
  nearestInteger (1000 * specKilometers lat1 lon1 lat2 lon2)
    (calculateDistance lat1 lon1 lat2 lon2) /\
  forall z : Z,
    nearestInteger (1000 * specKilometers lat1 lon1 lat2 lon2) z ->
    z = calculateDistance lat1 lon1 lat2 lon2.
Proof.
  split; [apply calculateDistance_nearest|].
  intros z Hz.
  exact (nearestInteger_unique _ _ _ Hz (calculateDistance_nearest _ _ _ _)).
Qed.

(** [CoordinateUtils.calculateDistance] is the same distance in kilometers,
    not rounded. *)
Lemma coordinateUtilsDistance_is_kilometers (lat1 lng1 lat2 lng2 : R) :
  coordinateUtilsDistance lat1 lng1 lat2 lng2
  = specKilometers lat1 lng1 lat2 lng2.
Proof.
  unfold coordinateUtilsDistance, specKilometers. cbv zeta.
  rewrite source_a_is_specA. ring.
Qed.

(** In an environment that implements the function of the source, the
    distance attached to a result is the rounded haversine distance from
    the geocenter to the reference point of the listing. *)
Lemma annotated_distance_is_haversine (E : Env) (params : SearchParams.t)
    (lat lng : Q) (l : list Hit) (h : Hit) :
  implementedBy E ->
  PostQueryHelper.geocenter params = Some (lat, lng) ->
  h ∈ SearchSpec.annotated params l ->
  exists z : Z,
    distance h = Some z /\
    nearestInteger
      (1000 * specKilometers (Q2R lat) (Q2R lng)
                (Q2R (coordinates (doc h)).2) (Q2R (coordinates (doc h)).1)) z.
Proof.
  intros Himpl Hgeo Hh. unfold SearchSpec.annotated in Hh. rewrite Hgeo in Hh.
  apply list_elem_of_fmap in Hh as (x & -> & _).
  eexists. split; [reflexivity|].
  cbn [PostQueryHelper.withDistance doc].
  unfold implementedBy, helperDistance in Himpl. rewrite Himpl.
  apply calculateDistance_nearest.
Qed.

End HaversineFacts.

(** ** The distance formula in double precision *)

Section Float64Facts.
Import Floats Float64.
Local Open Scope float_scope.
#[local] Set Warnings "-inexact-float".

(** In double precision the two distance functions of the repository are
    the same computation up to the last step: the helper returns
    [Math.round] of the kilometers of [CoordinateUtils] times 1000. *)
Lemma calculateDistance_of_coordinateUtils (lib : MathLib)
    (lat1 lon1 lat2 lon2 : float) :
  calculateDistance lat1 lon1 lat2 lon2
  = round (coordinateUtilsDistance lat1 lon1 lat2 lon2 * 1000).
Proof. reflexivity. Qed.

(** C9.  [calculateDistance] does not return the haversine distance for
    all coordinates: for the nearly antipodal points (-49.7669, -66.5353)
    and (49.7669, 113.4647), whose distance is half the circumference of
    the sphere, the term [a] is computed as [1 + 2^-52], [Math.sqrt(1 - a)]
    is [NaN], and so is the result, in every runtime whose [Math.sin] and
    [Math.cos] round correctly at the two angles of the computation. *)
Theorem calculateDistance_nan_near_antipodes (lib : MathLib) :
  propagatesNaN lib ->
  roundsCorrectly lib ->
  calculateDistance (-49.7669) (-66.5353) 49.7669 113.4647 = nan.
Proof.
  intros [Hatan2 Hround] (Hsin & Hcos & Hcos' & Hsin').
  unfold calculateDistance. cbv -[sin cos atan2 round].
  rewrite Hsin, Hcos, Hcos', Hsin'. cbv -[sin cos atan2 round].
  rewrite Hatan2. cbv -[sin cos atan2 round]. exact Hround.
Qed.

Lemma calculateDistance_nan_near_antipodes_witness :
  @calculateDistance tableLib (-49.7669) (-66.5353) 49.7669 113.4647 = nan.
Proof.
  apply (calculateDistance_nan_near_antipodes tableLib).
  - split; [intros y; reflexivity | reflexivity].
  - repeat split; reflexivity.
Defined.

End Float64Facts.

(** * Further properties of the search engine *)

(** ** Pages of [advancedSearch] outside relevance mode *)

Section DirectModeFacts.
Context `{Env}.
Import PostQueryHelper SearchSpec Paging.

(** Nothing is counted for a request whose text does not compile. *)
Lemma nativeOrder_nil (db : Store) (params : SearchParams.t) :
  compiles params = false -> nativeOrder db params = [].
Proof.
  intros Hc. unfold nativeOrder, matching. rewrite Hc. unfold ordered.
  destruct (sortQueryOf (sortByOf params)) as [s|];
    [destruct (descending s) | destruct (nearCenter (predicate params))];
    reflexivity.
Qed.

Lemma pageDocs_nil (db : Store) (params : SearchParams.t) (i : Z) :
  compiles params = false -> pageDocs db params i = [].
Proof.
  intros Hc. unfold pageDocs.
  rewrite (advancedSearch_syntax_error db (atPage params i)) by exact Hc.
  reflexivity.
Qed.

Lemma processed_docs_direct (db : Store) (params : SearchParams.t) :
  useRelevanceSort params = false ->
  map doc (annotated params (processed db params)) = window db params.
Proof.
  intros Hrel.
  assert (Hpop : map doc (populated db params) = window db params).
  { unfold populated. rewrite map_map. apply map_id. }
  assert (Hann : forall l, map doc (annotated params l) = map doc l).
  { intros l. unfold annotated. destruct (geocenter params) as [[lat lng]|];
      [|reflexivity]. rewrite map_map. reflexivity. }
  rewrite Hann. unfold processed.
  destruct (truthyStr (SearchParams.searchText params)) as [text|]; [|exact Hpop].
  rewrite Hrel. apply scored_spec.
Qed.

Lemma window_direct (db : Store) (params : SearchParams.t) :
  useRelevanceSort params = false ->
  (1 <= limitOf params)%Z ->
  window db params
  = take (Z.to_nat (limitOf params))
      (drop (Z.to_nat (skipOf params)) (nativeOrder db params)).
Proof.
  intros Hrel Hl. unfold window, fetchLimitOf, fetchSkipOf, limitDocs.
  rewrite Hrel. destruct (Z.eqb_spec (limitOf params) 0); [lia|].
  f_equal. lia.
Qed.

(** Outside relevance mode (no free text, or sort by distance) a request
    whose text, if it has one, compiles, with page [p >= 1] and page size
    [n >= 1], is answered with exactly the
    listings at positions [[(p - 1) * n, (p - 1) * n + n)] of the store's
    order over all matches; [pagination.count] is the number of results and
    is at most [n]. *)
Theorem direct_mode_exact_page (db : Store) (params : SearchParams.t) :
  useRelevanceSort params = false ->
  compiles params = true ->
  (1 <= pageOf params)%Z ->
  (1 <= limitOf params)%Z ->
  exists r : SearchResponse,
    advancedSearch db params = (Done r, accesses db params) /\
    map doc (posts r)
    = take (Z.to_nat (limitOf params))
        (drop (Z.to_nat ((pageOf params - 1) * limitOf params))
           (nativeOrder db params)) /\
    count (pagination r) = length (posts r) /\
    (Z.of_nat (length (posts r)) <= limitOf params)%Z.
Proof.
  intros Hrel Hc Hp Hl.
  rewrite (advancedSearch_done db params Hc)
    by (apply paged_fetchSkip; assumption).
  eexists. split; [reflexivity|]. cbn [posts pagination count].
  pose proof (processed_docs_direct db params Hrel) as Hdocs.
  pose proof (window_direct db params Hrel Hl) as Hwin.
  split; [rewrite Hdocs, Hwin; reflexivity|].
  assert (Hlen : length (annotated params (processed db params))
                 = length (window db params))
    by (rewrite <- Hdocs, length_map; reflexivity).
  split; [symmetry; exact Hlen|].
  rewrite Hlen, Hwin, length_take. lia.
Qed.

Lemma pageDocs_direct (db : Store) (params : SearchParams.t) (i : nat) :
  useRelevanceSort params = false ->
  (1 <= limitOf params)%Z ->
  pageDocs db params (Z.of_nat (S i))
  = take (Z.to_nat (limitOf params))
      (drop (i * Z.to_nat (limitOf params)) (nativeOrder db params)).
Proof.
  intros Hrel Hl. destruct (compiles params) eqn:Hc;
    [|rewrite pageDocs_nil, nativeOrder_nil by exact Hc;
      rewrite drop_nil, take_nil; reflexivity].
  unfold pageDocs. set (q := atPage params (Z.of_nat (S i))).
  assert (Hrel' : useRelevanceSort q = false) by exact Hrel.
  assert (Hl' : (1 <= limitOf q)%Z) by exact Hl.
  assert (Hp' : (1 <= pageOf q)%Z) by (cbn; lia).
  assert (Hc' : compiles q = true) by exact Hc.
  rewrite (advancedSearch_done db q Hc')
    by (apply paged_fetchSkip; assumption).
  cbn [resultOf fst posts].
  rewrite (processed_docs_direct db q Hrel'), (window_direct db q Hrel' Hl').
  change (limitOf q) with (limitOf params).
  change (nativeOrder db q) with (nativeOrder db params).
  change (skipOf q) with ((Z.of_nat (S i) - 1) * limitOf params)%Z.
  do 2 f_equal. nia.
Qed.

Lemma firstPages_take (db : Store) (params : SearchParams.t) (k : nat) :
  useRelevanceSort params = false ->
  (1 <= limitOf params)%Z ->
  firstPages db params k
  = take (k * Z.to_nat (limitOf params)) (nativeOrder db params).
Proof.
  intros Hrel Hl. unfold firstPages. induction k as [|k IH]; [reflexivity|].
  rewrite seq_S, map_app, concat_app, IH. cbn [map concat plus].
  rewrite app_nil_r, (pageDocs_direct db params k Hrel Hl).
  rewrite take_take_drop. f_equal. lia.
Qed.

Lemma nativeOrder_perm (db : Store) (params : SearchParams.t) :
  nativeOrder db params ≡ₚ matching db params.
Proof. apply ordered_perm. Qed.

(** Outside relevance mode the pages of a request tile the store's order:
    pages [1 .. k] of size [n >= 1], one after the other, are the first
    [k * n] matches, so no listing is skipped and none is served twice;
    and once [k * n] reaches the number of matches, the pages together
    hold every match exactly once. *)
Theorem direct_pages_tile (db : Store) (params : SearchParams.t) (k : nat) :
  useRelevanceSort params = false ->
  (1 <= limitOf params)%Z ->
  firstPages db params k
  = take (k * Z.to_nat (limitOf params)) (nativeOrder db params) /\
  ((length (matching db params) <= k * Z.to_nat (limitOf params))%nat ->
   firstPages db params k ≡ₚ matching db params).
Proof.
  intros Hrel Hl. rewrite (firstPages_take db params k Hrel Hl).
  split; [reflexivity|]. intros Hk.
  rewrite take_ge; [apply nativeOrder_perm|].
  rewrite (Permutation_length (nativeOrder_perm db params)). exact Hk.
Qed.

End DirectModeFacts.

(** ** Order and radius of the results *)

Section OrderFacts.
Context {A : Type} (key : A -> Q).

Lemma Qlt_bool_opp (a b : Q) :
  JsNum.Qlt_bool (- a) (- b) = JsNum.Qlt_bool b a.
Proof.
  pose proof (Qlt_bool_spec (- a) (- b)) as H1.
  pose proof (Qlt_bool_spec b a) as H2.
  destruct (JsNum.Qlt_bool (- a) (- b)), (JsNum.Qlt_bool b a);
    try reflexivity; exfalso; lra.
Qed.

Lemma ascendingBy_opp (l : list A) :
  descendingBy (fun a => (- key a)%Q) l <-> ascendingBy key l.
Proof.
  unfold descendingBy, ascendingBy. split; intros Hs;
    induction Hs as [|x xs Hs IH Hall]; constructor; try exact IH;
    (eapply Forall_impl; [exact Hall|]); cbv beta; intros y Hy; lra.
Qed.

Lemma stableSort_ascending (l : list A) :
  ascendingBy key
    (stableSort (fun y x => JsNum.Qlt_bool (key y) (key x)) l).
Proof.
  apply ascendingBy_opp.
  rewrite (stableSort_ext _ (greaterFirst (fun a => (- key a)%Q))).
  - apply stableSort_descending.
  - intros x y _ _. unfold greaterFirst. symmetry. apply Qlt_bool_opp.
Qed.

Lemma ascendingBy_take_drop (n m : nat) (l : list A) :
  ascendingBy key l -> ascendingBy key (take n (drop m l)).
Proof.
  intros Hs. apply ascendingBy_opp, descendingBy_take, descendingBy_drop.
  apply ascendingBy_opp. exact Hs.
Qed.

End OrderFacts.

Section ResultOrder.
Context `{Env}.
Import PostQueryHelper SearchSpec.

Lemma nativeOrder_sorted (db : Store) (params : SearchParams.t) (s : SortSpec) :
  sortQueryOf (sortByOf params) = Some s ->
  if descending s
  then descendingBy (sortKey (sortField s)) (nativeOrder db params)
  else ascendingBy (sortKey (sortField s)) (nativeOrder db params).
Proof.
  intros Hs. unfold nativeOrder, ordered. rewrite Hs.
  destruct (descending s).
  - apply (stableSort_descending (sortKey (sortField s))).
  - apply (stableSort_ascending (sortKey (sortField s))).
Qed.

(** Outside relevance mode the results of a request whose text, if it has
    one, compiles come in the order its sort key names: [newest] by
    creation time, latest first, and [oldest] earliest first; [price_asc]
    and [area_asc] by price and by area, smallest first; [price_desc] and
    [area_desc] largest first; a key that is none of these nor [distance]
    like [newest]. *)
Theorem results_follow_sort_key (db : Store) (params : SearchParams.t) :
  useRelevanceSort params = false ->
  compiles params = true ->
  (1 <= pageOf params)%Z ->
  (1 <= limitOf params)%Z ->
  exists r : SearchResponse,
    resultOf (advancedSearch db params) = Some r /\
    let docs := map doc (posts r) in
    let created := fun p : Post => inject_Z (createdAt p) in
    (sortByOf params = "newest" -> descendingBy created docs) /\
    (sortByOf params = "oldest" -> ascendingBy created docs) /\
    (sortByOf params = "price_asc" -> ascendingBy price docs) /\
    (sortByOf params = "price_desc" -> descendingBy price docs) /\
    (sortByOf params = "area_asc" -> ascendingBy area docs) /\
    (sortByOf params = "area_desc" -> descendingBy area docs) /\
    (sortByOf params ∉ ["newest"; "oldest"; "price_asc"; "price_desc";
                        "area_asc"; "area_desc"; "distance"] ->
     descendingBy created docs).
Proof.
  intros Hrel Hc Hp Hl.
  rewrite (advancedSearch_done db params Hc)
    by (apply paged_fetchSkip; assumption).
  eexists. split; [reflexivity|]. cbn [posts]. cbv zeta.
  rewrite (processed_docs_direct db params Hrel), (window_direct db params Hrel Hl).
  assert (Hsorted : forall s, sortQueryOf (sortByOf params) = Some s ->
            if descending s
            then descendingBy (sortKey (sortField s))
                   (take (Z.to_nat (limitOf params))
                      (drop (Z.to_nat (skipOf params)) (nativeOrder db params)))
            else ascendingBy (sortKey (sortField s))
                   (take (Z.to_nat (limitOf params))
                      (drop (Z.to_nat (skipOf params)) (nativeOrder db params)))).
  { intros s Hs. pose proof (nativeOrder_sorted db params s Hs) as Hn.
    destruct (descending s).
    - apply descendingBy_take, descendingBy_drop, Hn.
    - apply ascendingBy_take_drop, Hn. }
  repeat split; intros Hkey;
    try (rewrite Hkey in Hsorted; exact (Hsorted _ eq_refl)).
  apply (Hsorted (mkSort ByCreatedAt true)). unfold sortQueryOf.
  repeat match goal with
         | |- context [String.eqb ?a ?b] =>
             destruct (String.eqb_spec a b) as [Heq|_];
             [exfalso; apply Hkey; rewrite Heq;
              repeat (first [apply list_elem_of_here
                            | apply list_elem_of_further])|]
         end.
  reflexivity.
Qed.

Lemma getField_coordinates (p : Post) :
  getField p "location.coordinates" = VPoint (coordinates p).
Proof. reflexivity. Qed.

(** The geospatial key of the filter object is there exactly when
    [latitude && longitude] holds. *)
Lemma predicate_location (params : SearchParams.t) :
  predicate params !! "location.coordinates"
  = match geocenter params with
    | Some (lat, lng) => Some (nearQuery lat lng (radiusOf params))
    | None => None
    end.
Proof.
  unfold predicate, addFilters. cbv zeta.
  rewrite setWhen_lookup_ne, !setBool_lookup_ne, !setNum_lookup_ne by discriminate.
  rewrite !assign_lookup_None by (apply buildRangeQuery_lookup_ne; discriminate).
  rewrite !setStr_lookup_ne, !setBool_lookup_ne, !setStr_lookup_ne by discriminate.
  destruct (geocenter params) as [[lat lng]|].
  - apply lookup_insert_eq.
  - destruct (truthyStr (SearchParams.searchText params));
      rewrite ?assign_lookup_None
        by (apply textSearchClauses_lookup_ne; discriminate);
      reflexivity.
Qed.



(** With a geocenter and the sort key [distance], the results of a request
    whose text, if it has one, compiles come nearest first for the store's
    distance. *)
Theorem distance_sort_is_nearest_first (db : Store) (params : SearchParams.t)
    (lat lng : Q) :
  geocenter params = Some (lat, lng) ->
  sortByOf params = "distance" ->
  compiles params = true ->
  (1 <= pageOf params)%Z ->
  (1 <= limitOf params)%Z ->
  exists r : SearchResponse,
    resultOf (advancedSearch db params) = Some r /\
    ascendingBy (fun p => geoDistance (lng, lat) (coordinates p))
      (map doc (posts r)).
Proof.
  intros Hgeo Hs Hc Hp Hl.
  assert (Hrel : useRelevanceSort params = false).
  { unfold useRelevanceSort. rewrite Hs.
    destruct (truthyStr (SearchParams.searchText params)); reflexivity. }
  rewrite (advancedSearch_done db params Hc)
    by (apply paged_fetchSkip; assumption).
  eexists. split; [reflexivity|]. cbn [posts].
  rewrite (processed_docs_direct db params Hrel), (window_direct db params Hrel Hl).
  apply ascendingBy_take_drop. unfold nativeOrder, ordered, nearCenter.
  rewrite Hs. cbn [sortQueryOf String.eqb]. rewrite predicate_location, Hgeo.
  cbn [nearQuery].
  apply (stableSort_ascending (fun p => geoDistance (lng, lat) (coordinates p))).
Qed.

End ResultOrder.

(** ** Pages in relevance mode *)

Section RelevancePages.
Context `{Env}.
Import PostQueryHelper SearchSpec Paging.

Lemma ranked_of_window (db : Store) (q params : SearchParams.t) (text : string) :
  window db q = window db params ->
  ranked db q text = ranked db params text.
Proof.
  intros Hw. unfold ranked, scored, populated. rewrite Hw. reflexivity.
Qed.

Lemma annotated_docs (params : SearchParams.t) (l : list Hit) :
  map doc (annotated params l) = map doc l.
Proof.
  unfold annotated. destruct (geocenter params) as [[lat lng]|]; [|reflexivity].
  rewrite map_map. reflexivity.
Qed.

Lemma ranked_nil (db : Store) (params : SearchParams.t) (text : string) :
  compiles params = false -> ranked db params text = [].
Proof.
  intros Hc. unfold ranked, scored, populated, window.
  rewrite (nativeOrder_nil db params Hc), drop_nil.
  unfold limitDocs. destruct (_ =? 0)%Z; rewrite ?take_nil; reflexivity.
Qed.

Lemma pageDocs_relevance (db : Store) (params : SearchParams.t) (text : string)
    (i : nat) :
  truthyStr (SearchParams.searchText params) = Some text ->
  sortByOf params <> "distance" ->
  (1 <= limitOf params)%Z ->
  pageDocs db params (Z.of_nat (S i))
  = map doc (take (Z.to_nat (limitOf params))
               (drop (i * Z.to_nat (limitOf params)) (ranked db params text))).
Proof.
  intros Ht Hs Hl. destruct (compiles params) eqn:Hc;
    [|rewrite pageDocs_nil, ranked_nil by exact Hc;
      rewrite drop_nil, take_nil; reflexivity].
  unfold pageDocs. set (q := atPage params (Z.of_nat (S i))).
  pose proof (relevance_mode params text Ht Hs) as Hrel.
  assert (Hrel' : useRelevanceSort q = true) by exact Hrel.
  assert (Hl' : (1 <= limitOf q)%Z) by exact Hl.
  assert (Hc' : compiles q = true) by exact Hc.
  destruct (relevance_window db q Hrel' Hl') as (Hskip & _ & Hwin & _).
  destruct (relevance_window db params Hrel Hl) as (_ & _ & Hwin0 & _).
  rewrite (advancedSearch_done db q Hc') by lia.
  cbn [resultOf fst posts]. rewrite annotated_docs. unfold processed.
  change (SearchParams.searchText q) with (SearchParams.searchText params).
  rewrite Ht, Hrel'.
  rewrite (ranked_of_window db q params text)
    by (rewrite Hwin, Hwin0; reflexivity).
  change (skipOf q) with ((Z.of_nat (S i) - 1) * limitOf params)%Z.
  change (limitOf q) with (limitOf params).
  rewrite slice_take_drop by nia. do 3 f_equal. nia.
Qed.

(** In relevance mode with page size [n >= 1], pages 1 to 5 together are
    the ranked window: they serve the first [5 * n] matches of the store's
    order, each exactly once, and every match when there are at most
    [5 * n] of them. *)
Theorem relevance_pages_serve_window (db : Store) (params : SearchParams.t)
    (text : string) :
  truthyStr (SearchParams.searchText params) = Some text ->
  sortByOf params <> "distance" ->
  (1 <= limitOf params)%Z ->
  firstPages db params 5 = map doc (ranked db params text) /\
  firstPages db params 5
    ≡ₚ take (5 * Z.to_nat (limitOf params)) (nativeOrder db params) /\
  ((length (matching db params) <= 5 * Z.to_nat (limitOf params))%nat ->
   firstPages db params 5 ≡ₚ matching db params).
Proof.
  intros Ht Hs Hl.
  pose proof (relevance_mode params text Ht Hs) as Hrel.
  destruct (relevance_window db params Hrel Hl) as (_ & _ & Hwin & Hlen).
  assert (Hpages : forall k : nat,
            firstPages db params k
            = map doc (take (k * Z.to_nat (limitOf params))
                         (ranked db params text))).
  { intros k. unfold firstPages. induction k as [|k IH]; [reflexivity|].
    rewrite seq_S, map_app, concat_app, IH. cbn [map concat plus].
    rewrite app_nil_r, (pageDocs_relevance db params text k Ht Hs Hl).
    rewrite <- map_app, take_take_drop. do 2 f_equal. lia. }
  assert (Hall : firstPages db params 5 = map doc (ranked db params text)).
  { rewrite Hpages, take_ge; [reflexivity|]. rewrite ranked_length. lia. }
  assert (Hperm : map doc (ranked db params text)
                  ≡ₚ take (5 * Z.to_nat (limitOf params)) (nativeOrder db params)).
  { rewrite (ranked_perm db params text).
    destruct (scored_spec db params text) as [-> _]. rewrite Hwin.
    replace (Z.to_nat (5 * limitOf params)) with (5 * Z.to_nat (limitOf params))%nat
      by lia. reflexivity. }
  split; [exact Hall|]. split; [rewrite Hall; exact Hperm|].
  intros Hsmall. rewrite Hall, Hperm, take_ge.
  - apply nativeOrder_perm.
  - rewrite (Permutation_length (nativeOrder_perm db params)). exact Hsmall.
Qed.

(** In relevance mode with a text that compiles, [pagination.count] is the
    size of the candidate window, [min(5 * n, matches)], not the number of
    results on the page; the page holds [min(n, count - (p - 1) * n)]
    results. *)
Theorem relevance_count_is_window_size (db : Store) (params : SearchParams.t)
    (text : string) :
  truthyStr (SearchParams.searchText params) = Some text ->
  regexCompiles text = true ->
  sortByOf params <> "distance" ->
  (1 <= pageOf params)%Z ->
  (1 <= limitOf params)%Z ->
  exists r : SearchResponse,
    resultOf (advancedSearch db params) = Some r /\
    count (pagination r)
    = Nat.min (5 * Z.to_nat (limitOf params)) (length (matching db params)) /\
    length (posts r)
    = Nat.min (Z.to_nat (limitOf params))
        (count (pagination r)
         - Z.to_nat (pageOf params - 1) * Z.to_nat (limitOf params)).
Proof.
  intros Ht Hc Hs Hp Hl.
  pose proof (relevance_mode params text Ht Hs) as Hrel.
  destruct (relevance_window db params Hrel Hl) as (Hskip & _ & Hwin & _).
  rewrite (advancedSearch_done db params (compiles_text params text Ht Hc))
    by lia.
  eexists. split; [reflexivity|]. cbn [posts pagination count].
  assert (Hcount : length (window db params)
                   = Nat.min (5 * Z.to_nat (limitOf params))
                       (length (matching db params))).
  { rewrite Hwin, length_take.
    rewrite (Permutation_length (nativeOrder_perm db params)). lia. }
  split; [exact Hcount|].
  rewrite <- (length_map doc), annotated_docs, length_map.
  unfold processed. rewrite Ht, Hrel. unfold skipOf.
  rewrite slice_take_drop by nia.
  rewrite length_take, length_drop, ranked_length. nia.
Qed.

End RelevancePages.

(** ** Authors of the results *)

Section AuthorFacts.
Context `{Env}.
Import PostQueryHelper SearchSpec.

Lemma strIn_spec (s : string) (l : list string) : strIn s l = true <-> s ∈ l.
Proof.
  unfold strIn. rewrite existsb_exists, list_elem_of_In. split.
  - intros (x & Hx & Heq). apply String.eqb_eq in Heq. subst. exact Hx.
  - intros Hs. exists s. split; [exact Hs | apply String.eqb_refl].
Qed.

Lemma userMap_Some (users : list User) (id : string) (u : User) :
  userMap users !! id = Some u -> u ∈ users /\ userId u = id.
Proof.
  unfold userMap. intros Hu. apply elem_of_list_to_map_2 in Hu.
  rewrite elem_of_reverse in Hu.
  apply list_elem_of_fmap in Hu as (u' & Heq & Hu'). inversion Heq; subst.
  split; [exact Hu' | reflexivity].
Qed.

Lemma userMap_None (users : list User) (id : string) (u : User) :
  userMap users !! id = None -> u ∈ users -> userId u <> id.
Proof.
  unfold userMap. intros Hnone Hu Heq.
  apply not_elem_of_list_to_map_2 in Hnone. apply Hnone.
  apply list_elem_of_fmap. exists (userId u, u). split; [symmetry; exact Heq|].
  rewrite elem_of_reverse. apply list_elem_of_fmap. exists u. split; [reflexivity | exact Hu].
Qed.

(** Each result is a document of the window with the author the manual
    population gave it. *)
Lemma results_from_window (db : Store) (params : SearchParams.t) (h : Hit) :
  h ∈ annotated params (processed db params) ->
  exists x : Hit, x ∈ populated db params /\ doc h = doc x /\ author h = author x.
Proof.
  intros Hh.
  assert (Hsc : forall text y, y ∈ scored db params text ->
            exists x, x ∈ populated db params /\ doc y = doc x /\ author y = author x).
  { intros text y Hy. unfold scored in Hy.
    apply list_elem_of_fmap in Hy as (x & -> & Hx). exists x. auto. }
  assert (Hpr : forall y, y ∈ processed db params ->
            exists x, x ∈ populated db params /\ doc y = doc x /\ author y = author x).
  { intros y Hy. unfold processed in Hy.
    destruct (truthyStr (SearchParams.searchText params)) as [text|]; [|eauto].
    destruct (useRelevanceSort params); [|eauto].
    apply slice_subseteq in Hy. rewrite ranked_perm in Hy. eauto. }
  unfold annotated in Hh. destruct (geocenter params) as [[lat lng]|]; [|auto].
  apply list_elem_of_fmap in Hh as (y & -> & Hy). exact (Hpr y Hy).
Qed.

(** For a request whose text, if it has one, compiles, the author of a
    result is either a user of the store whose identifier is the
    [authorId] of the listing, or [null]; and it is [null] only when the
    reference is missing, empty, not a valid identifier, or names no user.
    A dangling reference never fails the page. *)
Theorem authors_resolved_or_null (db : Store) (params : SearchParams.t) :
  compiles params = true ->
  (1 <= pageOf params)%Z ->
  (1 <= limitOf params)%Z ->
  exists r : SearchResponse,
    resultOf (advancedSearch db params) = Some r /\
    Forall (fun h =>
              match author h with
              | Some u => u ∈ usersOf db /\ authorId (doc h) = Some (userId u)
              | None =>
                  forall id : string,
                    authorId (doc h) = Some id ->
                    id <> "" ->
                    isValidObjectId id = true ->
                    forall u : User, u ∈ usersOf db -> userId u <> id
              end)
      (posts r).
Proof.
  intros Hc Hp Hl.
  rewrite (advancedSearch_done db params Hc)
    by (apply paged_fetchSkip; assumption).
  eexists. split; [reflexivity|]. cbn [posts].
  rewrite Forall_forall. intros h Hh.
  apply results_from_window in Hh as (x & Hx & -> & ->).
  unfold populated in Hx. apply list_elem_of_fmap in Hx as (p & -> & Hp').
  cbn [resolveAuthor author doc].
  set (found := List.filter _ (usersOf db)).
  assert (Hfound : forall u, u ∈ found <->
            u ∈ usersOf db /\ userId u ∈ validAuthorIds (window db params)).
  { intros u. unfold found. rewrite !list_elem_of_In, filter_In.
    rewrite strIn_spec, list_elem_of_In. reflexivity. }
  destruct (authorId p) as [id|] eqn:Hid; [|intros ? [=]].
  destruct (truthy id) eqn:Htr.
  - destruct (userMap found !! id) as [u|] eqn:Hu.
    + apply userMap_Some in Hu as [Hu <-]. apply Hfound in Hu as [Hu _]. auto.
    + intros id' [= <-] _ Hvalid u Huser Heq.
      apply (userMap_None found id u Hu); [|exact Heq].
      apply Hfound. split; [exact Huser|]. rewrite Heq.
      unfold validAuthorIds. rewrite list_elem_of_In, filter_In, <- list_elem_of_In.
      split; [|rewrite Htr, Hvalid; reflexivity].
      apply list_elem_of_omap. exists p. auto.
  - intros id' [= <-] Hne. apply truthy_spec in Hne. congruence.
Qed.

End AuthorFacts.

(** ** The filter builders *)

Section BuilderFacts.
Context `{Env}.
Import PostQueryHelper SearchSpec ScoreSpec.

(** [buildRangeQuery] keeps a listing exactly when its value lies between
    the bounds, both inclusive; a bound that is absent, [NaN] or zero is no
    bound, and without bounds every listing passes. *)
Theorem buildRangeQuery_inclusive (min max : option JsNum.num) (p : Post) :
  (matches (buildRangeQuery "price" min max) p = true <->
   (forall a, JsNum.truthyOpt min = Some a -> (a <= price p)%Q) /\
   (forall b, JsNum.truthyOpt max = Some b -> (price p <= b)%Q)) /\
  (matches (buildRangeQuery "area" min max) p = true <->
   (forall a, JsNum.truthyOpt min = Some a -> (a <= area p)%Q) /\
   (forall b, JsNum.truthyOpt max = Some b -> (area p <= b)%Q)).
Proof.
  split; unfold buildRangeQuery;
    destruct (JsNum.truthyOpt min) as [a|], (JsNum.truthyOpt max) as [b|];
    rewrite ?matches_empty, ?matches_singleton; cbn;
    rewrite ?andb_true_iff, ?andb_true_r, ?Qle_bool_iff;
    split; try (intros; split; intros ? [=]; subst; tauto);
    try (intros [Ha Hb]; auto); try reflexivity; try (intros; discriminate).
  all: try (split; [apply Ha | apply Hb]; reflexivity).
  all: try (apply Ha; reflexivity). all: try (apply Hb; reflexivity).
Qed.

Lemma textSearchClauses_match (text : string) (p : Post) :
  matches (textSearchClauses text) p
  = (regexTest text (title p) || regexTest text (description p)
     || optTest text (street p) || optTest text (district p)
     || optTest text (province p)
     || existsb (regexTest text) (tags p)
     || existsb (regexTest text) (keywords p)).
Proof.
  unfold textSearchClauses. rewrite matches_singleton. apply textClause_match.
Qed.


Lemma predicate_text (params : SearchParams.t) (text : string) :
  truthyStr (SearchParams.searchText params) = Some text ->
  predicate params !! "$or" = textSearchClauses text !! "$or".
Proof.
  intros Ht. unfold predicate, addFilters. cbv zeta. rewrite Ht.
  rewrite setWhen_lookup_ne, !setBool_lookup_ne, !setNum_lookup_ne by discriminate.
  rewrite !assign_lookup_None by (apply buildRangeQuery_lookup_ne; discriminate).
  rewrite !setStr_lookup_ne, !setBool_lookup_ne, !setStr_lookup_ne by discriminate.
  assert (Htext : assign approvedOnly (textSearchClauses text) !! "$or"
                  = textSearchClauses text !! "$or").
  { unfold assign. apply lookup_union_l. reflexivity. }
  destruct (geocenter params) as [[lat lng]|];
    rewrite ?lookup_insert_ne by discriminate; exact Htext.
Qed.

Lemma existsb_count (text : string) (l : list string) :
  existsb (containsQuery text) l = true -> (1 <= countContaining text l)%Q.
Proof.
  intros Hex. unfold countContaining.
  change 1%Q with (inject_Z 1). rewrite <- Zle_Qle.
  apply existsb_exists in Hex as (s & Hs & Hc).
  induction l as [|x l IH]; [destruct Hs|]. cbn [List.filter].
  destruct (containsQuery text x) eqn:Hx; [cbn [length]; lia|].
  destruct Hs as [->|Hs]; [congruence | auto].
Qed.

(** A listing that passes the text filter of a literal query has a table
    score of at least 3, the weight of the weakest text signal. *)
Lemma literal_match_scores (text : string) (p : Post) :
  literalPattern text ->
  schemaValid p ->
  matches (textSearchClauses text) p = true ->
  (3 <= tableScore p text)%Q.
Proof.
  intros [_ Hlit] Hv Hm. rewrite textSearchClauses_match in Hm.
  assert (Hopt : forall o, optTest text o = optContains text o)
    by (intros [s|]; [apply Hlit | reflexivity]).
  rewrite !Hopt, !Hlit in Hm.
  rewrite !(existsb_eq _ _ _ Hlit) in Hm.
  unfold tableScore.
  pose proof (countContaining_nonneg text (tags p)).
  pose proof (countContaining_nonneg text (keywords p)).
  pose proof (weight_nonneg (containsQuery text (title p)) 10).
  pose proof (weight_nonneg (equalsQuery text (title p)) 5).
  pose proof (weight_nonneg (optContains text (province p)) 6).
  pose proof (weight_nonneg (optContains text (district p)) 5).
  pose proof (weight_nonneg (optContains text (street p)) 4).
  pose proof (weight_nonneg (containsQuery text (description p)) 3).
  pose proof (weight_nonneg (featured p) 2).
  pose proof (weight_nonneg (urgent p) 1).
  pose proof (popularity_nonneg (viewCount p) Hv).
  pose proof (existsb_count text (tags p)) as Htags.
  pose proof (existsb_count text (keywords p)) as Hkws.
  destruct (containsQuery text (title p)), (containsQuery text (description p)),
    (optContains text (street p)), (optContains text (district p)),
    (optContains text (province p)),
    (existsb (containsQuery text) (tags p)),
    (existsb (containsQuery text) (keywords p));
    try discriminate; cbn [weight] in *;
    try specialize (Htags eq_refl); try specialize (Hkws eq_refl);
    lra.
Qed.

Lemma matching_passes_text (db : Store) (params : SearchParams.t)
    (text : string) (p : Post) :
  truthyStr (SearchParams.searchText params) = Some text ->
  p ∈ matching db params ->
  matches (textSearchClauses text) p = true.
Proof.
  intros Ht Hp. apply matching_spec in Hp as [_ Hm].
  pose proof (predicate_text params text Ht) as Hk.
  unfold textSearchClauses in *. rewrite lookup_singleton_eq in Hk.
  rewrite matches_singleton. exact (matches_lookup _ _ _ _ Hm Hk).
Qed.

Lemma results_scored (db : Store) (params : SearchParams.t) (text : string)
    (h : Hit) :
  truthyStr (SearchParams.searchText params) = Some text ->
  h ∈ annotated params (processed db params) ->
  relevanceScore h = Some (calculateRelevanceScore (doc h) text).
Proof.
  intros Ht Hh.
  assert (Hsc : forall x, x ∈ scored db params text ->
            relevanceScore x = Some (calculateRelevanceScore (doc x) text)).
  { destruct (scored_spec db params text) as [_ Hall].
    rewrite Forall_forall in Hall. exact Hall. }
  assert (Hpr : forall x, x ∈ processed db params ->
            relevanceScore x = Some (calculateRelevanceScore (doc x) text)).
  { intros x Hx. unfold processed in Hx. rewrite Ht in Hx.
    destruct (useRelevanceSort params); [|auto].
    apply slice_subseteq in Hx. rewrite ranked_perm in Hx. auto. }
  unfold annotated in Hh. destruct (geocenter params) as [[lat lng]|]; [|auto].
  apply list_elem_of_fmap in Hh as (x & -> & Hx). exact (Hpr x Hx).
Qed.

(** The text filter and the scorer agree on a literal query: when every
    stored listing satisfies the schema, each result of a free-text search
    carries a relevance score of at least 3, so no result is there without
    a text signal. *)
Theorem free_text_results_score_at_least_3 (db : Store)
    (params : SearchParams.t) (text : string) :
  literalPattern text ->
  truthyStr (SearchParams.searchText params) = Some text ->
  Forall schemaValid (postsOf db) ->
  (1 <= pageOf params)%Z ->
  (1 <= limitOf params)%Z ->
  exists r : SearchResponse,
    resultOf (advancedSearch db params) = Some r /\
    Forall (fun h => exists s : Q, relevanceScore h = Some s /\ (3 <= s)%Q)
      (posts r).
Proof.
  intros Hlit Ht Hvalid Hp Hl.
  rewrite (advancedSearch_done db params
             (compiles_text params text Ht (proj1 Hlit)))
    by (apply paged_fetchSkip; assumption).
  eexists. split; [reflexivity|]. cbn [posts].
  rewrite Forall_forall. intros h Hh.
  eexists. split; [exact (results_scored db params text h Ht Hh)|].
  destruct (truthyStr_Some _ _ Ht) as [_ Hne].
  apply processed_docs, window_subseteq in Hh.
  rewrite Forall_forall in Hvalid.
  assert (Hv : schemaValid (doc h))
    by (apply Hvalid; apply matching_spec in Hh as [Hin _]; exact Hin).
  rewrite (score_table (doc h) text Hne).
  exact (literal_match_scores text (doc h) Hlit Hv
           (matching_passes_text db params text (doc h) Ht Hh)).
Qed.

End BuilderFacts.

(** ** The helpers with a caller-supplied filter *)

Section CallerFilterFacts.
Context `{Env}.
Import PostQueryHelper SearchSpec.

Lemma approved_match_iff (p : Post) :
  matchClause p "status" (Field (CEq (VStr "approved"))) = true <->
  status p = approved.
Proof.
  split; [apply approved_of_match|].
  destruct p as [? ? ? ? ? ? ? ? ? ? ? ? ? ? ? ? ? st]. cbn. intros ->. reflexivity.
Qed.

(** When the caller's filter has no [status] key, the spread keeps the
    restriction to approved listings. *)
Lemma matches_assign_approved (base filter : Query) (p : Post) :
  base !! "status" = Some (Field (CEq (VStr "approved"))) ->
  filter !! "status" = None ->
  matches (assign base filter) p = true -> status p = approved.
Proof.
  intros Hbase Hfilter Hm. apply approved_match_iff.
  apply (matches_lookup _ _ _ _ Hm). unfold assign.
  rewrite lookup_union_r by exact Hfilter. exact Hbase.
Qed.

Lemma matches_approvedOnly_filter (filter : Query) (p : Post) :
  filter !! "status" = None ->
  matches (assign approvedOnly filter) p
  = bool_decide (status p = approved) && matches filter p.
Proof.
  intros Hfilter. apply eq_true_iff_eq.
  rewrite andb_true_iff, bool_decide_eq_true, !matches_iff. unfold assign. split.
  - intros Hall. split.
    + apply approved_match_iff, Hall.
      rewrite lookup_union_r by exact Hfilter. reflexivity.
    + intros k cl Hk. apply Hall. apply lookup_union_Some_l. exact Hk.
  - intros [Hst Hall] k cl Hk. apply lookup_union_Some_raw in Hk as [Hk|[_ Hk]].
    + auto.
    + unfold approvedOnly in Hk. apply lookup_singleton_Some in Hk as [<- <-].
      apply approved_match_iff. exact Hst.
Qed.

Lemma populate_docs (db : Store) (docs : list Post) :
  exists hits : list Hit,
    populate db docs = (Done hits, [OpFindUsers (omap authorId docs)]) /\
    map doc hits = docs.
Proof.
  eexists. split; [reflexivity|]. rewrite map_map. apply map_id.
Qed.

Lemma limitDocs_is_take {A} (n : Z) (l : list A) :
  exists m : nat, limitDocs n l = take m l.
Proof.
  unfold limitDocs. destruct (n =? 0)%Z; [|eauto].
  exists (length l). symmetry. apply firstn_all.
Qed.

Lemma findNearbyPosts_safe (db : Store) (latitude longitude : Q)
    (radius : Q) (filter : Query) (skip limit : Z) :
  filter !! "status" = None ->
  filter !! "location.coordinates" = None ->
  (0 <= skip)%Z ->
  exists (hits : list Hit) (n : nat) (ops : list StoreOp),
    findNearbyPosts db latitude longitude (JsNum.Num radius) filter skip limit
    = (Done hits, ops) /\
    resultOf (countNearbyPosts db latitude longitude (JsNum.Num radius) filter)
    = Some n /\
    Forall (fun h =>
              status (doc h) = approved /\
              (geoDistance (longitude, latitude) (coordinates (doc h))
               <= radius)%Q) hits /\
    ascendingBy (fun p => geoDistance (longitude, latitude) (coordinates p))
      (map doc hits) /\
    (length hits <= n)%nat.
Proof.
  intros Hst Hloc Hskip.
  set (query := assign (<["location.coordinates" :=
                           nearQuery latitude longitude (JsNum.Num radius)]>
                          approvedOnly) filter).
  set (found := List.filter (matches query) (postsOf db)).
  set (docs := limitDocs limit (drop (Z.to_nat skip) (ordered query None found))).
  destruct (populate_docs db docs) as (hits & Hpop & Hdocs).
  exists hits, (length found). eexists.
  assert (Hnear : query !! "location.coordinates"
                  = Some (nearQuery latitude longitude (JsNum.Num radius))).
  { unfold query, assign. rewrite lookup_union_r by exact Hloc.
    apply lookup_insert_eq. }
  assert (Hsub : docs ⊆ found).
  { unfold docs. etransitivity; [apply limitDocs_subseteq|].
    etransitivity; [apply subseteq_drop|].
    intros p Hp. rewrite ordered_perm in Hp. exact Hp. }
  split.
  { unfold findNearbyPosts, find. fold query.
    destruct (Z.ltb_spec skip 0); [lia|]. fold found docs.
    unfold mbind, M_bind, bind. cbv beta iota zeta.
    rewrite Hpop. reflexivity. }
  split; [reflexivity|]. split.
  { rewrite Forall_forall. intros h Hh.
    assert (Hd : doc h ∈ found).
    { apply Hsub. rewrite <- Hdocs. apply list_elem_of_fmap. eauto. }
    unfold found in Hd. rewrite list_elem_of_In, filter_In in Hd.
    destruct Hd as [_ Hm]. split.
    - apply (matches_assign_approved _ filter (doc h)) in Hm; auto.
    - pose proof (matches_lookup _ _ _ _ Hm Hnear) as Hc.
      cbn [matchClause nearQuery] in Hc. rewrite getField_coordinates in Hc.
      cbn [matchCond] in Hc. apply Qle_bool_iff. exact Hc. }
  split.
  { rewrite Hdocs. unfold docs.
    destruct (limitDocs_is_take limit
                (drop (Z.to_nat skip) (ordered query None found))) as (m & ->).
    apply ascendingBy_take_drop. unfold ordered, nearCenter. rewrite Hnear.
    cbn [nearQuery].
    apply (stableSort_ascending
             (fun p => geoDistance (longitude, latitude) (coordinates p))). }
  rewrite <- (length_map doc), Hdocs.
  unfold docs. destruct (limitDocs_is_take limit
                (drop (Z.to_nat skip) (ordered query None found))) as (m & ->).
  rewrite length_take, length_drop.
  rewrite (Permutation_length (ordered_perm query None found)). lia.
Qed.

(** With a filter that has neither a [status] nor a
    [location.coordinates] key, [findNearbyPosts] returns approved listings
    only, all within the radius of the center for the store's distance and
    nearest first, and never more of them than [countNearbyPosts]
    counts. *)
Theorem findNearbyPosts_without_status_key (db : Store) (latitude longitude : Q)
    (radius : Q) (filter : Query) (skip limit : Z) :
  filter !! "status" = None ->
  filter !! "location.coordinates" = None ->
  (0 <= skip)%Z ->
  exists (hits : list Hit) (n : nat),
    resultOf (findNearbyPosts db latitude longitude (JsNum.Num radius)
                filter skip limit) = Some hits /\
    resultOf (countNearbyPosts db latitude longitude (JsNum.Num radius) filter)
    = Some n /\
    Forall (fun h =>
              status (doc h) = approved /\
              (geoDistance (longitude, latitude) (coordinates (doc h))
               <= radius)%Q) hits /\
    ascendingBy (fun p => geoDistance (longitude, latitude) (coordinates p))
      (map doc hits) /\
    (length hits <= n)%nat.
Proof.
  intros Hst Hloc Hskip.
  destruct (findNearbyPosts_safe db latitude longitude radius filter skip limit
              Hst Hloc Hskip) as (hits & n & ops & Hrun & Hrest).
  exists hits, n. split; [unfold resultOf; rewrite Hrun; reflexivity | exact Hrest].
Qed.

(** With a filter that has no [status] key, [findWithAdvancedFilter]
    returns approved listings only, and its total is the number of approved
    listings of the collection that satisfy the filter. *)
Theorem findWithAdvancedFilter_without_status_key (db : Store) (filter : Query)
    (sortQuery : option SortSpec) (skip limit : Z) :
  filter !! "status" = None ->
  (0 <= skip)%Z ->
  exists (hits : list Hit) (total : nat),
    resultOf (findWithAdvancedFilter db filter sortQuery skip limit)
    = Some (hits, total) /\
    total = length (List.filter
                      (fun p => bool_decide (status p = approved)
                                && matches filter p) (postsOf db)) /\
    Forall (fun h => status (doc h) = approved /\ matches filter (doc h) = true)
      hits /\
    (length hits <= total)%nat.
Proof.
  intros Hst Hskip.
  set (query := assign approvedOnly filter).
  set (found := List.filter (matches query) (postsOf db)).
  set (docs := limitDocs limit (drop (Z.to_nat skip) (ordered query sortQuery found))).
  destruct (populate_docs db docs) as (hits & Hpop & Hdocs).
  exists hits, (length found).
  assert (Hsub : docs ⊆ found).
  { unfold docs. etransitivity; [apply limitDocs_subseteq|].
    etransitivity; [apply subseteq_drop|].
    intros p Hp. rewrite ordered_perm in Hp. exact Hp. }
  assert (Hfound : found
                   = List.filter (fun p => bool_decide (status p = approved)
                                           && matches filter p) (postsOf db)).
  { unfold found, query. apply filter_ext. intros p.
    apply matches_approvedOnly_filter. exact Hst. }
  split.
  { unfold findWithAdvancedFilter, find, both. fold query.
    destruct (Z.ltb_spec skip 0); [lia|]. fold found docs.
    unfold resultOf, mbind, M_bind, bind, countDocuments. cbv beta iota zeta.
    rewrite Hpop. reflexivity. }
  split; [rewrite Hfound; reflexivity|]. split.
  { rewrite Forall_forall. intros h Hh.
    assert (Hd : doc h ∈ found).
    { apply Hsub. rewrite <- Hdocs. apply list_elem_of_fmap. eauto. }
    rewrite Hfound, list_elem_of_In, filter_In in Hd. destruct Hd as [_ Hm].
    apply andb_true_iff in Hm as [Ha Hm]. apply bool_decide_eq_true in Ha. auto. }
  rewrite <- (length_map doc), Hdocs.
  unfold docs. destruct (limitDocs_is_take limit
                (drop (Z.to_nat skip) (ordered query sortQuery found))) as (m & ->).
  rewrite length_take, length_drop.
  rewrite (Permutation_length (ordered_perm query sortQuery found)). lia.
Qed.

End CallerFilterFacts.

(** ** The nearby handler *)

Section NearbyHandlerFacts.
Context `{Env}.
Import PostQueryHelper PostController.

Lemma validCoordinates_None (lat lng : Q) :
  validCoordinates (JsNum.Num lat) (JsNum.Num lng) = None <->
  (lat < -90 \/ 90 < lat \/ lng < -180 \/ 180 < lng)%Q.
Proof.
  unfold validCoordinates.
  pose proof (Qlt_bool_spec lat (-90)) as H1.
  pose proof (Qlt_bool_spec 90 lat) as H2.
  pose proof (Qlt_bool_spec lng (-180)) as H3.
  pose proof (Qlt_bool_spec 180 lng) as H4.
  destruct (JsNum.Qlt_bool lat (-90)), (JsNum.Qlt_bool 90 lat),
    (JsNum.Qlt_bool lng (-180)), (JsNum.Qlt_bool 180 lng); cbn;
    split; try tauto; try discriminate; intros [?|[?|[?|?]]]; exfalso; lra.
Qed.

Lemma service_nearby_reaches_store (db : Store) (lat lng : Q)
    (radius : JsNum.num) (page limit : Z) (filter : option PostFilter.t) :
  (PostService.getNearbyPosts db lat lng radius page limit filter).2 <> [].
Proof.
  unfold PostService.getNearbyPosts, PostService.rethrow, findNearbyPosts,
    countNearbyPosts, find, countDocuments, populate, findUsers,
    mbind, M_bind, bind, mret, M_ret, ret.
  destruct (_ <? 0)%Z; cbn; discriminate.
Qed.

Lemma nearby_accepted (db : Store) (req : Request) (lat lng : Q) :
  let r := respond
             (result ← PostService.getNearbyPosts db lat lng
                         (default (JsNum.Num 5000) (floatParam req "radius"))
                         (intOr req "page" 1) (intOr req "limit" 10)
                         (Some (nearbyFilterOf req));
              mret (SuccessWithPagination (nearbyPosts result)
                      (current (nearbyPagination result))
                      (pageLimit (nearbyPagination result))
                      (totalCount (nearbyPagination result))
                      (total (nearbyPagination result))
                      "Found posts within radius"))
             "Error searching nearby posts" in
  statusCode r.1 <> 400%nat /\ r.2 <> [].
Proof.
  intros r. subst r.
  pose proof (service_nearby_reaches_store db lat lng
                (default (JsNum.Num 5000) (floatParam req "radius"))
                (intOr req "page" 1) (intOr req "limit" 10)
                (Some (nearbyFilterOf req))) as Hlog.
  destruct (PostService.getNearbyPosts _ _ _ _ _ _ _) as [[res|e] ops];
    cbn in *; split; try discriminate.
  - rewrite app_nil_r. exact Hlog.
  - exact Hlog.
Qed.

(** [getNearbyPosts] answers 400 exactly for a geocenter that is missing,
    not a number or out of range, and exactly then it leaves the store
    alone: every other request reaches the store. *)
Theorem getNearbyPosts_rejects_exactly_invalid (db : Store) (req : Request) :
  (statusCode (getNearbyPosts db req).1 = 400%nat <-> invalidGeocenter req) /\
  ((getNearbyPosts db req).2 = [] <-> invalidGeocenter req).
Proof.
  unfold getNearbyPosts, invalidGeocenter.
  destruct (param req "latitude") as [latitude|];
    [|split; split; intros; [exact I | reflexivity | exact I | reflexivity]].
  destruct (param req "longitude") as [longitude|];
    [|split; split; intros; [exact I | reflexivity | exact I | reflexivity]].
  destruct (parseFloat latitude) as [|lat];
    [split; split; intros; [exact I | reflexivity | exact I | reflexivity]|].
  destruct (parseFloat longitude) as [|lng];
    [split; split; intros; [exact I | reflexivity | exact I | reflexivity]|].
  pose proof (validCoordinates_None lat lng) as Hv.
  destruct (validCoordinates (JsNum.Num lat) (JsNum.Num lng)) as [[la lo]|].
  - destruct (nearby_accepted db req la lo) as [Hcode Hlog]. cbv zeta in *.
    split; split; intros Hx; try contradiction;
      apply Hv in Hx; discriminate.
  - split; split; intros _; try reflexivity; apply Hv; reflexivity.
Qed.

Lemma validCoordinates_Some (lat lng : Q) :
  (-90 <= lat <= 90)%Q -> (-180 <= lng <= 180)%Q ->
  validCoordinates (JsNum.Num lat) (JsNum.Num lng) = Some (lat, lng).
Proof.
  intros Hlat Hlng.
  pose proof (validCoordinates_None lat lng) as Hv.
  unfold validCoordinates in *.
  destruct (_ || _); [|reflexivity].
  destruct Hv as [Hv _]. specialize (Hv eq_refl). exfalso. lra.
Qed.

Lemma nearbyFilterOf_keys (req : Request) :
  PostFilter.asQuery (nearbyFilterOf req) !! "status" = None /\
  PostFilter.asQuery (nearbyFilterOf req) !! "location.coordinates" = None.
Proof.
  unfold nearbyFilterOf.
  destruct (param req "propertyType"), (param req "listingType"),
    (floatParam req "minPrice"), (floatParam req "maxPrice"),
    (floatParam req "minArea"), (floatParam req "maxArea");
    split; vm_compute; reflexivity.
Qed.

(** For a geocenter in range, a numeric radius and a page and page size of
    at least 1, [getNearbyPosts] answers 200, and every listing it serves
    is approved, lies within the radius for the store's distance and
    carries the computed distance from the center: the filter the handler
    builds has no [status] key. *)
Theorem getNearbyPosts_serves_approved_within_radius (db : Store)
    (req : Request) (latitude longitude : string) (lat lng radius : Q) :
  param req "latitude" = Some latitude ->
  param req "longitude" = Some longitude ->
  parseFloat latitude = JsNum.Num lat ->
  parseFloat longitude = JsNum.Num lng ->
  (-90 <= lat <= 90)%Q ->
  (-180 <= lng <= 180)%Q ->
  default (JsNum.Num 5000) (floatParam req "radius") = JsNum.Num radius ->
  (1 <= intOr req "page" 1)%Z ->
  (1 <= intOr req "limit" 10)%Z ->
  exists (data : list Hit) (total : nat) (pages : option Z) (log : list StoreOp),
    getNearbyPosts db req
    = (SuccessWithPagination data (intOr req "page" 1) (intOr req "limit" 10)
         total pages "Found posts within radius", log) /\
    Forall (fun h =>
              status (doc h) = approved /\
              (geoDistance (lng, lat) (coordinates (doc h)) <= radius)%Q /\
              distance h
              = Some (calculateDistance lat lng
                        (coordinates (doc h)).2 (coordinates (doc h)).1))
      data /\
    (length data <= total)%nat.
Proof.
  intros Hlat Hlng Hplat Hplng Hrlat Hrlng Hradius Hpage Hlimit.
  destruct (nearbyFilterOf_keys req) as [Hst Hloc].
  assert (Hskip : (0 <= (intOr req "page" 1 - 1) * intOr req "limit" 10)%Z) by nia.
  destruct (findNearbyPosts_safe db lat lng radius
              (PostFilter.asQuery (nearbyFilterOf req))
              ((intOr req "page" 1 - 1) * intOr req "limit" 10)
              (intOr req "limit" 10) Hst Hloc Hskip)
    as (hits & n & ops & Hrun & Hcount & Hall & _ & Hlen).
  unfold getNearbyPosts. rewrite Hlat, Hlng, Hplat, Hplng.
  rewrite (validCoordinates_Some lat lng Hrlat Hrlng), Hradius.
  unfold PostService.getNearbyPosts, PostService.rethrow.
  unfold mbind, M_bind, bind. rewrite Hrun. cbv beta iota zeta.
  unfold countNearbyPosts, countDocuments in *.
  unfold resultOf in Hcount. cbn [fst] in Hcount. injection Hcount as <-.
  cbn. do 4 eexists. split; [reflexivity|]. split.
  - rewrite Forall_forall in *. intros h Hh.
    apply list_elem_of_fmap in Hh as (x & -> & Hx). cbn [doc distance].
    destruct (Hall x Hx) as [Ha Hd]. auto.
  - rewrite length_map. exact Hlen.
Qed.

End NearbyHandlerFacts.

(** ** CoordinateUtils *)

Section CoordinateUtilsFacts.
Import CoordinateUtils.

Lemma toGeoJSON_in_range (lat lng : Q) :
  toGeoJSON (JsNum.Num lat) (JsNum.Num lng)
  = Done (mkPoint "Point" (Some [JsNum.Num lng; JsNum.Num lat])) <->
  (-90 <= lat <= 90)%Q /\ (-180 <= lng <= 180)%Q.
Proof.
  unfold toGeoJSON, lt, gt.
  pose proof (Qlt_bool_spec lat (-90)) as H1.
  pose proof (Qlt_bool_spec 90 lat) as H2.
  pose proof (Qlt_bool_spec lng (-180)) as H3.
  pose proof (Qlt_bool_spec 180 lng) as H4.
  destruct (JsNum.Qlt_bool lat (-90)), (JsNum.Qlt_bool 90 lat),
    (JsNum.Qlt_bool lng (-180)), (JsNum.Qlt_bool 180 lng); cbn;
    split; try discriminate; try (intros _; lra); try reflexivity;
    intros [? ?]; exfalso; lra.
Qed.

(** [toGeoJSON] accepts a pair of numbers exactly when the latitude is in
    [-90, 90] and the longitude in [-180, 180], and rejects it otherwise;
    whatever it accepts, [fromGeoJSON] gives back, the GeoJSON order
    [longitude, latitude] being undone.  A coordinate that is [NaN] is
    never rejected. *)
Theorem geoJSON_round_trip (latitude longitude : JsNum.num) :
  (forall g : GeoJSONPoint,
     toGeoJSON latitude longitude = Done g ->
     fromGeoJSON (Some g) = Done (mkLatLng (Some latitude) (Some longitude))) /\
  (forall lat lng : Q,
     latitude = JsNum.Num lat -> longitude = JsNum.Num lng ->
     (exists g', toGeoJSON latitude longitude = Done g') <->
     (-90 <= lat <= 90)%Q /\ (-180 <= lng <= 180)%Q) /\
  (exists g', toGeoJSON JsNum.NaN JsNum.NaN = Done g').
Proof.
  split; [|split].
  - intros g. unfold toGeoJSON. destruct (_ || _); [discriminate|].
    destruct (_ || _); [discriminate|]. intros [= <-]. reflexivity.
  - intros lat lng -> ->. rewrite <- toGeoJSON_in_range. split.
    + intros [g' Hg]. revert Hg. unfold toGeoJSON.
      destruct (_ || _); [discriminate|]. destruct (_ || _); [discriminate|].
      reflexivity.
    + eauto.
  - eexists. reflexivity.
Qed.

(** A point of the rectangle [isInLaos] accepts is a valid coordinate pair
    for [toGeoJSON]. *)
Theorem isInLaos_is_valid (latitude longitude : JsNum.num) :
  isInLaos latitude longitude = true ->
  toGeoJSON latitude longitude
  = Done (mkPoint "Point" (Some [longitude; latitude])).
Proof.
  unfold isInLaos, ge, le. intros Hin.
  destruct latitude as [|lat]; [discriminate|].
  destruct longitude as [|lng]; [rewrite andb_false_r in Hin; discriminate|].
  rewrite !andb_true_iff, !Qle_bool_iff in Hin.
  apply toGeoJSON_in_range. lra.
Qed.

End CoordinateUtilsFacts.

Section BoundingBoxFacts.
Import BoundingBox.
Local Open Scope R_scope.

Lemma cos_latitude_pos (lat : R) :
  -90 < lat < 90 -> 0 < cos (lat * PI / 180) <= 1.
Proof.
  intros Hlat. pose proof PI_RGT_0 as Hpi. split; [|apply COS_bound].
  apply cos_gt_0; Lra.nra.
Qed.

(** For a center strictly between the poles and a radius that is not
    negative, the box of [createBoundingBox] is centered on the point,
    contains it, spans [2 * radius / 111.32] degrees of latitude, and is at
    least as wide in degrees of longitude. *)
Theorem createBoundingBox_contains_center (centerLat centerLng radiusKm : R) :
  -90 < centerLat < 90 ->
  0 <= radiusKm ->
  let box := createBoundingBox centerLat centerLng radiusKm in
  minLat box <= centerLat <= maxLat box /\
  minLng box <= centerLng <= maxLng box /\
  (minLat box + maxLat box) / 2 = centerLat /\
  (minLng box + maxLng box) / 2 = centerLng /\
  maxLat box - minLat box = 2 * radiusKm / 111.32 /\
  maxLat box - minLat box <= maxLng box - minLng box.
Proof.
  intros Hlat Hr box. subst box. unfold createBoundingBox. cbn.
  destruct (cos_latitude_pos centerLat Hlat) as [Hpos Hle].
  set (c := cos (centerLat * PI / 180)) in *.
  assert (Hlatd : 0 <= radiusKm / 111.32).
  { apply Rmult_le_pos; [exact Hr|]. apply Rlt_le, Rinv_0_lt_compat. Lra.lra. }
  assert (Hcmp : radiusKm / 111.32 <= radiusKm / (111.32 * c)).
  { unfold Rdiv. apply Rmult_le_compat_l; [exact Hr|].
    apply Rinv_le_contravar; Lra.nra. }
  repeat split; try Lra.lra.
Qed.

End BoundingBoxFacts.

(** ** More on the distance formula *)

Section DistanceFacts.
Import Haversine.
Local Open Scope R_scope.

Lemma atan2_nonneg_bounds (y x : R) :
  0 <= y -> 0 <= x -> 0 <= atan2 y x <= PI / 2.
Proof.
  intros Hy Hx. pose proof PI_RGT_0 as Hpi. unfold atan2.
  destruct (Rlt_dec 0 x) as [Hpos|Hnpos].
  - assert (Hq : 0 <= y / x).
    { apply Rmult_le_pos; [exact Hy|]. apply Rlt_le, Rinv_0_lt_compat, Hpos. }
    split.
    + rewrite <- atan_0. destruct Hq as [Hq| <-]; [|Lra.lra].
      apply Rlt_le, atan_increasing, Hq.
    + apply Rlt_le, atan_bound.
  - destruct (Rlt_dec x 0); [Lra.lra|].
    destruct (Rlt_dec 0 y); [Lra.lra|].
    destruct (Rlt_dec y 0); Lra.lra.
Qed.

Lemma round_0 : round 0 = 0%Z.
Proof.
  apply (nearestInteger_unique 0); [apply round_nearest|].
  unfold nearestInteger. cbn. Lra.lra.
Qed.

Lemma round_nonneg (x : R) : 0 <= x -> (0 <= round x)%Z.
Proof.
  intros Hx. destruct (round_nearest x) as [Hlo _].
  apply le_IZR. apply Rlt_le in Hlo.
  destruct (Z_lt_le_dec (round x) 0) as [Hneg|]; [|apply IZR_le; assumption].
  assert (IZR (round x) <= -1) by (apply IZR_le; lia). Lra.lra.
Qed.

Lemma source_a_symmetric (lat1 lon1 lat2 lon2 : R) :
  specA (radians lat1) (radians lon1) (radians lat2) (radians lon2)
  = specA (radians lat2) (radians lon2) (radians lat1) (radians lon1).
Proof.
  unfold specA.
  replace ((radians lat1 - radians lat2) / 2)
    with (- ((radians lat2 - radians lat1) / 2)) by Lra.lra.
  replace ((radians lon1 - radians lon2) / 2)
    with (- ((radians lon2 - radians lon1) / 2)) by Lra.lra.
  rewrite !sin_neg, <- !Rsqr_neg. ring.
Qed.

Lemma calculateDistance_spec (lat1 lon1 lat2 lon2 : R) :
  calculateDistance lat1 lon1 lat2 lon2
  = round (1000 * specKilometers lat1 lon1 lat2 lon2).
Proof.
  unfold calculateDistance, specKilometers. cbv zeta.
  rewrite source_a_is_specA. f_equal. ring.
Qed.

(** The distance of [calculateDistance] is zero from a point to itself and
    does not depend on the order of the two points. *)
Theorem calculateDistance_identity_symmetry (lat1 lon1 lat2 lon2 : R) :
  calculateDistance lat1 lon1 lat1 lon1 = 0%Z /\
  calculateDistance lat1 lon1 lat2 lon2 = calculateDistance lat2 lon2 lat1 lon1.
Proof.
  split.
  - rewrite calculateDistance_spec. unfold specKilometers, specA. cbv zeta.
    replace ((radians lat1 - radians lat1) / 2) with 0 by Lra.lra.
    replace ((radians lon1 - radians lon1) / 2) with 0 by Lra.lra.
    rewrite sin_0, Rsqr_0.
    replace (0 + cos (radians lat1) * cos (radians lat1) * 0) with 0 by ring.
    rewrite sqrt_0, Rminus_0_r, sqrt_1. unfold atan2.
    destruct (Rlt_dec 0 1); [|Lra.lra].
    replace (0 / 1) with 0 by Lra.lra. rewrite atan_0.
    replace (1000 * (2 * 6371 * 0)) with 0 by ring. apply round_0.
  - rewrite !calculateDistance_spec. unfold specKilometers. cbv zeta.
    rewrite (source_a_symmetric lat1 lon1 lat2 lon2). reflexivity.
Qed.

(** The two distance functions of the repository agree: the helper's
    result is the result of [CoordinateUtils.calculateDistance], which is in
    kilometers, times 1000 and rounded half up. *)
Theorem calculateDistance_rounds_coordinateUtils (lat1 lon1 lat2 lon2 : R) :
  calculateDistance lat1 lon1 lat2 lon2
  = round (1000 * coordinateUtilsDistance lat1 lon1 lat2 lon2) /\
  nearestInteger (1000 * coordinateUtilsDistance lat1 lon1 lat2 lon2)
    (calculateDistance lat1 lon1 lat2 lon2).
Proof.
  assert (Heq : calculateDistance lat1 lon1 lat2 lon2
                = round (1000 * coordinateUtilsDistance lat1 lon1 lat2 lon2)).
  { unfold calculateDistance, coordinateUtilsDistance. cbv zeta. f_equal. ring. }
  split; [exact Heq|]. rewrite Heq. apply round_nearest.
Qed.

End DistanceFacts.

(** ** In-memory pagination *)

Section ListPagingFacts.
Context {A : Type}.
Import ListPaging.

Lemma paginate_page (posts : list A) (i : nat) (limit : Z) :
  (1 <= limit)%Z ->
  pagePosts (paginate posts (Z.of_nat (S i)) limit)
  = take (Z.to_nat limit) (drop (i * Z.to_nat limit) posts).
Proof.
  intros Hl. unfold paginate. cbn [pagePosts].
  rewrite slice_take_drop by nia. do 2 f_equal. nia.
Qed.

(** For a page size [n >= 1] the pages of the in-memory pagination tile the
    list: pages [1 .. k] are its first [k * n] elements, every page has at
    most [n] elements, [totalCount] is the length of the list, the page
    count is its ceiling, and the pages up to that count are the whole
    list. *)
Theorem paginate_tiles (posts : list A) (limit : Z) (k : nat) :
  (1 <= limit)%Z ->
  firstPages posts limit k = take (k * Z.to_nat limit) posts /\
  (forall page : Z,
     (1 <= page)%Z ->
     let p := paginate posts page limit in
     (length (pagePosts p) <= Z.to_nat limit)%nat /\
     count (pagePagination p) = length (pagePosts p) /\
     totalCount (pagePagination p) = length posts /\
     exists pages : Z,
       total (pagePagination p) = Some pages /\
       ((pages - 1) * limit < Z.of_nat (length posts) <= pages * limit)%Z /\
       firstPages posts limit (Z.to_nat pages) = posts).
Proof.
  intros Hl.
  assert (Htile : forall j, firstPages posts limit j
                            = take (j * Z.to_nat limit) posts).
  { intros j. unfold firstPages. induction j as [|j IH]; [reflexivity|].
    rewrite seq_S, map_app, concat_app, IH. cbn [map concat plus].
    rewrite app_nil_r, (paginate_page posts j limit Hl).
    rewrite take_take_drop. f_equal. lia. }
  split; [apply Htile|]. intros page Hp p. subst p.
  unfold paginate. cbn [pagePosts pagePagination count totalCount total].
  rewrite slice_take_drop by nia. split; [rewrite length_take; lia|].
  split; [reflexivity|]. split; [reflexivity|].
  destruct (ceilDiv_spec (Z.of_nat (length posts)) limit ltac:(lia))
    as (pages & Hpages & Hbound).
  exists pages. split; [exact Hpages|]. split; [exact Hbound|].
  rewrite Htile. apply take_ge. nia.
Qed.

(** A page number below 1 is not rejected.  Page 0 is empty; page [- m]
    with [m >= 1] holds the elements of the list from position
    [max(len - (m + 1) * n, 0)] up to [max(len - m * n, 0)], counted from
    the end of the list. *)
Theorem paginate_nonpositive_page (posts : list A) (limit : Z) (m : nat) :
  (1 <= limit)%Z ->
  pagePosts (paginate posts 0 limit) = [] /\
  let len := Z.of_nat (length posts) in
  let lo := Z.max (len - (Z.of_nat (S m) + 1) * limit) 0 in
  let hi := Z.max (len - Z.of_nat (S m) * limit) 0 in
  pagePosts (paginate posts (- Z.of_nat (S m)) limit)
  = take (Z.to_nat (hi - lo)) (drop (Z.to_nat lo) posts).
Proof.
  intros Hl. unfold paginate, JsArray.slice, JsArray.relIndex. cbn [pagePosts].
  split.
  - destruct (Z.ltb_spec ((0 - 1) * limit) 0); [|lia].
    destruct (Z.ltb_spec ((0 - 1) * limit + limit) 0); [lia|].
    rewrite (Z.min_l ((0 - 1) * limit + limit)) by lia.
    replace (Z.to_nat _) with 0%nat by lia. apply take_0.
  - cbv zeta.
    destruct (Z.ltb_spec ((- Z.of_nat (S m) - 1) * limit) 0); [|nia].
    destruct (Z.ltb_spec ((- Z.of_nat (S m) - 1) * limit + limit) 0); [|nia].
    replace (Z.of_nat (length posts) + (- Z.of_nat (S m) - 1) * limit)%Z
      with (Z.of_nat (length posts) - (Z.of_nat (S m) + 1) * limit)%Z by ring.
    replace (Z.of_nat (length posts) + ((- Z.of_nat (S m) - 1) * limit + limit))%Z
      with (Z.of_nat (length posts) - Z.of_nat (S m) * limit)%Z by ring.
    reflexivity.
Qed.

End ListPagingFacts.

(** ** The polygon center *)

Section PolygonFacts.
Import Polygon.
Local Open Scope Q_scope.

Lemma fold_totals (l : list (Q * Q)) (acc : Q * Q) (lo hi : Q) :
  Forall (fun c => lo <= c.1 <= hi) l ->
  let t := fold_left (fun (acc : Q * Q) (coord : Q * Q) =>
                        (acc.1 + coord.1, acc.2 + coord.2)) l acc in
  acc.1 + inject_Z (Z.of_nat (length l)) * lo <= t.1
  <= acc.1 + inject_Z (Z.of_nat (length l)) * hi.
Proof.
  intros Hall. revert acc. induction Hall as [|c l Hc _ IH]; intros acc.
  - cbv zeta. cbn [fold_left length]. change (inject_Z (Z.of_nat 0)) with 0. lra.
  - cbn [fold_left length]. specialize (IH (acc.1 + c.1, acc.2 + c.2)).
    cbv zeta in *. cbn [fst] in IH.
    rewrite Nat2Z.inj_succ, <- Z.add_1_r, inject_Z_plus.
    change (inject_Z 1) with 1. lra.
Qed.

Lemma fold_totals_snd (l : list (Q * Q)) (acc : Q * Q) (lo hi : Q) :
  Forall (fun c => lo <= c.2 <= hi) l ->
  let t := fold_left (fun (acc : Q * Q) (coord : Q * Q) =>
                        (acc.1 + coord.1, acc.2 + coord.2)) l acc in
  acc.2 + inject_Z (Z.of_nat (length l)) * lo <= t.2
  <= acc.2 + inject_Z (Z.of_nat (length l)) * hi.
Proof.
  intros Hall. revert acc. induction Hall as [|c l Hc _ IH]; intros acc.
  - cbv zeta. cbn [fold_left length]. change (inject_Z (Z.of_nat 0)) with 0. lra.
  - cbn [fold_left length]. specialize (IH (acc.1 + c.1, acc.2 + c.2)).
    cbv zeta in *. cbn [snd] in IH.
    rewrite Nat2Z.inj_succ, <- Z.add_1_r, inject_Z_plus.
    change (inject_Z 1) with 1. lra.
Qed.

Lemma mean_between (t n lo hi : Q) :
  0 < n -> n * lo <= t <= n * hi -> lo <= t / n <= hi.
Proof.
  intros Hn [Hlo Hhi]. split.
  - apply Qle_shift_div_l; [exact Hn|]. lra.
  - apply Qle_shift_div_r; [exact Hn|]. lra.
Qed.

(** The center of a polygon with at least one vertex lies inside every
    longitude and latitude range that holds all its vertices; for an empty
    polygon both components are [NaN]. *)
Theorem getPolygonCenter_within_bounds (coordinates : list (Q * Q))
    (west east south north : Q) :
  coordinates <> [] ->
  Forall (fun c => west <= c.1 <= east /\ south <= c.2 <= north) coordinates ->
  (exists lng lat : Q,
     getPolygonCenter coordinates = (JsNum.Num lng, JsNum.Num lat) /\
     west <= lng <= east /\ south <= lat <= north) /\
  getPolygonCenter [] = (JsNum.NaN, JsNum.NaN).
Proof.
  intros Hne Hall. split; [|reflexivity].
  unfold getPolygonCenter. destruct coordinates as [|c l]; [contradiction|].
  set (pts := c :: l) in *. cbv zeta.
  change (length pts) with (S (length l)) at 1.
  cbv iota. do 2 eexists. split; [reflexivity|].
  assert (Hn : 0 < inject_Z (Z.of_nat (length pts))).
  { change 0 with (inject_Z 0). rewrite <- Zlt_Qlt. subst pts. cbn [length]. lia. }
  pose proof (fold_totals pts (0, 0) west east) as H1.
  pose proof (fold_totals_snd pts (0, 0) south north) as H2.
  cbv zeta in H1, H2. cbn [fst snd] in H1, H2.
  split; apply mean_between; try exact Hn.
  - rewrite !Qplus_0_l in H1. apply H1.
    eapply Forall_impl; [exact Hall|]. intros ? [? _]. assumption.
  - rewrite !Qplus_0_l in H2. apply H2.
    eapply Forall_impl; [exact Hall|]. intros ? [_ ?]. assumption.
Qed.

End PolygonFacts.

(** ** The earlier and the current [advancedSearch] *)

Section LegacyFacts.
Context `{Env}.
Import PostQueryHelper SearchSpec.

Lemma legacy_buildQuery (params : SearchParams.t) :
  truthyStr (SearchParams.searchText params) = None ->
  SearchParams.roadAccess params = None ->
  SearchParams.waterSource params = None ->
  SearchParams.electricity params <> Some true ->
  LegacyPostQueryHelper.buildQuery params = Done (predicate params).
Proof.
  intros Ht Hr Hw He.
  unfold LegacyPostQueryHelper.buildQuery, predicate,
    LegacyPostQueryHelper.addFilters, addFilters.
  cbv zeta. rewrite Ht, Hr, Hw. rewrite (bool_decide_eq_false_2 _ He).
  reflexivity.
Qed.

(** For a request without free text and without land filters, with page
    and page size at least 1, the current [advancedSearch] answers as the
    earlier one did: the same listings in the same order with the same
    distances, the same pagination and the same search information. *)
Theorem advancedSearch_agrees_with_legacy (db : Store) (params : SearchParams.t) :
  truthyStr (SearchParams.searchText params) = None ->
  SearchParams.roadAccess params = None ->
  SearchParams.waterSource params = None ->
  SearchParams.electricity params <> Some true ->
  (1 <= pageOf params)%Z ->
  (1 <= limitOf params)%Z ->
  exists old new : SearchResponse,
    resultOf (LegacyPostQueryHelper.advancedSearch db params) = Some old /\
    resultOf (advancedSearch db params) = Some new /\
    map (fun h => (doc h, distance h, relevanceScore h)) (posts old)
    = map (fun h => (doc h, distance h, relevanceScore h)) (posts new) /\
    pagination old = pagination new /\
    searchInfo old = searchInfo new.
Proof.
  intros Ht Hr Hw He Hp Hl.
  assert (Hrel : useRelevanceSort params = false)
    by (unfold useRelevanceSort; rewrite Ht; reflexivity).
  assert (Hskip : fetchSkipOf params = skipOf params)
    by (unfold fetchSkipOf; rewrite Hrel; reflexivity).
  assert (Hlim : fetchLimitOf params = limitOf params)
    by (unfold fetchLimitOf; rewrite Hrel; reflexivity).
  assert (Hc : compiles params = true)
    by (unfold compiles; rewrite Ht; reflexivity).
  rewrite (advancedSearch_done db params Hc)
    by (apply paged_fetchSkip; assumption).
  unfold LegacyPostQueryHelper.advancedSearch.
  rewrite (legacy_buildQuery params Ht Hr Hw He), lift_bind. unfold find.
  fold (skipOf params).
  destruct (Z.ltb_spec (skipOf params) 0); [unfold skipOf in *; nia|].
  rewrite <- (matching_compiles db params Hc).
  change (ordered (predicate params) (sortQueryOf (sortByOf params))
            (matching db params)) with (nativeOrder db params).
  assert (Hwin : limitDocs (limitOf params)
                   (drop (Z.to_nat (skipOf params)) (nativeOrder db params))
                 = window db params)
    by (unfold window; rewrite Hskip, Hlim; reflexivity).
  rewrite Hwin.
  destruct (populate_docs db (window db params)) as (hits & Hpop & Hdocs).
  unfold mbind, M_bind, bind, both, countDocuments. cbv beta iota zeta.
  rewrite Hpop. cbn [fst snd resultOf].
  do 2 eexists. split; [reflexivity|]. split; [reflexivity|].
  cbn [posts pagination searchInfo].
  assert (Hlen : length hits = length (window db params))
    by (rewrite <- Hdocs, length_map; reflexivity).
  split; [|split; [rewrite Hlen, (matching_compiles db params Hc); reflexivity
                  | reflexivity]].
  unfold processed. rewrite Ht. unfold annotated, populated.
  assert (Hhits : map (fun h => (doc h, distance h, relevanceScore h)) hits
                  = map (fun p => (p, None, None)) (window db params)).
  { injection Hpop as Hpop. rewrite <- Hpop, map_map. reflexivity. }
  destruct (geocenter params) as [[lat lng]|]; rewrite ?map_map.
  - cbn [withDistance resolveAuthor doc distance relevanceScore].
    injection Hpop as Hpop. rewrite <- Hpop, map_map. reflexivity.
  - rewrite Hhits. reflexivity.
Qed.

End LegacyFacts.

(** ** What a search serves *)

Section ServedFacts.
Context `{Env}.
Import PostQueryHelper SearchSpec.






(** Whatever the query string, [searchPosts] answers 200 or 500, never
    400; a 200 response holds approved listings only, and its [total] is
    the number of approved listings that satisfy the filter object built
    from the query string. *)
Theorem searchPosts_serves_only_approved (db : Store) (req : Request) :
  match (PostController.searchPosts db req).1 with
  | SuccessWithPagination data page limit total pages _ =>
      Forall (fun h => status (doc h) = approved) data /\
      page = PostController.intOr req "page" 1 /\
      limit = PostController.intOr req "limit" 10 /\
      exists query : Query,
        buildQuery (PostController.searchParamsOf req) = Done query /\
        total
        = length (List.filter
                    (fun p => bool_decide (status p = approved)
                              && matches query p)
                    (postsOf db))
  | InternalError message => message = "Error searching posts"
  | BadRequest _ => False
  end.
Proof.
  unfold PostController.searchPosts, PostService.advancedSearch.
  set (params := PostController.searchParamsOf req).
  pose proof (advancedSearch_only_approved db params) as Happroved.
  destruct (compiles params) eqn:Hc;
    [|rewrite (advancedSearch_syntax_error db params Hc); reflexivity].
  destruct (Z_lt_ge_dec (fetchSkipOf params) 0) as [Hneg|Hpos].
  - pose proof (advancedSearch_rejected db params Hneg) as Hrej.
    unfold resultOf in Hrej.
    destruct (advancedSearch db params) as [[r|e] ops]; [discriminate|].
    reflexivity.
  - rewrite (advancedSearch_done db params Hc) in * by lia.
    cbn. split; [exact (Happroved _ eq_refl)|].
    split; [reflexivity|]. split; [reflexivity|].
    exists (predicate params). split; [apply buildQuery_Done; auto|].
    rewrite (matching_compiles db params Hc), <- matches_approved.
    reflexivity.
Qed.

End ServedFacts.

(** ** The further properties at concrete inputs *)

Section MoreExamples.
Import PostQueryHelper SearchSpec Paging Demo DemoMore.



Lemma direct_mode_exact_page_witness :
  exists r : SearchResponse,
    advancedSearch marketStore SearchParams.empty
    = (Done r, accesses marketStore SearchParams.empty) /\
    map doc (posts r)
    = take (Z.to_nat (limitOf SearchParams.empty))
        (drop (Z.to_nat ((pageOf SearchParams.empty - 1)
                         * limitOf SearchParams.empty))
           (nativeOrder marketStore SearchParams.empty)) /\
    count (pagination r) = length (posts r) /\
    (Z.of_nat (length (posts r)) <= limitOf SearchParams.empty)%Z.
Proof.
  apply (direct_mode_exact_page marketStore SearchParams.empty);
    [reflexivity | reflexivity | vm_compute; discriminate
     | vm_compute; discriminate].
Defined.

Lemma direct_pages_tile_witness :
  firstPages manyMarkets (request None None None None None (Some 3%Z)) 2
  = take (2 * Z.to_nat 3)
      (nativeOrder manyMarkets (request None None None None None (Some 3%Z))) /\
  ((length (matching manyMarkets (request None None None None None (Some 3%Z)))
    <= 2 * Z.to_nat 3)%nat ->
   firstPages manyMarkets (request None None None None None (Some 3%Z)) 2
     ≡ₚ matching manyMarkets (request None None None None None (Some 3%Z))).
Proof.
  apply (direct_pages_tile manyMarkets
           (request None None None None None (Some 3%Z)) 2);
    [reflexivity | vm_compute; discriminate].
Defined.

Lemma results_follow_sort_key_witness :
  exists r : SearchResponse,
    resultOf (advancedSearch marketStore
                (request None None None (Some "oldest") None None)) = Some r /\
    ascendingBy (fun p => inject_Z (createdAt p)) (map doc (posts r)) /\
    map postId (map doc (posts r)) = ["p1"; "p2"].
Proof.
  destruct (results_follow_sort_key marketStore
              (request None None None (Some "oldest") None None))
    as (r & Hr & _ & Hold & _);
    [reflexivity | reflexivity | vm_compute; discriminate
     | vm_compute; discriminate |].
  exists r. split; [exact Hr|]. split; [exact (Hold eq_refl)|].
  vm_compute in Hr. injection Hr as <-. reflexivity.
Defined.


Lemma distance_sort_is_nearest_first_witness :
  exists r : SearchResponse,
    resultOf (advancedSearch twoDistances marketNearCenter) = Some r /\
    ascendingBy
      (fun p => geoDistance ((1026331 # 10000)%Q, (179757 # 10000)%Q) (coordinates p))
      (map doc (posts r)).
Proof.
  apply (distance_sort_is_nearest_first twoDistances marketNearCenter
           (179757 # 10000)%Q (1026331 # 10000)%Q);
    [reflexivity | reflexivity | reflexivity | vm_compute; discriminate
     | vm_compute; discriminate].
Defined.

Lemma relevance_pages_serve_window_witness :
  firstPages marketStore marketSearch 5
  = map doc (ranked marketStore marketSearch "market") /\
  firstPages marketStore marketSearch 5
    ≡ₚ take (5 * Z.to_nat (limitOf marketSearch))
         (nativeOrder marketStore marketSearch) /\
  ((length (matching marketStore marketSearch)
    <= 5 * Z.to_nat (limitOf marketSearch))%nat ->
   firstPages marketStore marketSearch 5 ≡ₚ matching marketStore marketSearch).
Proof.
  apply (relevance_pages_serve_window marketStore marketSearch "market");
    [reflexivity | discriminate | vm_compute; discriminate].
Defined.

Lemma relevance_count_is_window_size_witness :
  exists r : SearchResponse,
    resultOf (advancedSearch manyMarkets marketPageSix) = Some r /\
    count (pagination r)
    = Nat.min (5 * Z.to_nat (limitOf marketPageSix))
        (length (matching manyMarkets marketPageSix)) /\
    length (posts r)
    = Nat.min (Z.to_nat (limitOf marketPageSix))
        (count (pagination r)
         - Z.to_nat (pageOf marketPageSix - 1) * Z.to_nat (limitOf marketPageSix)).
Proof.
  apply (relevance_count_is_window_size manyMarkets marketPageSix "market");
    [reflexivity | reflexivity | discriminate | vm_compute; discriminate
     | vm_compute; discriminate].
Defined.

Lemma authors_resolved_or_null_witness :
  exists r : SearchResponse,
    resultOf (advancedSearch marketStore SearchParams.empty) = Some r /\
    Forall (fun h =>
              match author h with
              | Some u =>
                  u ∈ usersOf marketStore /\ authorId (doc h) = Some (userId u)
              | None =>
                  forall id : string,
                    authorId (doc h) = Some id ->
                    id <> "" ->
                    isValidObjectId id = true ->
                    forall u : User, u ∈ usersOf marketStore -> userId u <> id
              end)
      (posts r).
Proof.
  apply (authors_resolved_or_null marketStore SearchParams.empty);
    [reflexivity | vm_compute; discriminate | vm_compute; discriminate].
Defined.

Lemma free_text_results_score_at_least_3_witness :
  exists r : SearchResponse,
    resultOf (advancedSearch marketStore marketSearch) = Some r /\
    Forall (fun h => exists s : Q, relevanceScore h = Some s /\ (3 <= s)%Q)
      (posts r).
Proof.
  apply (free_text_results_score_at_least_3 marketStore marketSearch "market").
  - split; [reflexivity | intros subject; reflexivity].
  - reflexivity.
  - repeat constructor; vm_compute; discriminate.
  - vm_compute; discriminate.
  - vm_compute; discriminate.
Defined.

Lemma findNearbyPosts_without_status_key_witness :
  exists (hits : list Hit) (n : nat),
    resultOf (findNearbyPosts marketStore (179757 # 10000)%Q (1026331 # 10000)%Q
                (JsNum.Num 5000) ∅ 0 10) = Some hits /\
    resultOf (countNearbyPosts marketStore (179757 # 10000)%Q (1026331 # 10000)%Q
                (JsNum.Num 5000) ∅) = Some n /\
    Forall (fun h =>
              status (doc h) = approved /\
              (geoDistance ((1026331 # 10000)%Q, (179757 # 10000)%Q)
                 (coordinates (doc h)) <= 5000)%Q) hits /\
    ascendingBy
      (fun p => geoDistance ((1026331 # 10000)%Q, (179757 # 10000)%Q) (coordinates p))
      (map doc hits) /\
    (length hits <= n)%nat.
Proof.
  apply (findNearbyPosts_without_status_key marketStore (179757 # 10000)%Q
           (1026331 # 10000)%Q 5000 ∅ 0 10);
    [reflexivity | reflexivity | vm_compute; discriminate].
Defined.

Lemma findWithAdvancedFilter_without_status_key_witness :
  exists (hits : list Hit) (total : nat),
    resultOf (findWithAdvancedFilter marketStore ∅
                (Some (mkSort ByCreatedAt true)) 0 10)
    = Some (hits, total) /\
    total = length (List.filter
                      (fun p => bool_decide (status p = approved)
                                && matches ∅ p) (postsOf marketStore)) /\
    Forall (fun h => status (doc h) = approved /\ matches ∅ (doc h) = true)
      hits /\
    (length hits <= total)%nat.
Proof.
  apply (findWithAdvancedFilter_without_status_key marketStore ∅
           (Some (mkSort ByCreatedAt true)) 0 10);
    [reflexivity | vm_compute; discriminate].
Defined.

Lemma getNearbyPosts_serves_approved_within_radius_witness :
  exists (data : list Hit) (total : nat) (pages : option Z) (log : list StoreOp),
    PostController.getNearbyPosts marketStore nearbyRequest
    = (SuccessWithPagination data
         (PostController.intOr nearbyRequest "page" 1)
         (PostController.intOr nearbyRequest "limit" 10)
         total pages "Found posts within radius", log) /\
    Forall (fun h =>
              status (doc h) = approved /\
              (geoDistance (102, 17) (coordinates (doc h)) <= 5000)%Q /\
              distance h
              = Some (calculateDistance 17 102
                        (coordinates (doc h)).2 (coordinates (doc h)).1))
      data /\
    (length data <= total)%nat.
Proof.
  apply (getNearbyPosts_serves_approved_within_radius marketStore nearbyRequest
           "17" "102" 17 102 5000);
    try reflexivity; try (vm_compute; discriminate);
    split; vm_compute; discriminate.
Defined.

Lemma advancedSearch_agrees_with_legacy_witness :
  exists old new : SearchResponse,
    resultOf (LegacyPostQueryHelper.advancedSearch marketStore SearchParams.empty)
    = Some old /\
    resultOf (advancedSearch marketStore SearchParams.empty) = Some new /\
    map (fun h => (doc h, distance h, relevanceScore h)) (posts old)
    = map (fun h => (doc h, distance h, relevanceScore h)) (posts new) /\
    pagination old = pagination new /\
    searchInfo old = searchInfo new.
Proof.
  apply (advancedSearch_agrees_with_legacy marketStore SearchParams.empty);
    try reflexivity; try discriminate; vm_compute; discriminate.
Defined.

End MoreExamples.

Section MoreExamplesPure.
Import Demo DemoMore.

Lemma isInLaos_is_valid_witness :
  CoordinateUtils.toGeoJSON (JsNum.Num (179757 # 10000)%Q)
    (JsNum.Num (1026331 # 10000)%Q)
  = Done (CoordinateUtils.mkPoint "Point"
            (Some [JsNum.Num (1026331 # 10000)%Q; JsNum.Num (179757 # 10000)%Q])).
Proof.
  apply (isInLaos_is_valid (JsNum.Num (179757 # 10000)%Q)
           (JsNum.Num (1026331 # 10000)%Q)).
  reflexivity.
Defined.

Lemma createBoundingBox_contains_center_witness :
  let box := BoundingBox.createBoundingBox 0 0 1 in
  (BoundingBox.minLat box <= 0 <= BoundingBox.maxLat box /\
   BoundingBox.minLng box <= 0 <= BoundingBox.maxLng box /\
   (BoundingBox.minLat box + BoundingBox.maxLat box) / 2 = 0 /\
   (BoundingBox.minLng box + BoundingBox.maxLng box) / 2 = 0 /\
   BoundingBox.maxLat box - BoundingBox.minLat box = 2 * 1 / 111.32 /\
   BoundingBox.maxLat box - BoundingBox.minLat box
   <= BoundingBox.maxLng box - BoundingBox.minLng box)%R.
Proof.
  apply (createBoundingBox_contains_center 0 0 1); Lra.lra.
Defined.

Lemma paginate_tiles_witness :
  ListPaging.firstPages ids 2 2 = take (2 * Z.to_nat 2) ids /\
  (forall page : Z,
     (1 <= page)%Z ->
     let p := ListPaging.paginate ids page 2 in
     (length (ListPaging.pagePosts p) <= Z.to_nat 2)%nat /\
     count (ListPaging.pagePagination p) = length (ListPaging.pagePosts p) /\
     totalCount (ListPaging.pagePagination p) = length ids /\
     exists pages : Z,
       total (ListPaging.pagePagination p) = Some pages /\
       ((pages - 1) * 2 < Z.of_nat (length ids) <= pages * 2)%Z /\
       ListPaging.firstPages ids 2 (Z.to_nat pages) = ids).
Proof.
  apply (paginate_tiles ids 2 2). vm_compute; discriminate.
Defined.

Lemma paginate_nonpositive_page_witness :
  ListPaging.pagePosts (ListPaging.paginate ids 0 2) = [] /\
  ListPaging.pagePosts (ListPaging.paginate ids (- 1) 2) = [2; 3]%nat.
Proof.
  destruct (paginate_nonpositive_page ids 2 0) as [Hzero Hneg];
    [vm_compute; discriminate|].
  split; [exact Hzero | exact Hneg].
Defined.

Lemma getPolygonCenter_within_bounds_witness :
  (exists lng lat : Q,
     Polygon.getPolygonCenter triangle = (JsNum.Num lng, JsNum.Num lat) /\
     (0 <= lng <= 4)%Q /\ (0 <= lat <= 3)%Q) /\
  Polygon.getPolygonCenter [] = (JsNum.NaN, JsNum.NaN).
Proof.
  apply (getPolygonCenter_within_bounds triangle 0 4 0 3);
    [discriminate|].
  repeat constructor; vm_compute; discriminate.
Defined.

End MoreExamplesPure.
